(** * UpdateData.py: the reshape-and-derive pipeline, embedded and verified

    The development follows [src/UpdateData.py] function by function:
    [fix_fips], [get_dicts], [combine_data], [new_column] and the driver
    [Dataset].  pandas objects are modelled by the data they hold:

    - a wide table (confirmed, deaths) is its list of column labels and its
      rows in file order; the row label of [read_csv]'s RangeIndex is the
      position of the row;
    - the long table is a frame: its (FIPS, Date) index and its named
      columns, each a list of cells aligned with the index;
    - a Python dict is an association list in insertion order;
    - an exception is a value [Raise e] of the [result] type; loops and
      comprehensions run left to right and stop at the first exception.

    Numbers.  Counts are integers ([Z]); float64 cells are [float64]: a
    rational, an infinity or NaN.  Rounding error of float64 arithmetic,
    signed zeros and the wrap-around of int64 sums are not modelled: the
    quantities of this program (case counts, populations) are far inside the
    range where float64 and int64 are exact enough for the rounding that
    follows.  The explicit narrowing [astype('int32')] of [fix_fips] is
    modelled with its range.

    Run-dependent choices.  Python iterates over a set of strings in an
    order that changes from run to run; that order is a parameter
    ([set_order]) of [get_dicts] and [Dataset].

    Reading and writing files, and the diagnostic [print] of
    [combine_data], are left out: the inputs are the three tables as
    [read_csv] returns them, the output is the table handed to [to_csv]. *)

From Stdlib Require Import ZArith QArith Bool Arith Lia List.
From Stdlib Require Import Ascii String DecimalString.
From Stdlib Require Import Permutation Sorted.
Import ListNotations.

Open Scope string_scope.
Open Scope list_scope.

Abbreviation len := (@Datatypes.length _).

(* ================================================================== *)
(** ** Exceptions *)
(* ================================================================== *)

(** The Python exceptions the pipeline can raise.  [AssertionError] is the
    failed [assert] of [Dataset] ('Timeseries do not match.'), which the
    specification calls StaleDataError.  [IntCastingNaNError] is what pandas
    raises when a non-finite float is cast to an integer type. *)
Inductive error : Set :=
| AssertionError
| IndexError
| KeyError
| TypeError
| ValueError
| IntCastingNaNError.

Inductive result (A : Type) : Type :=
| Ok (a : A)
| Raise (e : error).
Arguments Ok {A} a.
Arguments Raise {A} e.

Definition bind {A B : Type} (c : result A) (k : A -> result B) : result B :=
  match c with
  | Ok a => k a
  | Raise e => Raise e
  end.

Notation "x <- c ;; k" := (bind c (fun x => k))
  (at level 61, c at next level, right associativity).
Notation "' p <- c ;; k" := (bind c (fun x => let 'p := x in k))
  (at level 61, p pattern, c at next level, right associativity).

(** A comprehension or a loop whose body can raise: the elements are
    evaluated left to right and the first exception wins. *)
Fixpoint mapM {A B : Type} (f : A -> result B) (l : list A) : result (list B) :=
  match l with
  | [] => Ok []
  | a :: l' => b <- f a ;; bs <- mapM f l' ;; Ok (b :: bs)
  end.

(** A loop that threads an accumulator through a body that can raise. *)
Fixpoint foldM {A S : Type} (f : S -> A -> result S) (l : list A) (s : S)
  : result S :=
  match l with
  | [] => Ok s
  | a :: l' => s' <- f s a ;; foldM f l' s'
  end.

(* ================================================================== *)
(** ** float64 cells *)
(* ================================================================== *)

Inductive float64 : Type :=
| Finite (q : Q)
| Inf (negative : bool)
| NaN.

Definition of_int (z : Z) : float64 := Finite (inject_Z z).

Definition Qneg (q : Q) : bool := (Qnum q <? 0)%Z.
Definition Qzero (q : Q) : bool := (Qnum q =? 0)%Z.

Definition fadd (x y : float64) : float64 :=
  match x, y with
  | NaN, _ | _, NaN => NaN
  | Finite a, Finite b => Finite (a + b)
  | Inf s, Finite _ | Finite _, Inf s => Inf s
  | Inf s, Inf t => if Bool.eqb s t then Inf s else NaN
  end.

Definition fsub (x y : float64) : float64 :=
  match x, y with
  | NaN, _ | _, NaN => NaN
  | Finite a, Finite b => Finite (a - b)
  | Inf s, Finite _ => Inf s
  | Finite _, Inf s => Inf (negb s)
  | Inf s, Inf t => if Bool.eqb s t then NaN else Inf s
  end.

Definition fdiv (x y : float64) : float64 :=
  match x, y with
  | NaN, _ | _, NaN => NaN
  | Finite a, Finite b =>
      if Qzero b then (if Qzero a then NaN else Inf (Qneg a))
      else Finite (a / b)
  | Inf s, Finite b => Inf (xorb s (Qneg b))
  | Finite _, Inf _ => Finite 0
  | Inf _, Inf _ => NaN
  end.

(** [numpy.round(x, 0)]: to the nearest integer, a tie to the even one. *)
Definition round_half_even (q : Q) : Z :=
  let n := Qnum q in
  let d := Z.pos (Qden q) in
  let f := (n / d)%Z in
  match (2 * (n mod d) ?= d)%Z with
  | Lt => f
  | Gt => (f + 1)%Z
  | Eq => if Z.even f then f else (f + 1)%Z
  end.

Definition fround (x : float64) : float64 :=
  match x with
  | Finite q => Finite (inject_Z (round_half_even q))
  | _ => x
  end.

(** [Series.fillna(0)] on one cell. *)
Definition fillna0 (x : float64) : float64 :=
  match x with
  | NaN => Finite 0
  | _ => x
  end.

(** The cast of a float64 cell to an integer type: towards zero; pandas
    refuses NaN and the infinities. *)
Definition Qtrunc (q : Q) : Z := Z.quot (Qnum q) (Z.pos (Qden q)).

Definition to_int (x : float64) : result Z :=
  match x with
  | Finite q => Ok (Qtrunc q)
  | _ => Raise IntCastingNaNError
  end.

(* ================================================================== *)
(** ** Strings *)
(* ================================================================== *)

(** [str(n)] of a Python int. *)
Definition str_of_Z (z : Z) : string := NilZero.string_of_int (Z.to_int z).

Fixpoint zeros (n : nat) : string :=
  match n with
  | O => EmptyString
  | S n' => String "0" (zeros n')
  end.

(** [str.zfill(width)], as Python's: zeros on the left up to the width,
    after a leading sign; a string that is long enough is returned as it
    is.  (pandas releases that pad without regard to the sign differ on
    negative numbers only.) *)
Definition zfill (width : nat) (s : string) : string :=
  let n := String.length s in
  if (width <=? n)%nat then s
  else match s with
       | String c rest =>
           if (Ascii.eqb c "+" || Ascii.eqb c "-")%bool
           then String c (zeros (width - n) ++ rest)%string
           else (zeros (width - n) ++ s)%string
       | EmptyString => zeros width
       end.

(* ================================================================== *)
(** ** fix_fips *)
(* ================================================================== *)

(** A raw cell of the FIPS column as [read_csv] leaves it: an int64 when the
    column has no gap, else a float64 with NaN for a missing value. *)
Inductive raw_fips : Type :=
| RawInt (z : Z)
| RawFloat (x : float64).

Definition int32_min : Z := (- 2147483648)%Z.
Definition int32_max : Z := 2147483647%Z.

Definition wrap32 (z : Z) : Z :=
  ((z + 2147483648) mod 4294967296 - 2147483648)%Z.

Definition fillna0_raw (c : raw_fips) : raw_fips :=
  match c with
  | RawFloat x => RawFloat (fillna0 x)
  | RawInt z => RawInt z
  end.

(** [astype('int32')] on one cell.  An int64 is narrowed modulo 2^32.  A
    finite float is truncated towards zero; outside the int32 range the C
    conversion gives the most negative int32 on the usual hardware.  A
    non-finite float raises. *)
Definition astype_int32 (c : raw_fips) : result Z :=
  match c with
  | RawInt z => Ok (wrap32 z)
  | RawFloat (Finite q) =>
      let t := Qtrunc q in
      Ok (if ((int32_min <=? t) && (t <=? int32_max))%Z%bool then t else int32_min)
  | RawFloat _ => Raise IntCastingNaNError
  end.

(** [.fillna(0).astype('int32').astype('str').str.zfill(5)] on one cell. *)
Definition fix_fips_cell (c : raw_fips) : result string :=
  n <- astype_int32 (fillna0_raw c) ;;
  Ok (zfill 5 (str_of_Z n)).

(* ================================================================== *)
(** ** The input tables *)
(* ================================================================== *)

(** A row of a wide time-series table: the identifier cell ([F] is
    [raw_fips] as read, [string] after [fix_fips]), the display region and
    the cumulative counts, one per date column. *)
Record wide_row (F : Type) : Type := mk_wide_row {
  FIPS : F;
  Province_State : string;
  counts : list Z
}.
Arguments mk_wide_row {F}.
Arguments FIPS {F}.
Arguments Province_State {F}.
Arguments counts {F}.

(** A wide table: the labels of the leading columns (identifier and
    geographic columns; eleven of them in the confirmed feed), the labels of
    the date columns, and the rows in file order.  The row label is the
    position in [rows].  Rows are as wide as the header, as [read_csv]
    makes them. *)
Record wide (F : Type) : Type := mk_wide {
  lead_columns : list string;
  date_columns : list string;
  rows : list (wide_row F)
}.
Arguments mk_wide {F}.
Arguments lead_columns {F}.
Arguments date_columns {F}.
Arguments rows {F}.

(** [df.columns] *)
Definition columns {F} (t : wide F) : list string :=
  lead_columns t ++ date_columns t.

(** A row of the population reference. *)
Record pop_row (F : Type) : Type := mk_pop_row {
  pop_FIPS : F;
  STNAME : string;
  PER100K : float64
}.
Arguments mk_pop_row {F}.
Arguments pop_FIPS {F}.
Arguments STNAME {F}.
Arguments PER100K {F}.

Definition population (F : Type) : Type := list (pop_row F).

(** [fix_fips] on a wide table and on the population table: the FIPS column
    is rewritten cell by cell. *)
Definition fix_fips (df : wide raw_fips) : result (wide string) :=
  rs <- mapM (fun r => f <- fix_fips_cell (FIPS r) ;;
                       Ok (mk_wide_row f (Province_State r) (counts r)))
             (rows df) ;;
  Ok (mk_wide (lead_columns df) (date_columns df) rs).

Definition fix_fips_pop (df : population raw_fips) : result (population string) :=
  mapM (fun r => f <- fix_fips_cell (pop_FIPS r) ;;
                 Ok (mk_pop_row f (STNAME r) (PER100K r)))
       df.

(** Position of a label in a list of labels. *)
Fixpoint position (x : string) (l : list string) : option nat :=
  match l with
  | [] => None
  | y :: l' => if String.eqb x y then Some O
               else option_map S (position x l')
  end.

Definition cell (j : nat) (r : wide_row string) : Z := nth j (counts r) 0%Z.

(** [sub[label]] for a selection [sub] of the rows of [t]: the cells of the
    date column of that label.  A label that is no column raises KeyError; a
    leading column holds no counts and the model refuses to read one as
    counts. *)
Definition column_of (t : wide string) (sub : list (wide_row string))
    (label : string) : result (list Z) :=
  match position label (date_columns t) with
  | Some j => Ok (map (cell j) sub)
  | None => if existsb (String.eqb label) (lead_columns t)
            then Raise TypeError else Raise KeyError
  end.

Definition column (t : wide string) (label : string) : result (list Z) :=
  column_of t (rows t) label.

(** [np.sum] *)
Definition np_sum (l : list Z) : Z := fold_right Z.add 0%Z l.

(** [int] applied to the unpacked labels: no label gives [int()], which
    is 0; one label gives it; with two or more, [int] is called with a non-string and a base, or
    with too many arguments, and raises TypeError. *)
Definition int_star (labels : list nat) : result nat :=
  match labels with
  | [] => Ok O
  | [i] => Ok i
  | _ => Raise TypeError
  end.

(* ================================================================== *)
(** ** Dates *)
(* ================================================================== *)

Record Timestamp : Set := mk_date { year : nat; month : nat; day : nat }.

Definition digit (c : ascii) : option nat :=
  let n := nat_of_ascii c in
  if ((48 <=? n) && (n <=? 57))%nat%bool then Some (n - 48)%nat else None.

(** [s.split('/')] *)
Fixpoint split_slash (s : string) : list string :=
  match s with
  | EmptyString => [EmptyString]
  | String c s' =>
      if Ascii.eqb c "/" then EmptyString :: split_slash s'
      else match split_slash s' with
           | tok :: rest => String c tok :: rest
           | [] => [String c EmptyString]
           end
  end.

(** The directive %m: [1[0-2]|0[1-9]|[1-9]]. *)
Definition parse_month (tok : string) : option nat :=
  match tok with
  | String a EmptyString =>
      match digit a with
      | Some (S n) => Some (S n)
      | _ => None
      end
  | String a (String b EmptyString) =>
      match digit a, digit b with
      | Some 0%nat, Some (S n) => Some (S n)
      | Some 1%nat, Some n => if (n <=? 2)%nat then Some (10 + n)%nat else None
      | _, _ => None
      end
  | _ => None
  end.

(** The directive %d: [3[01]|[12]\d|0[1-9]|[1-9]| [1-9]]. *)
Definition parse_day (tok : string) : option nat :=
  match tok with
  | String a EmptyString =>
      match digit a with
      | Some (S n) => Some (S n)
      | _ => None
      end
  | String a (String b EmptyString) =>
      if Ascii.eqb a " " then
        match digit b with
        | Some (S n) => Some (S n)
        | _ => None
        end
      else
        match digit a, digit b with
        | Some 0%nat, Some (S n) => Some (S n)
        | Some 1%nat, Some n => Some (10 + n)%nat
        | Some 2%nat, Some n => Some (20 + n)%nat
        | Some 3%nat, Some n => if (n <=? 1)%nat then Some (30 + n)%nat else None
        | _, _ => None
        end
  | _ => None
  end.

(** The directive %y: two digits; 00-68 are 2000-2068, 69-99 are
    1969-1999. *)
Definition parse_year (tok : string) : option nat :=
  match tok with
  | String a (String b EmptyString) =>
      match digit a, digit b with
      | Some x, Some y =>
          let yy := (10 * x + y)%nat in
          Some (if (yy <=? 68)%nat then 2000 + yy else 1900 + yy)%nat
      | _, _ => None
      end
  | _ => None
  end.

Definition leap (y : nat) : bool :=
  ((y mod 4 =? 0) && (negb (y mod 100 =? 0) || (y mod 400 =? 0)))%nat%bool.

Definition days_in_month (y m : nat) : nat :=
  match m with
  | 2 => if leap y then 29 else 28
  | 4 | 6 | 9 | 11 => 30
  | _ => 31
  end%nat.

(** [pd.to_datetime(label, format='%m/%d/%y')] on one label; a label that
    does not match the format, or names no day of the calendar, raises
    ValueError. *)
Definition to_datetime (label : string) : result Timestamp :=
  match split_slash label with
  | [m; d; y] =>
      match parse_month m, parse_day d, parse_year y with
      | Some mm, Some dd, Some yy =>
          if (dd <=? days_in_month yy mm)%nat then Ok (mk_date yy mm dd)
          else Raise ValueError
      | _, _, _ => Raise ValueError
      end
  | _ => Raise ValueError
  end.

(** Chronological order of calendar dates. *)
Definition date_leb (s t : Timestamp) : bool :=
  ((year s <? year t)
   || ((year s =? year t)
       && ((month s <? month t)
           || ((month s =? month t) && (day s <=? day t)))))%nat%bool.

Definition date_eqb (s t : Timestamp) : bool :=
  ((year s =? year t) && (month s =? month t) && (day s =? day t))%nat%bool.

(* ================================================================== *)
(** ** Sorting *)
(* ================================================================== *)

Section Sort.
Context {A : Type} (leb : A -> A -> bool).

Fixpoint insert_sorted (x : A) (l : list A) : list A :=
  match l with
  | [] => [x]
  | y :: l' => if leb x y then x :: l else y :: insert_sorted x l'
  end.

(** A stable sort: an element stays before the later elements it ties
    with. *)
Definition sort_by (l : list A) : list A := fold_right insert_sorted [] l.
End Sort.

(** Python's [sorted] on strings. *)
Definition sorted (l : list string) : list string := sort_by String.leb l.

(** The composite key of the long table and its order: identifier first,
    then the calendar date. *)
Definition long_key : Set := (string * Timestamp)%type.

Definition key_leb (a b : long_key) : bool :=
  (String.ltb (fst a) (fst b)
   || (String.eqb (fst a) (fst b) && date_leb (snd a) (snd b)))%bool.

(* ================================================================== *)
(** ** Dictionaries and frames *)
(* ================================================================== *)

(** A Python dict in insertion order: setting a key that is present
    overwrites its value where it stands, a new key goes to the end. *)
Section Dict.
Context {K V : Type} (eqb : K -> K -> bool).

Fixpoint dict_set (d : list (K * V)) (k : K) (v : V) : list (K * V) :=
  match d with
  | [] => [(k, v)]
  | (k', v') :: d' =>
      if eqb k k' then (k, v) :: d' else (k', v') :: dict_set d' k v
  end.

Fixpoint dict_get (d : list (K * V)) (k : K) : result V :=
  match d with
  | [] => Raise KeyError
  | (k', v') :: d' => if eqb k k' then Ok v' else dict_get d' k
  end.

(** A dict comprehension over the (key, value) pairs [l]. *)
Definition dict_of_list (l : list (K * V)) : list (K * V) :=
  fold_left (fun d kv => dict_set d (fst kv) (snd kv)) l [].
End Dict.

Definition pair_eqb (a b : string * string) : bool :=
  (String.eqb (fst a) (fst b) && String.eqb (snd a) (snd b))%bool.

(** The long table: the (FIPS, Date) index and the named columns, each
    aligned with the index. *)
Record frame : Type := mk_frame {
  index : list long_key;
  cols : list (string * list float64)
}.

(** The lists [get_dicts] returns. *)
Record list_dict : Type := mk_list_dict {
  all_fips : list string;
  state_fips : list string;
  county_fips : list string;
  pop_fips : list string;
  dates : list string
}.

(** [df2.loc[fips, 'STNAME']]: the name when the identifier labels one row
    of the population table, a Series of names when it labels several. *)
Inductive name_cell : Type :=
| NameStr (s : string)
| NameSeries.

Definition state_dict : Type := list (string * name_cell).

(** The rows of a table with their labels. *)
Definition labelled {A : Type} (l : list A) : list (nat * A) :=
  combine (seq 0 (len l)) l.

(** [df1.sort_values('FIPS')].  Rows that tie keep their order here;
    pandas' default sort may order them otherwise, which [get_dicts] can
    see only when a sentinel identifier is absent and the first row of the
    file ties with another row. *)
Definition sort_values_FIPS (l : list (nat * wide_row string))
  : list (nat * wide_row string) :=
  sort_by (fun a b => String.leb (FIPS (snd a)) (FIPS (snd b))) l.

(** [df[df['FIPS'] == fips].index] *)
Definition labels_where {A : Type} (p : A -> bool) (l : list (nat * A))
  : list nat :=
  map fst (filter (fun lr => p (snd lr)) l).

Fixpoint label_pos {A : Type} (a : nat) (l : list (nat * A)) : option nat :=
  match l with
  | [] => None
  | (b, _) :: l' => if (a =? b)%nat then Some O
                    else option_map S (label_pos a l')
  end.

(** [df.loc[a:b]] on a frame whose labels are distinct: the rows from the
    one labelled [a] to the one labelled [b], both included; nothing when
    [b] comes first.  On the empty frame the slice is empty. *)
Definition loc_slice {A : Type} (l : list (nat * A)) (a b : nat)
  : result (list (nat * A)) :=
  match l with
  | [] => Ok []
  | _ =>
      match label_pos a l, label_pos b l with
      | Some pa, Some pb => Ok (firstn (S pb - pa) (skipn pa l))
      | _, _ => Raise KeyError
      end
  end.

Definition mem (x : string) (l : list string) : bool :=
  existsb (String.eqb x) l.

(** [df2.loc[fips, 'STNAME']] *)
Definition loc_STNAME (df2 : population string) (fips : string)
  : result name_cell :=
  match filter (fun r => String.eqb (pop_FIPS r) fips) df2 with
  | [] => Raise KeyError
  | [r] => Ok (NameStr (STNAME r))
  | _ => Ok NameSeries
  end.

(** [data2.loc[fips, 'PER100K']].  When the identifier labels several rows
    pandas gives a Series, and the arithmetic that follows in [new_column]
    is no longer cell by cell: the run cannot complete, which the model
    records as ValueError here. *)
Definition loc_PER100K (data2 : population string) (fips : string)
  : result float64 :=
  match filter (fun r => String.eqb (pop_FIPS r) fips) data2 with
  | [] => Raise KeyError
  | [r] => Ok (PER100K r)
  | _ => Raise ValueError
  end.

(** [df.loc[int of the labels of the rows with that FIPS, date]] *)
Definition cell_at (t : wide string) (fips date : string) : result Z :=
  i <- int_star (labels_where (fun r => String.eqb (FIPS r) fips)
                              (labelled (rows t))) ;;
  col <- column t date ;;
  match nth_error col i with
  | Some v => Ok v
  | None => Raise KeyError
  end.

(** [np.sum(df[df['Province_State'] == name][date])]; comparing the column
    with a Series of names raises ValueError. *)
Definition state_sum (t : wide string) (name : name_cell) (date : string)
  : result Z :=
  match name with
  | NameSeries => Raise ValueError
  | NameStr s =>
      col <- column_of t
               (filter (fun r => String.eqb (Province_State r) s) (rows t))
               date ;;
      Ok (np_sum col)
  end.

(** [data[column]] *)
Fixpoint frame_col (cs : list (string * list float64)) (column : string)
  : result (list float64) :=
  match cs with
  | [] => Raise KeyError
  | (name, c) :: cs' =>
      if String.eqb column name then Ok c else frame_col cs' column
  end.

(** The cells of a column on the rows of one identifier, in table order. *)
Definition select (idx : list long_key) (col : list float64) (fips : string)
  : list float64 :=
  map snd (filter (fun kv => String.eqb (fst (fst kv)) fips) (combine idx col)).

(** [data.loc[fips, column]]: KeyError when the column or the identifier is
    absent. *)
Definition loc (data : frame) (fips column : string) : result (list float64) :=
  col <- frame_col (cols data) column ;;
  match select (index data) col fips with
  | [] => Raise KeyError
  | vs => Ok vs
  end.

(** [data[name] = lst]: the list must be as long as the table; a column of
    that name is replaced, a new one is added last. *)
Definition set_column (data : frame) (name : string) (lst : list float64)
  : result frame :=
  if (len lst =? len (index data))%nat
  then Ok (mk_frame (index data) (dict_set String.eqb (cols data) name lst))
  else Raise ValueError.

(** [Series.shift(periods)] and [Series.diff(periods)] for [periods >= 0]. *)
Definition shift (periods : nat) (s : list float64) : list float64 :=
  firstn (len s) (repeat NaN periods ++ s).

Definition diff (periods : nat) (s : list float64) : list float64 :=
  map (fun p => fsub (fst p) (snd p)) (combine s (shift periods s)).

(** The two kinds of calculation of [new_column]. *)
Inductive kind : Set := average | PER100K_kind.

(** The persisted table: [astype('int')] then [reset_index]. *)
Record int_frame : Type := mk_int_frame {
  out_columns : list string;
  out_index : list long_key;
  out_values : list (list Z)
}.

(** [[*df.columns][-1]] *)
Definition last_label (l : list string) : result string :=
  match rev l with
  | x :: _ => Ok x
  | [] => Raise IndexError
  end.

(* ================================================================== *)
(** ** The pipeline *)
(* ================================================================== *)

Section Pipeline.

(** The order in which Python iterates over a set of strings.  It varies
    from run to run (string hashing is salted), so it is a parameter; the
    theorems that need it assume only that it enumerates the set. *)
Variable set_order : list string -> list string.

(** [list(set(a) - set(b))] *)
Definition set_difference (a b : list string) : list string :=
  set_order (filter (fun x => negb (mem x b)) (nodup string_dec a)).

Definition get_dicts (df1 : wide string) (df2 : population string)
  : result (list_dict * state_dict) :=
  let pop_fips := map pop_FIPS df2 in
  let df1s := sort_values_FIPS (labelled (rows df1)) in
  index_01001 <-
    int_star (labels_where (fun r => String.eqb (FIPS r) "01001") df1s) ;;
  index_56045 <-
    int_star (labels_where (fun r => String.eqb (FIPS r) "56045") df1s) ;;
  range <- loc_slice df1s index_01001 index_56045 ;;
  let county_fips := map (fun lr => FIPS (snd lr)) range in
  let state_fips := sorted (set_difference pop_fips county_fips) in
  let all_fips := sorted ("00000" :: pop_fips) in
  let dates := skipn 11 (columns df1) in
  state_dict <-
    mapM (fun fips => v <- loc_STNAME df2 fips ;; Ok (fips, v)) state_fips ;;
  Ok (mk_list_dict all_fips state_fips county_fips pop_fips dates,
      state_dict).

(** The three keyed collections of [combine_data]. *)
Definition usa_total (df1 df2 : wide string) (dict1 : list_dict)
  : result (list ((string * string) * (Z * Z))) :=
  l <- mapM (fun date =>
               c <- column df1 date ;;
               d <- column df2 date ;;
               Ok (("00000", date), (np_sum c, np_sum d)))
            (dates dict1) ;;
  Ok (dict_of_list pair_eqb l).

Definition counties_dict (df1 df2 : wide string) (dict1 : list_dict)
  : result (list ((string * string) * (Z * Z))) :=
  l <- mapM (fun k =>
               c <- cell_at df1 (fst k) (snd k) ;;
               d <- cell_at df2 (fst k) (snd k) ;;
               Ok (k, (c, d)))
            (list_prod (county_fips dict1) (dates dict1)) ;;
  Ok (dict_of_list pair_eqb l).

Definition states (df1 df2 : wide string) (dict1 : list_dict)
    (dict2 : state_dict) : result (list ((string * string) * (Z * Z))) :=
  l <- mapM (fun k =>
               name <- dict_get String.eqb dict2 (fst k) ;;
               c <- state_sum df1 name (snd k) ;;
               name' <- dict_get String.eqb dict2 (fst k) ;;
               d <- state_sum df2 name' (snd k) ;;
               Ok (k, (c, d)))
            (list_prod (state_fips dict1) (dates dict1)) ;;
  Ok (dict_of_list pair_eqb l).

(** The rows of the long table: the three collections stacked, the date
    labels parsed, the whole sorted by the composite key. *)
Definition combine_rows (df1 df2 : wide string) (dict1 : list_dict)
    (dict2 : state_dict) : result (list (long_key * (Z * Z))) :=
  usa <- usa_total df1 df2 dict1 ;;
  _ <- (if (len (dates dict1) <? 2)%nat then Raise IndexError else Ok tt) ;;
  cnt <- counties_dict df1 df2 dict1 ;;
  sts <- states df1 df2 dict1 dict2 ;;
  let final_df := cnt ++ usa ++ sts in
  parsed <- mapM (fun kv =>
                    t <- to_datetime (snd (fst kv)) ;;
                    Ok ((fst (fst kv), t), snd kv))
                 final_df ;;
  Ok (sort_by (fun a b => key_leb (fst a) (fst b)) parsed).

Definition combine_data (df1 df2 : wide string) (df3 : population string)
    (dict1 : list_dict) (dict2 : state_dict) : result frame :=
  rs <- combine_rows df1 df2 dict1 dict2 ;;
  Ok (mk_frame (map fst rs)
        [("Confirmed", map (fun r => of_int (fst (snd r))) rs);
         ("Deaths", map (fun r => of_int (snd (snd r))) rs)]).

Definition new_column (column : string) (k : kind) (data : frame)
    (data2 : population string) (dict1 : list_dict) (days : nat)
  : result (list float64) :=
  let lst := [] in
  match k with
  | average =>
      foldM (fun lst fips =>
               s <- loc data fips column ;;
               let temp :=
                 map (fun x => fround (fdiv (fillna0 x) (of_int (Z.of_nat days))))
                     (diff days s) in
               Ok (lst ++ temp))
            (all_fips dict1) lst
  | PER100K_kind =>
      total <- foldM (fun total fips =>
                        p <- loc_PER100K data2 fips ;;
                        Ok (fadd total p))
                     (state_fips dict1) (Finite 0) ;;
      s0 <- loc data "00000" column ;;
      let lst := lst ++ map (fun x => fround (fdiv x total)) s0 in
      foldM (fun lst fips =>
               s <- loc data fips column ;;
               p <- loc_PER100K data2 fips ;;
               Ok (lst ++ map (fun x => fround (fdiv x p)) s))
            (pop_fips dict1) lst
  end.

(** [final_df.astype('int')] then [reset_index]. *)
Definition astype_int (data : frame) : result int_frame :=
  cs <- mapM (fun c => mapM to_int (snd c)) (cols data) ;;
  Ok (mk_int_frame ("FIPS" :: "Date" :: map fst (cols data)) (index data) cs).

Definition Dataset (confirmed deaths : wide raw_fips)
    (population : population raw_fips) : result (int_frame * list_dict) :=
  a <- last_label (columns confirmed) ;;
  b <- last_label (columns deaths) ;;
  _ <- (if String.eqb a b then Ok tt else Raise AssertionError) ;;
  confirmed <- fix_fips confirmed ;;
  deaths <- fix_fips deaths ;;
  population <- fix_fips_pop population ;;
  ' (list_dict, state_dict) <- get_dicts confirmed population ;;
  final_df <- combine_data confirmed deaths population list_dict state_dict ;;
  c <- new_column "Confirmed" average final_df population list_dict 1 ;;
  final_df <- set_column final_df "New Cases" c ;;
  c <- new_column "Deaths" average final_df population list_dict 1 ;;
  final_df <- set_column final_df "New Deaths" c ;;
  c <- new_column "Confirmed" average final_df population list_dict 7 ;;
  final_df <- set_column final_df "Cases, 7DMA" c ;;
  c <- new_column "Deaths" average final_df population list_dict 7 ;;
  final_df <- set_column final_df "Deaths, 7DMA" c ;;
  c <- new_column "Cases, 7DMA" PER100K_kind final_df population list_dict 1 ;;
  final_df <- set_column final_df "New Cases Per 100k, 7DMA" c ;;
  c <- new_column "Deaths" PER100K_kind final_df population list_dict 1 ;;
  final_df <- set_column final_df "Deaths Per 100k" c ;;
  final_df <- astype_int final_df ;;
  Ok (final_df, list_dict).

End Pipeline.

(* ================================================================== *)
(** ** The script after [Dataset]: the secondary export *)
(* ================================================================== *)

(** The rows of the persisted table: the key of each row and its numeric
    cells, one per column. *)
Definition table_rows (t : int_frame) : list (long_key * list Z) :=
  map (fun p => (snd p, map (fun c => nth (fst p) c 0%Z) (out_values t)))
      (labelled (out_index t)).

Definition date_ltb (s t : Timestamp) : bool := negb (date_leb t s).

(** Python's [max] over the dates of a column: the first of the greatest
    values; ValueError on an empty column. *)
Definition py_max (l : list Timestamp) : result Timestamp :=
  match l with
  | [] => Raise ValueError
  | x :: l' => Ok (fold_left (fun m y => if date_ltb m y then y else m) l' x)
  end.

(** [power.loc[lst]] on a table indexed by FIPS: for each label of the
    list, in the order of the list, the rows that carry it; KeyError when a
    label has no row. *)
Definition loc_label (power : list (long_key * list Z)) (fips : string)
  : result (list (long_key * list Z)) :=
  match filter (fun r => String.eqb (fst (fst r)) fips) power with
  | [] => Raise KeyError
  | b => Ok b
  end.

Definition loc_list (power : list (long_key * list Z)) (lst : list string)
  : result (list (long_key * list Z)) :=
  blocks <- mapM (loc_label power) lst ;;
  Ok (List.concat blocks).

(** The rows written to the second file: the rows of the latest date,
    restricted to the county identifiers and put in their order. *)
Definition choropleth (us_covid : int_frame) (list_dict : list_dict)
  : result (list (long_key * list Z)) :=
  m <- py_max (map snd (out_index us_covid)) ;;
  let power := filter (fun r => date_eqb (snd (fst r)) m) (table_rows us_covid) in
  let lst := county_fips list_dict in
  loc_list power lst.


(* ================================================================== *)
(** * Notions used to state the properties *)
(* ================================================================== *)

(** ** Identifiers *)

(** The integer a raw identifier cell stands for: a missing value counts as
    0 and a float is cut to its integer part.  An infinite cell stands for
    none. *)
Definition raw_value (c : raw_fips) : option Z :=
  match c with
  | RawInt z => Some z
  | RawFloat NaN => Some 0%Z
  | RawFloat (Finite q) => Some (Qtrunc q)
  | RawFloat (Inf _) => None
  end.

(** The number a string of decimal digits denotes. *)
Definition decimal_value (s : string) : option Z :=
  option_map Z.of_int (NilZero.int_of_string s).

(** [n] prints and pads to five characters that denote [n] again. *)
Definition five_digits (n : Z) : bool :=
  let s := zfill 5 (str_of_Z n) in
  ((String.length s =? 5)%nat
   && match decimal_value s with
      | Some v => (v =? n)%Z
      | None => false
      end)%bool.

Fixpoint all_from (count : nat) (z : Z) (p : Z -> bool) : bool :=
  match count with
  | O => true
  | S c => (p z && all_from c (z + 1)%Z p)%bool
  end.

(** ** Outcomes *)

(** The run did not end with the failed assertion of the driver. *)
Definition no_assert {A : Type} (r : result A) : Prop :=
  r <> Raise AssertionError.

(** ** Order of the sorted confirmed table *)

Definition fips_leb (a b : nat * wide_row string) : bool :=
  String.leb (FIPS (snd a)) (FIPS (snd b)).

(** ** Rows of the long table *)

(** A row of the long table before it is stored as a frame: the composite
    key, the Confirmed value and the Deaths value. *)
Definition long_row : Type := (long_key * (Z * Z))%type.

(** The row is a county row: its identifier is a county identifier, its
    date is a parsed date label, and its values are the cells that
    [cell_at] finds for this identifier in the two wide tables. *)
Definition county_row (df1 df2 : wide string) (dict1 : list_dict)
    (row : long_row) : Prop :=
  exists label,
    In label (dates dict1) /\
    to_datetime label = Ok (snd (fst row)) /\
    In (fst (fst row)) (county_fips dict1) /\
    cell_at df1 (fst (fst row)) label = Ok (fst (snd row)) /\
    cell_at df2 (fst (fst row)) label = Ok (snd (snd row)).

(** The row is a national row: under "00000", the sums over every row of
    the two wide tables in the column of the date. *)
Definition national_row (df1 df2 : wide string) (dict1 : list_dict)
    (row : long_row) : Prop :=
  exists label c d,
    In label (dates dict1) /\
    to_datetime label = Ok (snd (fst row)) /\
    fst (fst row) = "00000" /\
    column df1 label = Ok c /\
    column df2 label = Ok d /\
    snd row = (np_sum c, np_sum d).

(** The row is a state row: under a state identifier, the sums over the
    rows of the two wide tables whose display region is the name of the
    state. *)
Definition state_row (df1 df2 : wide string) (dict1 : list_dict)
    (dict2 : state_dict) (row : long_row) : Prop :=
  exists label name c d,
    In label (dates dict1) /\
    to_datetime label = Ok (snd (fst row)) /\
    In (fst (fst row)) (state_fips dict1) /\
    dict_get String.eqb dict2 (fst (fst row)) = Ok (NameStr name) /\
    column_of df1
      (filter (fun r => String.eqb (Province_State r) name) (rows df1))
      label = Ok c /\
    column_of df2
      (filter (fun r => String.eqb (Province_State r) name) (rows df2))
      label = Ok d /\
    snd row = (np_sum c, np_sum d).



(** The frame that holds the rows. *)
Definition frame_of_rows (rs : list long_row) : frame :=
  mk_frame (map fst rs)
    [("Confirmed", map (fun r => of_int (fst (snd r))) rs);
     ("Deaths", map (fun r => of_int (snd (snd r))) rs)].


(** ** The order of the list that [new_column] returns *)

(** The keys of the rows of one identifier, in table order. *)
Definition select_keys (idx : list long_key) (fips : string) : list long_key :=
  filter (fun k => String.eqb (fst k) fips) idx.

(** The keys of the rows from which the per-100k list is computed, value
    by value: the rows of "00000", then the rows of each identifier of
    [pop_fips] in the order of the population table. *)
Definition per100k_order (idx : list long_key) (pop_fips : list string)
  : list long_key :=
  select_keys idx "00000" ++ List.concat (map (select_keys idx) pop_fips).

(** ** A small instance of the three inputs

    Two counties (the first and the last of the county range), the two
    states they lie in, one territory row outside the county range, and two
    dates.  The deaths feed has one leading column more than the confirmed
    feed, as the source feeds do. *)

Definition ex_lead : list string :=
  ["UID"; "iso2"; "iso3"; "code3"; "FIPS"; "Admin2"; "Province_State";
   "Country_Region"; "Lat"; "Long_"; "Combined_Key"].

Definition ex_confirmed : wide raw_fips :=
  mk_wide ex_lead ["1/22/20"; "1/23/20"]
    [ mk_wide_row (RawFloat (Finite 60)) "American Samoa" [1; 2]%Z;
      mk_wide_row (RawFloat (Finite 1001)) "Alabama" [10; 15]%Z;
      mk_wide_row (RawFloat (Finite 56045)) "Wyoming" [20; 22]%Z ].

Definition ex_deaths : wide raw_fips :=
  mk_wide (ex_lead ++ ["Population"]) ["1/22/20"; "1/23/20"]
    [ mk_wide_row (RawFloat (Finite 60)) "American Samoa" [0; 1]%Z;
      mk_wide_row (RawFloat (Finite 1001)) "Alabama" [1; 2]%Z;
      mk_wide_row (RawFloat (Finite 56045)) "Wyoming" [3; 3]%Z ].

(** The population reference, sorted by identifier. *)
Definition ex_population : population raw_fips :=
  [ mk_pop_row (RawInt 1) "Alabama" (Finite 5);
    mk_pop_row (RawInt 56) "Wyoming" (Finite 3);
    mk_pop_row (RawInt 1001) "Alabama" (Finite 5);
    mk_pop_row (RawInt 56045) "Wyoming" (Finite 3) ].

(** The deaths feed one day behind the confirmed feed, and a confirmed feed
    with an infinite identifier cell, on which [fix_fips] raises. *)
Definition ex_deaths_stale : wide raw_fips :=
  mk_wide (ex_lead ++ ["Population"]) ["1/21/20"; "1/22/20"] (rows ex_deaths).

Definition ex_confirmed_inf : wide raw_fips :=
  mk_wide ex_lead ["1/22/20"; "1/23/20"]
    [ mk_wide_row (RawFloat (Inf false)) "American Samoa" [1; 2]%Z;
      mk_wide_row (RawFloat (Finite 1001)) "Alabama" [10; 15]%Z;
      mk_wide_row (RawFloat (Finite 56045)) "Wyoming" [20; 22]%Z ].

(** Two iteration orders of a set, for concrete runs. *)
Definition order_as_given (l : list string) : list string := l.
Definition order_reversed (l : list string) : list string := rev l.

(** The same tables after [fix_fips], and what [get_dicts] returns for
    them. *)
Definition ex_df1 : wide string :=
  mk_wide ex_lead ["1/22/20"; "1/23/20"]
    [ mk_wide_row "00060" "American Samoa" [1; 2]%Z;
      mk_wide_row "01001" "Alabama" [10; 15]%Z;
      mk_wide_row "56045" "Wyoming" [20; 22]%Z ].

Definition ex_df2 : wide string :=
  mk_wide (ex_lead ++ ["Population"]) ["1/22/20"; "1/23/20"]
    [ mk_wide_row "00060" "American Samoa" [0; 1]%Z;
      mk_wide_row "01001" "Alabama" [1; 2]%Z;
      mk_wide_row "56045" "Wyoming" [3; 3]%Z ].

Definition ex_df3 : population string :=
  [ mk_pop_row "00001" "Alabama" (Finite 5);
    mk_pop_row "00056" "Wyoming" (Finite 3);
    mk_pop_row "01001" "Alabama" (Finite 5);
    mk_pop_row "56045" "Wyoming" (Finite 3) ].

Definition ex_list_dict : list_dict :=
  mk_list_dict
    ["00000"; "00001"; "00056"; "01001"; "56045"]
    ["00001"; "00056"]
    ["01001"; "56045"]
    ["00001"; "00056"; "01001"; "56045"]
    ["1/22/20"; "1/23/20"].

Definition ex_state_dict : state_dict :=
  [("00001", NameStr "Alabama"); ("00056", NameStr "Wyoming")].

(** Two date columns around the turn from September to October: as strings
    the later label comes first. *)
Definition ex_df1_autumn : wide string :=
  mk_wide ex_lead ["9/30/20"; "10/1/20"] (rows ex_df1).

Definition ex_df2_autumn : wide string :=
  mk_wide (ex_lead ++ ["Population"]) ["9/30/20"; "10/1/20"] (rows ex_df2).

Definition ex_list_dict_autumn : list_dict :=
  mk_list_dict (all_fips ex_list_dict) (state_fips ex_list_dict)
    (county_fips ex_list_dict) (pop_fips ex_list_dict) ["9/30/20"; "10/1/20"].

(** The long table of the instance, the two lists that [new_column]
    derives from it in the run below, and the persisted table. *)
Definition ex_rows : list long_row :=
  [ (("00000", mk_date 2020 1 22), (31, 4));
    (("00000", mk_date 2020 1 23), (39, 6));
    (("00001", mk_date 2020 1 22), (10, 1));
    (("00001", mk_date 2020 1 23), (15, 2));
    (("00056", mk_date 2020 1 22), (20, 3));
    (("00056", mk_date 2020 1 23), (22, 3));
    (("01001", mk_date 2020 1 22), (10, 1));
    (("01001", mk_date 2020 1 23), (15, 2));
    (("56045", mk_date 2020 1 22), (20, 3));
    (("56045", mk_date 2020 1 23), (22, 3)) ]%Z.

Definition ex_frame : frame := frame_of_rows ex_rows.

Definition ex_new_cases : list float64 :=
  [Finite 0; Finite 8; Finite 0; Finite 5; Finite 0; Finite 2;
   Finite 0; Finite 5; Finite 0; Finite 2].

Definition ex_deaths_per_100k : list float64 :=
  [Finite 0; Finite 1; Finite 0; Finite 0; Finite 1; Finite 1;
   Finite 0; Finite 0; Finite 1; Finite 1].


Definition ex_out : int_frame :=
  mk_int_frame
    ["FIPS"; "Date"; "Confirmed"; "Deaths"; "New Cases"; "New Deaths";
     "Cases, 7DMA"; "Deaths, 7DMA"; "New Cases Per 100k, 7DMA";
     "Deaths Per 100k"]
    (map fst ex_rows)
    [ [31; 39; 10; 15; 20; 22; 10; 15; 20; 22];
      [4; 6; 1; 2; 3; 3; 1; 2; 3; 3];
      [0; 8; 0; 5; 0; 2; 0; 5; 0; 2];
      [0; 2; 0; 1; 0; 0; 0; 1; 0; 0];
      [0; 0; 0; 0; 0; 0; 0; 0; 0; 0];
      [0; 0; 0; 0; 0; 0; 0; 0; 0; 0];
      [0; 0; 0; 0; 0; 0; 0; 0; 0; 0];
      [0; 1; 0; 0; 1; 1; 0; 0; 1; 1] ]%Z.

(** The population reference with its rows out of identifier order, and the
    lists [get_dicts] returns for it. *)
Definition ex_df3_unsorted : population string :=
  [ mk_pop_row "00001" "Alabama" (Finite 5);
    mk_pop_row "01001" "Alabama" (Finite 5);
    mk_pop_row "00056" "Wyoming" (Finite 3);
    mk_pop_row "56045" "Wyoming" (Finite 3) ].

Definition ex_list_dict_unsorted : list_dict :=
  mk_list_dict (all_fips ex_list_dict) (state_fips ex_list_dict)
    (county_fips ex_list_dict) ["00001"; "01001"; "00056"; "56045"]
    (dates ex_list_dict).

(** The column labels as the specification lists them. *)
Definition spec_columns : list string :=
  ["FIPS"; "Date"; "Confirmed"; "Deaths"; "New Cases"; "New Deaths";
   "Cases 7DMA"; "Deaths 7DMA"; "New Cases Per 100k 7DMA"; "Deaths Per 100k"].

(** ** Date labels *)

(** The label of a date as the feeds write it, month/day/two-digit year
    without leading zeros, and the same with the month and the day padded
    to two digits. *)
Definition digit_char (n : nat) : ascii := ascii_of_nat (48 + n).

Definition two_digits (n : nat) : string :=
  String (digit_char (n / 10)) (String (digit_char (n mod 10)) EmptyString).

Definition short_number (n : nat) : string :=
  if (n <? 10)%nat then String (digit_char n) EmptyString else two_digits n.

Definition label_of (d : Timestamp) : string :=
  (short_number (month d) ++ "/" ++ short_number (day d) ++ "/"
   ++ two_digits (year d mod 100))%string.

Definition padded_label_of (d : Timestamp) : string :=
  (two_digits (month d) ++ "/" ++ two_digits (day d) ++ "/"
   ++ two_digits (year d mod 100))%string.

(** A day of the calendar in the century that two-digit years denote. *)
Definition valid_date (d : Timestamp) : bool :=
  ((1 <=? month d) && (month d <=? 12)
   && (1 <=? day d) && (day d <=? days_in_month (year d) (month d))
   && (1969 <=? year d) && (year d <=? 2068))%nat%bool.

Definition result_date_eqb (r : result Timestamp) (d : Timestamp) : bool :=
  match r with
  | Ok d' => date_eqb d' d
  | Raise _ => false
  end.

(** Both labels of the date parse to the date. *)
Definition labels_parse (d : Timestamp) : bool :=
  (result_date_eqb (to_datetime (label_of d)) d
   && result_date_eqb (to_datetime (padded_label_of d)) d)%bool.

(** ** Daily differences *)

(** The differences of consecutive counts, with 0 for the first. *)
Fixpoint differences (prev : Z) (zs : list Z) : list Z :=
  match zs with
  | [] => []
  | z :: zs' => (z - prev)%Z :: differences z zs'
  end.

Definition daily (zs : list Z) : list Z :=
  match zs with
  | [] => []
  | z :: zs' => 0%Z :: differences z zs'
  end.

(** ** Finite cells *)

Definition is_finite (x : float64) : bool :=
  match x with
  | Finite _ => true
  | _ => false
  end.

(** ** Further small instances *)

(** A confirmed table without the two sentinel rows, and what [get_dicts]
    returns for it. *)
Definition ex_df1_no_sentinels : wide string :=
  mk_wide ex_lead ["1/22/20"; "1/23/20"]
    [ mk_wide_row "72001" "Puerto Rico" [7; 9]%Z;
      mk_wide_row "00060" "American Samoa" [1; 2]%Z ].

Definition ex_list_dict_no_sentinels : list_dict :=
  mk_list_dict
    ["00000"; "00001"; "00056"; "01001"; "56045"]
    ["00001"; "00056"; "01001"; "56045"]
    ["72001"]
    ["00001"; "00056"; "01001"; "56045"]
    ["1/22/20"; "1/23/20"].

Definition ex_state_dict_no_sentinels : state_dict :=
  [("00001", NameStr "Alabama"); ("00056", NameStr "Wyoming");
   ("01001", NameStr "Alabama"); ("56045", NameStr "Wyoming")].


(** The lists of the instance with a single date. *)
Definition ex_list_dict_one_date : list_dict :=
  mk_list_dict (all_fips ex_list_dict) (state_fips ex_list_dict)
    (county_fips ex_list_dict) (pop_fips ex_list_dict) ["1/22/20"].

(** The lists of the instance with a county that the deaths table does not
    hold. *)
Definition ex_list_dict_extra_county : list_dict :=
  mk_list_dict (all_fips ex_list_dict) (state_fips ex_list_dict)
    ["01001"; "56045"; "00060"] (pop_fips ex_list_dict) (dates ex_list_dict).

Definition ex_df2_short : wide string :=
  mk_wide (ex_lead ++ ["Population"]) ["1/22/20"; "1/23/20"]
    [ mk_wide_row "01001" "Alabama" [1; 2]%Z;
      mk_wide_row "56045" "Wyoming" [3; 3]%Z ].

(** The rows of the second file for the instance. *)
Definition ex_power : list (long_key * list Z) :=
  [ (("01001", mk_date 2020 1 23), [15; 2; 5; 1; 0; 0; 0; 0]);
    (("56045", mk_date 2020 1 23), [22; 3; 2; 0; 0; 0; 0; 1]) ]%Z.

(* ================================================================== *)
(** * Facts about the building blocks *)
(* ================================================================== *)

(** ** The exception monad *)

Lemma bind_ok {A B : Type} (c : result A) (k : A -> result B) (b : B) :
  bind c k = Ok b -> exists a, c = Ok a /\ k a = Ok b.
Proof.
  destruct c as [a|e]; simpl; intro H; [eauto | discriminate].
Qed.

Ltac inv_bind H :=
  let a := fresh "x" in
  let Ha := fresh "E" in
  apply bind_ok in H; destruct H as (a & Ha & H).

Lemma mapM_pure {A B : Type} (g : A -> B) (l : list A) :
  mapM (fun a => Ok (g a)) l = Ok (map g l).
Proof.
  induction l as [|a l IH]; simpl; [reflexivity|].
  rewrite IH; reflexivity.
Qed.

Lemma mapM_ok {A B : Type} (f : A -> result B) (l : list A) (bs : list B) :
  mapM f l = Ok bs -> Forall2 (fun a b => f a = Ok b) l bs.
Proof.
  revert bs; induction l as [|a l IH]; simpl; intros bs H.
  - inversion H; constructor.
  - inv_bind H. inv_bind H. inversion H; subst. constructor; auto.
Qed.

Lemma mapM_ok_map {A B : Type} (f : A -> result B) (g : A -> B) (l : list A)
    (bs : list B) :
  mapM f l = Ok bs ->
  (forall a b, In a l -> f a = Ok b -> b = g a) ->
  bs = map g l.
Proof.
  revert bs; induction l as [|a l IH]; simpl; intros bs H Hg.
  - inversion H; reflexivity.
  - inv_bind H. inv_bind H. inversion H; subst.
    f_equal; [apply Hg; auto | apply IH; auto].
Qed.

Lemma mapM_length {A B : Type} (f : A -> result B) (l : list A) (bs : list B) :
  mapM f l = Ok bs -> len bs = len l.
Proof.
  intro H; apply mapM_ok in H.
  induction H; simpl; congruence.
Qed.

Lemma mapM_total {A B : Type} (f : A -> result B) (l : list A) :
  (forall a, In a l -> exists b, f a = Ok b) -> exists bs, mapM f l = Ok bs.
Proof.
  induction l as [|a l IH]; simpl; intro H; [eauto|].
  destruct (H a (or_introl eq_refl)) as (b & Hb).
  destruct IH as (bs & Hbs); [intros; apply H; auto|].
  rewrite Hb, Hbs; simpl; eauto.
Qed.

(** A loop that only extends a list returns the start list followed by the
    blocks of the iterations, in the order of the loop. *)
Lemma foldM_blocks {A B : Type} (body : list B -> A -> result (list B))
    (block : A -> result (list B)) :
  (forall lst a, body lst a = (t <- block a ;; Ok (lst ++ t))) ->
  forall (l : list A) (acc out : list B),
    foldM body l acc = Ok out ->
    exists blocks,
      Forall2 (fun a t => block a = Ok t) l blocks /\
      out = acc ++ List.concat blocks.
Proof.
  intros Hbody l; induction l as [|a l IH]; simpl; intros acc out H.
  - inversion H; subst. exists []; split; [constructor|].
    simpl; rewrite app_nil_r; reflexivity.
  - rewrite Hbody in H. inv_bind H. inv_bind E. inversion E; subst.
    destruct (IH _ _ H) as (blocks & HF & Hout).
    exists (x0 :: blocks); split; [constructor; auto|].
    simpl; rewrite Hout, <- app_assoc; reflexivity.
Qed.

(** A loop that adds up the values it looks up. *)
Lemma foldM_sum {A : Type} (look : A -> result float64) :
  forall (l : list A) (acc total : float64),
    foldM (fun t a => p <- look a ;; Ok (fadd t p)) l acc = Ok total ->
    exists ps,
      Forall2 (fun a p => look a = Ok p) l ps /\
      total = fold_left fadd ps acc.
Proof.
  induction l as [|a l IH]; simpl; intros acc total H.
  - inversion H; subst. exists []; split; [constructor | reflexivity].
  - inv_bind H. inv_bind E. inversion E; subst.
    destruct (IH _ _ H) as (ps & HF & Ht).
    exists (x0 :: ps); split; [constructor; auto | exact Ht].
Qed.

(** ** Order on strings *)

Lemma string_compare_refl (s : string) : String.compare s s = Eq.
Proof.
  pose proof (String.compare_antisym s s) as H.
  destruct (String.compare s s); simpl in H; congruence.
Qed.

Lemma string_compare_le_trans (a : string) :
  forall b c,
    String.compare a b <> Gt -> String.compare b c <> Gt ->
    String.compare a c <> Gt.
Proof.
  induction a as [|x a IH]; intros [|y b] [|z c]; simpl; try congruence.
  unfold Ascii.compare.
  destruct (N.compare_spec (N_of_ascii x) (N_of_ascii y));
    destruct (N.compare_spec (N_of_ascii y) (N_of_ascii z));
    destruct (N.compare_spec (N_of_ascii x) (N_of_ascii z));
    try congruence; try lia; eauto.
Qed.

Lemma string_leb_trans (a b c : string) :
  String.leb a b = true -> String.leb b c = true -> String.leb a c = true.
Proof.
  unfold String.leb; intros H1 H2.
  pose proof (string_compare_le_trans a b c) as H.
  destruct (String.compare a b), (String.compare b c), (String.compare a c);
    try discriminate; try reflexivity; exfalso; apply H; congruence.
Qed.

Lemma string_leb_refl (a : string) : String.leb a a = true.
Proof. unfold String.leb; rewrite string_compare_refl; reflexivity. Qed.

Lemma string_ltb_leb (a b : string) :
  String.ltb a b = true <-> String.leb a b = true /\ a <> b.
Proof.
  unfold String.ltb, String.leb; split.
  - destruct (String.compare a b) eqn:E; try discriminate.
    intros _; split; [reflexivity|].
    intros ->; rewrite string_compare_refl in E; discriminate.
  - intros [H Hne]. destruct (String.compare a b) eqn:E; try discriminate;
      [apply String.compare_eq_iff in E; contradiction | reflexivity].
Qed.

Lemma string_ltb_false_leb (a b : string) :
  String.ltb a b = false -> String.leb b a = true.
Proof.
  unfold String.ltb, String.leb; rewrite (String.compare_antisym b a).
  destruct (String.compare a b); simpl; congruence.
Qed.

(** ** Order on dates and on composite keys *)

Ltac bool_to_prop :=
  repeat match goal with
    | H : _ |- _ =>
        first [ rewrite orb_true_iff in H | rewrite andb_true_iff in H
              | rewrite Nat.ltb_lt in H | rewrite Nat.eqb_eq in H
              | rewrite Nat.leb_le in H ]
    end;
  repeat first [ rewrite orb_true_iff | rewrite andb_true_iff
               | rewrite Nat.ltb_lt | rewrite Nat.eqb_eq | rewrite Nat.leb_le ].

Lemma date_leb_total (s t : Timestamp) :
  date_leb s t = true \/ date_leb t s = true.
Proof. unfold date_leb; bool_to_prop; lia. Qed.

Lemma date_leb_trans (s t u : Timestamp) :
  date_leb s t = true -> date_leb t u = true -> date_leb s u = true.
Proof. unfold date_leb; intros H1 H2; bool_to_prop; lia. Qed.

Lemma date_leb_antisym (s t : Timestamp) :
  date_leb s t = true -> date_leb t s = true -> s = t.
Proof.
  destruct s, t; unfold date_leb; simpl; intros H1 H2; bool_to_prop.
  f_equal; lia.
Qed.

Lemma key_leb_total (a b : long_key) :
  key_leb a b = true \/ key_leb b a = true.
Proof.
  unfold key_leb.
  destruct (String.ltb (fst a) (fst b)) eqn:E1; [left; reflexivity|].
  destruct (String.ltb (fst b) (fst a)) eqn:E2; [right; reflexivity|].
  apply string_ltb_false_leb in E1, E2.
  pose proof (String.leb_antisym _ _ E1 E2) as Heq.
  rewrite Heq, String.eqb_refl; simpl.
  apply date_leb_total.
Qed.

Lemma key_leb_trans (a b c : long_key) :
  key_leb a b = true -> key_leb b c = true -> key_leb a c = true.
Proof.
  unfold key_leb; intros H1 H2.
  apply orb_true_iff in H1, H2; apply orb_true_iff.
  destruct H1 as [H1|H1], H2 as [H2|H2].
  - left. apply string_ltb_leb in H1, H2. apply string_ltb_leb.
    destruct H1 as [H1 N1], H2 as [H2 N2]; split.
    + eapply string_leb_trans; eauto.
    + intro Heq; rewrite Heq in H1.
      apply N2; apply String.leb_antisym; auto.
  - apply andb_true_iff in H2; destruct H2 as [H2 _].
    apply String.eqb_eq in H2; rewrite <- H2; auto.
  - apply andb_true_iff in H1; destruct H1 as [H1 _].
    apply String.eqb_eq in H1; rewrite H1; auto.
  - apply andb_true_iff in H1, H2. destruct H1 as [H1 D1], H2 as [H2 D2].
    apply String.eqb_eq in H1, H2. right.
    rewrite H1, H2, String.eqb_refl; simpl.
    eapply date_leb_trans; eauto.
Qed.

(** ** The sort *)

Section SortFacts.
Context {A : Type} (leb : A -> A -> bool).
Hypothesis leb_total : forall x y, leb x y = true \/ leb y x = true.
Hypothesis leb_trans :
  forall x y z, leb x y = true -> leb y z = true -> leb x z = true.

Let le (x y : A) : Prop := leb x y = true.

Lemma insert_sorted_perm (x : A) (l : list A) :
  Permutation (x :: l) (insert_sorted leb x l).
Proof.
  induction l as [|y l IH]; simpl; [reflexivity|].
  destruct (leb x y); [reflexivity|].
  rewrite perm_swap; constructor; exact IH.
Qed.

Lemma sort_by_perm (l : list A) : Permutation l (sort_by leb l).
Proof.
  induction l as [|x l IH]; simpl; [constructor|].
  rewrite <- insert_sorted_perm; constructor; exact IH.
Qed.

Lemma insert_sorted_strongly (x : A) (l : list A) :
  StronglySorted le l -> StronglySorted le (insert_sorted leb x l).
Proof.
  induction 1 as [|y l Hs IH Hall]; simpl.
  - repeat constructor.
  - destruct (leb x y) eqn:E.
    + constructor; [constructor; assumption|].
      constructor; [exact E|].
      eapply Forall_impl; [|exact Hall].
      intros z Hz; eapply leb_trans; eauto.
    + constructor; [exact IH|].
      assert (Hyx : le y x) by (destruct (leb_total x y); congruence).
      eapply Permutation_Forall; [apply insert_sorted_perm|].
      constructor; assumption.
Qed.

Lemma sort_by_sorted (l : list A) : StronglySorted le (sort_by leb l).
Proof.
  induction l as [|x l IH]; simpl; [constructor|].
  apply insert_sorted_strongly; exact IH.
Qed.

Hypothesis leb_antisym :
  forall x y, leb x y = true -> leb y x = true -> x = y.

Lemma strongly_sorted_unique (l : list A) :
  forall l', StronglySorted le l -> StronglySorted le l' ->
             Permutation l l' -> l = l'.
Proof.
  induction l as [|x l IH]; intros l' Hl Hl' HP.
  - apply Permutation_nil in HP; congruence.
  - destruct l' as [|y l'];
      [apply Permutation_sym, Permutation_nil in HP; discriminate|].
    inversion Hl as [|? ? Hsl Hxl]; subst.
    inversion Hl' as [|? ? Hsl' Hyl']; subst.
    assert (Hxy : x = y).
    { assert (Hx : In x (y :: l'))
        by (eapply Permutation_in; [exact HP | left; reflexivity]).
      assert (Hy : In y (x :: l))
        by (eapply Permutation_in;
            [apply Permutation_sym; exact HP | left; reflexivity]).
      destruct Hx as [Hx|Hx]; [congruence|].
      destruct Hy as [Hy|Hy]; [congruence|].
      rewrite Forall_forall in Hxl, Hyl'.
      apply leb_antisym; [apply Hxl | apply Hyl']; assumption. }
    subst y. f_equal. apply IH; auto.
    eapply Permutation_cons_inv; exact HP.
Qed.

Lemma sort_by_of_permutation (l l' : list A) :
  Permutation l l' -> sort_by leb l = sort_by leb l'.
Proof.
  intro HP. apply strongly_sorted_unique; try apply sort_by_sorted.
  rewrite <- !sort_by_perm; exact HP.
Qed.
End SortFacts.

(** ** Small runs of the building blocks *)

Example fix_fips_cell_1001 :
  fix_fips_cell (RawFloat (Finite 1001)) = Ok "01001".
Proof. reflexivity. Qed.

Example fix_fips_cell_missing :
  fix_fips_cell (RawFloat NaN) = Ok "00000".
Proof. reflexivity. Qed.

Example to_datetime_first_day :
  to_datetime "1/22/20" = Ok (mk_date 2020 1 22).
Proof. reflexivity. Qed.

Example to_datetime_no_such_day : to_datetime "2/30/20" = Raise ValueError.
Proof. reflexivity. Qed.

(* ================================================================== *)
(** * The identifier normalizer *)
(* ================================================================== *)

Lemma all_from_spec (p : Z -> bool) (count : nat) :
  forall z k,
    all_from count z p = true ->
    (z <= k < z + Z.of_nat count)%Z -> p k = true.
Proof.
  induction count as [|c IH]; intros z k H Hk; [lia|].
  simpl in H. apply andb_true_iff in H. destruct H as [Hz Hrest].
  destruct (Z.eq_dec k z) as [->|Hne]; [exact Hz|].
  apply (IH (z + 1)%Z); [exact Hrest | lia].
Qed.

Lemma five_digits_below_100000 (n : Z) :
  (0 <= n < 100000)%Z -> five_digits n = true.
Proof.
  intro Hn.
  apply (all_from_spec five_digits (Z.to_nat 100000) 0%Z);
    [vm_compute; reflexivity | lia].
Qed.

Lemma wrap32_small (z : Z) :
  (int32_min <= z <= int32_max)%Z -> wrap32 z = z.
Proof.
  unfold wrap32, int32_min, int32_max; intro H.
  rewrite Z.mod_small; lia.
Qed.

(** The cast to int32 gives the integer the cell stands for whenever that
    integer is an int32. *)
Lemma astype_int32_value (c : raw_fips) (n : Z) :
  raw_value c = Some n -> (int32_min <= n <= int32_max)%Z ->
  astype_int32 (fillna0_raw c) = Ok n.
Proof.
  intros Hv Hn. destruct c as [z|[q|b|]]; simpl in *; inversion Hv; subst.
  - rewrite wrap32_small; auto.
  - destruct Hn as [H1 H2].
    apply Z.leb_le in H1, H2. rewrite H1, H2; reflexivity.
  - reflexivity.
Qed.


(** C7, as the code has it: a cell that is missing or stands for an
    integer from 0 to 99999 is normalized, without failure, to the string of
    exactly five decimal digits that denotes that integer; a missing cell
    gives "00000".  (Beyond 99999 the string is longer than five characters,
    and an infinite cell raises.) *)
Theorem fix_fips_cell_five_digits (c : raw_fips) (n : Z) :
  raw_value c = Some n ->
  (0 <= n < 100000)%Z ->
  exists s,
    fix_fips_cell c = Ok s /\
    String.length s = 5%nat /\
    decimal_value s = Some n /\
    (n = 0%Z -> s = "00000").
Proof.
  intros Hv Hn.
  exists (zfill 5 (str_of_Z n)).
  unfold fix_fips_cell.
  rewrite (astype_int32_value c n Hv)
    by (unfold int32_min, int32_max; lia).
  pose proof (five_digits_below_100000 n Hn) as H5.
  unfold five_digits in H5. apply andb_true_iff in H5.
  destruct H5 as [Hlen Hval].
  apply Nat.eqb_eq in Hlen.
  destruct (decimal_value (zfill 5 (str_of_Z n))) as [v|]; [|discriminate].
  apply Z.eqb_eq in Hval; subst v.
  repeat split; auto.
  intros ->; reflexivity.
Qed.

Lemma fix_fips_cell_five_digits_witness :
  exists s,
    fix_fips_cell (RawFloat (Finite 1001)) = Ok s /\
    String.length s = 5%nat /\
    decimal_value s = Some 1001%Z /\
    (1001%Z = 0%Z -> s = "00000").
Proof.
  apply (fix_fips_cell_five_digits (RawFloat (Finite 1001)) 1001%Z);
    [reflexivity | lia].
Defined.

(** C7 as stated fails: the cell 123456 is normalized to a string of six
    characters. *)
Lemma fix_fips_cell_six_digits :
  ~ (exists s,
        fix_fips_cell (RawFloat (Finite 123456)) = Ok s /\
        String.length s = 5%nat).
Proof.
  intros (s & H & Hlen).
  vm_compute in H. inversion H; subst s.
  vm_compute in Hlen. discriminate.
Qed.

(* ================================================================== *)
(** * The consistency check of the driver *)
(* ================================================================== *)

Lemma bind_no_assert {A B : Type} (c : result A) (k : A -> result B) :
  no_assert c -> (forall a, no_assert (k a)) -> no_assert (bind c k).
Proof.
  unfold no_assert; destruct c as [a|e]; simpl; intros Hc Hk; [apply Hk|].
  congruence.
Qed.

Lemma mapM_no_assert {A B : Type} (f : A -> result B) (l : list A) :
  (forall a, no_assert (f a)) -> no_assert (mapM f l).
Proof.
  intro Hf; induction l as [|a l IH]; simpl; [unfold no_assert; discriminate|].
  apply bind_no_assert; [apply Hf|]; intro b.
  apply bind_no_assert; [exact IH|]; intro bs; unfold no_assert; discriminate.
Qed.

Lemma foldM_no_assert {A S : Type} (f : S -> A -> result S) (l : list A) :
  (forall s a, no_assert (f s a)) -> forall s, no_assert (foldM f l s).
Proof.
  intro Hf; induction l as [|a l IH]; simpl; intro s;
    [unfold no_assert; discriminate|].
  apply bind_no_assert; [apply Hf | exact IH].
Qed.

Create HintDb no_assert.

Ltac no_assert_step :=
  first
    [ solve [auto with no_assert]
    | apply bind_no_assert
    | apply mapM_no_assert
    | apply foldM_no_assert
    | match goal with
      | |- no_assert (Ok _) => unfold no_assert; discriminate
      | |- no_assert (Raise _) => unfold no_assert; discriminate
      | |- no_assert (match ?x with _ => _ end) => destruct x
      | |- no_assert (if ?x then _ else _) => destruct x
      end ].

Ltac no_assert_tac := repeat (intros; no_assert_step).

#[local] Ltac unfold_no_assert f := intros; unfold f; no_assert_tac.

Lemma fix_fips_cell_no_assert c : no_assert (fix_fips_cell c).
Proof.
  unfold fix_fips_cell, astype_int32.
  destruct (fillna0_raw c) as [z|[q|b|]]; simpl; unfold no_assert; discriminate.
Qed.
#[export] Hint Resolve fix_fips_cell_no_assert : no_assert.

Lemma fix_fips_no_assert df : no_assert (fix_fips df).
Proof. unfold fix_fips; no_assert_tac. Qed.

Lemma fix_fips_pop_no_assert df : no_assert (fix_fips_pop df).
Proof. unfold fix_fips_pop; no_assert_tac. Qed.

Lemma int_star_no_assert l : no_assert (int_star l).
Proof. unfold int_star; no_assert_tac. Qed.

Lemma loc_slice_no_assert {A} (l : list (nat * A)) a b :
  no_assert (loc_slice l a b).
Proof. unfold loc_slice; no_assert_tac. Qed.

Lemma loc_STNAME_no_assert df fips : no_assert (loc_STNAME df fips).
Proof. unfold loc_STNAME; no_assert_tac. Qed.

Lemma loc_PER100K_no_assert df fips : no_assert (loc_PER100K df fips).
Proof. unfold loc_PER100K; no_assert_tac. Qed.

Lemma column_of_no_assert t sub label : no_assert (column_of t sub label).
Proof. unfold column_of; no_assert_tac. Qed.
#[export] Hint Resolve fix_fips_no_assert fix_fips_pop_no_assert
  int_star_no_assert loc_slice_no_assert loc_STNAME_no_assert
  loc_PER100K_no_assert column_of_no_assert : no_assert.

Lemma column_no_assert t label : no_assert (column t label).
Proof. unfold column; no_assert_tac. Qed.
#[export] Hint Resolve column_no_assert : no_assert.

Lemma cell_at_no_assert t fips date : no_assert (cell_at t fips date).
Proof. unfold cell_at; no_assert_tac. Qed.

Lemma state_sum_no_assert t name date : no_assert (state_sum t name date).
Proof. unfold state_sum; no_assert_tac. Qed.

Lemma dict_get_no_assert {V} (d : list (string * V)) k :
  no_assert (dict_get String.eqb d k).
Proof. induction d as [|[k' v] d IH]; simpl; no_assert_tac. Qed.

Lemma to_datetime_no_assert label : no_assert (to_datetime label).
Proof. unfold to_datetime; no_assert_tac. Qed.

Lemma frame_col_no_assert cs column : no_assert (frame_col cs column).
Proof. induction cs as [|[name c] cs IH]; simpl; no_assert_tac. Qed.
#[export] Hint Resolve cell_at_no_assert state_sum_no_assert
  dict_get_no_assert to_datetime_no_assert frame_col_no_assert : no_assert.

Lemma loc_no_assert data fips column : no_assert (loc data fips column).
Proof. unfold loc; no_assert_tac. Qed.

Lemma set_column_no_assert data name lst : no_assert (set_column data name lst).
Proof. unfold set_column; no_assert_tac. Qed.

Lemma to_int_no_assert x : no_assert (to_int x).
Proof. unfold to_int; no_assert_tac. Qed.
#[export] Hint Resolve loc_no_assert set_column_no_assert to_int_no_assert
  : no_assert.

Lemma get_dicts_no_assert so df1 df2 : no_assert (get_dicts so df1 df2).
Proof. unfold get_dicts; no_assert_tac. Qed.

Lemma combine_data_no_assert df1 df2 df3 d1 d2 :
  no_assert (combine_data df1 df2 df3 d1 d2).
Proof.
  unfold combine_data, combine_rows, usa_total, counties_dict, states.
  no_assert_tac.
Qed.

Lemma new_column_no_assert column k data data2 d1 days :
  no_assert (new_column column k data data2 d1 days).
Proof. unfold new_column; no_assert_tac. Qed.

Lemma astype_int_no_assert data : no_assert (astype_int data).
Proof. unfold astype_int; no_assert_tac. Qed.
#[export] Hint Resolve get_dicts_no_assert combine_data_no_assert
  new_column_no_assert astype_int_no_assert : no_assert.

(** C4: when the last column label of the confirmed table differs from the
    last column label of the deaths table, the run ends with the failed
    assertion whatever the tables hold, so nothing after the check decides
    the outcome; when the labels are equal the run does not end with that
    error. *)
Theorem Dataset_stale_check (so : list string -> list string)
    (confirmed deaths : wide raw_fips) (pop : population raw_fips)
    (a b : string) :
  last_label (columns confirmed) = Ok a ->
  last_label (columns deaths) = Ok b ->
  (a <> b -> Dataset so confirmed deaths pop = Raise AssertionError) /\
  (a = b -> Dataset so confirmed deaths pop <> Raise AssertionError).
Proof.
  intros Ha Hb; unfold Dataset; rewrite Ha, Hb; simpl; split; intro Hab.
  - apply String.eqb_neq in Hab; rewrite Hab; reflexivity.
  - subst b; rewrite String.eqb_refl; simpl.
    change (no_assert
      (confirmed0 <- fix_fips confirmed ;;
       deaths0 <- fix_fips deaths ;;
       population0 <- fix_fips_pop pop ;;
       ' (list_dict, state_dict) <- get_dicts so confirmed0 population0 ;;
       final_df <- combine_data confirmed0 deaths0 population0 list_dict state_dict ;;
       c <- new_column "Confirmed" average final_df population0 list_dict 1 ;;
       final_df0 <- set_column final_df "New Cases" c ;;
       c0 <- new_column "Deaths" average final_df0 population0 list_dict 1 ;;
       final_df1 <- set_column final_df0 "New Deaths" c0 ;;
       c1 <- new_column "Confirmed" average final_df1 population0 list_dict 7 ;;
       final_df2 <- set_column final_df1 "Cases, 7DMA" c1 ;;
       c2 <- new_column "Deaths" average final_df2 population0 list_dict 7 ;;
       final_df3 <- set_column final_df2 "Deaths, 7DMA" c2 ;;
       c3 <- new_column "Cases, 7DMA" PER100K_kind final_df3 population0 list_dict 1 ;;
       final_df4 <- set_column final_df3 "New Cases Per 100k, 7DMA" c3 ;;
       c4 <- new_column "Deaths" PER100K_kind final_df4 population0 list_dict 1 ;;
       final_df5 <- set_column final_df4 "Deaths Per 100k" c4 ;;
       final_df6 <- astype_int final_df5 ;;
       Ok (final_df6, list_dict))).
    no_assert_tac.
Qed.

(** The check comes first: on a confirmed table whose identifier column
    cannot be normalized, a stale deaths table still ends the run with the
    failed assertion. *)
Example fix_fips_raises_on_infinite :
  fix_fips ex_confirmed_inf = Raise IntCastingNaNError.
Proof. reflexivity. Qed.

Lemma Dataset_stale_check_witness :
  (("1/23/20" : string) <> "1/22/20" ->
   Dataset order_as_given ex_confirmed_inf ex_deaths_stale ex_population
   = Raise AssertionError) /\
  (("1/23/20" : string) = "1/22/20" ->
   Dataset order_as_given ex_confirmed_inf ex_deaths_stale ex_population
   <> Raise AssertionError).
Proof.
  apply (Dataset_stale_check order_as_given ex_confirmed_inf ex_deaths_stale
           ex_population "1/23/20" "1/22/20"); reflexivity.
Defined.

(* ================================================================== *)
(** * The index builder *)
(* ================================================================== *)

Lemma mem_In (x : string) (l : list string) : mem x l = true <-> In x l.
Proof.
  unfold mem; rewrite existsb_exists; split.
  - intros (y & Hy & E); apply String.eqb_eq in E; congruence.
  - intro H; exists x; split; [exact H | apply String.eqb_refl].
Qed.

Lemma sorted_In (x : string) (l : list string) : In x (sorted l) <-> In x l.
Proof.
  unfold sorted; split; intro H.
  - eapply Permutation_in; [apply Permutation_sym, sort_by_perm | exact H].
  - eapply Permutation_in; [apply sort_by_perm | exact H].
Qed.

Lemma sorted_of_permutation (l l' : list string) :
  Permutation l l' -> sorted l = sorted l'.
Proof.
  apply sort_by_of_permutation.
  - apply String.leb_total.
  - apply string_leb_trans.
  - apply String.leb_antisym.
Qed.

Lemma sorted_strongly (l : list string) :
  StronglySorted (fun x y => String.leb x y = true) (sorted l).
Proof.
  apply sort_by_sorted; [apply String.leb_total | apply string_leb_trans].
Qed.

Section SetOrder.
Variable so : list string -> list string.
Hypothesis so_enumerates : forall l, Permutation (so l) l.

Lemma set_difference_In (a b : list string) (x : string) :
  In x (set_difference so a b) <-> In x a /\ ~ In x b.
Proof.
  unfold set_difference.
  assert (H : In x (so (filter (fun y => negb (mem y b)) (nodup string_dec a)))
              <-> In x (filter (fun y => negb (mem y b)) (nodup string_dec a))).
  { split; apply Permutation_in;
      [apply so_enumerates | apply Permutation_sym, so_enumerates]. }
  rewrite H, filter_In, nodup_In, negb_true_iff.
  rewrite <- mem_In with (l := b).
  destruct (mem x b); intuition congruence.
Qed.

(** The sorted set difference does not depend on the iteration order. *)
Lemma sorted_set_difference (a b : list string) :
  sorted (set_difference so a b)
  = sorted (filter (fun y => negb (mem y b)) (nodup string_dec a)).
Proof. apply sorted_of_permutation, so_enumerates. Qed.

Lemma get_dicts_canonical (df1 : wide string) (df2 : population string) :
  get_dicts so df1 df2 = get_dicts order_as_given df1 df2.
Proof.
  unfold get_dicts.
  destruct (int_star _) as [a|e]; simpl; [|reflexivity].
  destruct (int_star _) as [b|e]; simpl; [|reflexivity].
  destruct (loc_slice _ a b) as [range|e]; simpl; [|reflexivity].
  rewrite sorted_set_difference; reflexivity.
Qed.

(** What a successful call of [get_dicts] returns. *)
Lemma get_dicts_ok (df1 : wide string) (df2 : population string)
    (ld : list_dict) (sd : state_dict) :
  get_dicts so df1 df2 = Ok (ld, sd) ->
  exists a b range,
    loc_slice (sort_values_FIPS (labelled (rows df1))) a b = Ok range /\
    int_star (labels_where (fun r => String.eqb (FIPS r) "01001")
                (sort_values_FIPS (labelled (rows df1)))) = Ok a /\
    int_star (labels_where (fun r => String.eqb (FIPS r) "56045")
                (sort_values_FIPS (labelled (rows df1)))) = Ok b /\
    county_fips ld = map (fun lr => FIPS (snd lr)) range /\
    pop_fips ld = map pop_FIPS df2 /\
    state_fips ld
    = sorted (set_difference so (map pop_FIPS df2) (county_fips ld)) /\
    all_fips ld = sorted ("00000" :: map pop_FIPS df2) /\
    dates ld = skipn 11 (columns df1) /\
    mapM (fun fips => v <- loc_STNAME df2 fips ;; Ok (fips, v))
         (state_fips ld) = Ok sd.
Proof.
  unfold get_dicts; intro H.
  inv_bind H. inv_bind H. inv_bind H. inv_bind H.
  inversion H; subst; simpl.
  exists x, x0, x1; repeat split; auto.
Qed.
End SetOrder.

(** The slice that [loc_slice] returns is a contiguous part of the frame. *)
Lemma loc_slice_contiguous {A : Type} (l : list (nat * A)) (a b : nat)
    (range : list (nat * A)) :
  loc_slice l a b = Ok range ->
  exists before after, l = before ++ range ++ after.
Proof.
  unfold loc_slice. destruct l as [|x l'] eqn:El.
  - intro H; inversion H; exists [], []; reflexivity.
  - rewrite <- El.
    destruct (label_pos a l) as [pa|]; [|discriminate].
    destruct (label_pos b l) as [pb|]; [|discriminate].
    intro H; inversion H.
    exists (firstn pa l), (skipn (S pb - pa) (skipn pa l)).
    rewrite firstn_skipn, firstn_skipn; reflexivity.
Qed.

(** *** The county range *)

Lemma combine_fst_snd {A B : Type} (l1 : list A) :
  forall (l2 : list B), len l1 = len l2 ->
    map fst (combine l1 l2) = l1 /\ map snd (combine l1 l2) = l2.
Proof.
  induction l1 as [|a l1 IH]; intros [|b l2] H; simpl in *; try discriminate;
    [split; reflexivity|].
  destruct (IH l2) as [H1 H2]; [congruence|].
  rewrite H1, H2; split; reflexivity.
Qed.

Lemma labelled_fst {A : Type} (l : list A) :
  map fst (labelled l) = seq 0 (len l).
Proof. apply combine_fst_snd, length_seq. Qed.

Lemma labelled_snd {A : Type} (l : list A) : map snd (labelled l) = l.
Proof. apply combine_fst_snd, length_seq. Qed.

Lemma sort_values_perm (l : list (nat * wide_row string)) :
  Permutation l (sort_values_FIPS l).
Proof. apply sort_by_perm. Qed.

Lemma sort_values_sorted (l : list (nat * wide_row string)) :
  StronglySorted (fun a b => fips_leb a b = true) (sort_values_FIPS l).
Proof.
  apply sort_by_sorted; unfold fips_leb.
  - intros; apply String.leb_total.
  - intros x y z; apply string_leb_trans.
Qed.

Lemma sort_values_labels_NoDup {A : Type} (rs : list (wide_row string)) :
  NoDup (map fst (sort_values_FIPS (labelled rs))).
Proof.
  eapply Permutation_NoDup;
    [apply Permutation_map, sort_values_perm|].
  rewrite labelled_fst; apply seq_NoDup.
Qed.

Lemma filter_nil_Forall {A : Type} (p : A -> bool) (l : list A) :
  filter p l = [] -> Forall (fun y => p y = false) l.
Proof.
  induction l as [|a l IH]; simpl; [constructor|].
  destruct (p a) eqn:E; [discriminate|]; intro H; constructor; auto.
Qed.

Lemma filter_singleton_split {A : Type} (p : A -> bool) (l : list A) (x : A) :
  filter p l = [x] ->
  exists l1 l2,
    l = l1 ++ x :: l2 /\ p x = true /\
    Forall (fun y => p y = false) l1 /\ Forall (fun y => p y = false) l2.
Proof.
  induction l as [|a l IH]; simpl; [discriminate|].
  destruct (p a) eqn:E; intro H.
  - inversion H; subst. exists [], l; repeat split; auto.
    apply filter_nil_Forall; assumption.
  - destruct (IH H) as (l1 & l2 & -> & Hx & H1 & H2).
    exists (a :: l1), l2; repeat split; auto.
Qed.

Lemma label_pos_app {A : Type} (a : nat) (r : A) (l1 l2 : list (nat * A)) :
  ~ In a (map fst l1) -> label_pos a (l1 ++ (a, r) :: l2) = Some (len l1).
Proof.
  induction l1 as [|[b rb] l1 IH]; simpl; intro H.
  - rewrite Nat.eqb_refl; reflexivity.
  - destruct (Nat.eqb_spec a b) as [->|Hne]; [exfalso; apply H; auto|].
    rewrite IH by tauto; reflexivity.
Qed.

Lemma firstn_succ_app {A : Type} (u v : list A) (x : A) :
  firstn (S (len u)) (u ++ x :: v) = u ++ [x].
Proof.
  induction u as [|y u IH]; simpl; [reflexivity|].
  f_equal; exact IH.
Qed.

Lemma loc_slice_between {A : Type} (s1 u1 u2 : list (nat * A))
    (a b : nat) (ra rb : A) :
  NoDup (map fst (s1 ++ (a, ra) :: u1 ++ (b, rb) :: u2)) ->
  loc_slice (s1 ++ (a, ra) :: u1 ++ (b, rb) :: u2) a b
  = Ok ((a, ra) :: u1 ++ [(b, rb)]).
Proof.
  intro Hnd. unfold loc_slice.
  assert (Hpa : label_pos a (s1 ++ (a, ra) :: u1 ++ (b, rb) :: u2)
                = Some (len s1)).
  { apply label_pos_app.
    rewrite map_app in Hnd. apply NoDup_remove_2 in Hnd.
    intro Hin; apply Hnd; apply in_or_app; left; exact Hin. }
  assert (Hpb : label_pos b (s1 ++ (a, ra) :: u1 ++ (b, rb) :: u2)
                = Some (len (s1 ++ (a, ra) :: u1))).
  { replace (s1 ++ (a, ra) :: u1 ++ (b, rb) :: u2)
      with ((s1 ++ (a, ra) :: u1) ++ (b, rb) :: u2) in *
      by (rewrite <- app_assoc; reflexivity).
    apply label_pos_app.
    rewrite map_app in Hnd. apply NoDup_remove_2 in Hnd.
    intro Hin; apply Hnd; apply in_or_app; left; exact Hin. }
  rewrite Hpa, Hpb.
  destruct (s1 ++ (a, ra) :: u1 ++ (b, rb) :: u2) eqn:E;
    [destruct s1; discriminate|].
  rewrite <- E. f_equal.
  assert (Hk : (S (len (s1 ++ (a, ra) :: u1)) - len s1)%nat = S (S (len u1)))
    by (rewrite length_app; cbn [Datatypes.length]; lia).
  rewrite Hk, skipn_app, Nat.sub_diag, skipn_all.
  cbn [skipn app firstn]. f_equal.
  apply firstn_succ_app.
Qed.

Lemma StronglySorted_split {A : Type} (R : A -> A -> Prop) (l1 l2 : list A)
    (x : A) :
  StronglySorted R (l1 ++ x :: l2) ->
  Forall (fun y => R y x) l1 /\ Forall (R x) l2.
Proof.
  induction l1 as [|a l1 IH]; simpl; intro H; inversion H; subst.
  - split; [constructor | assumption].
  - destruct (IH H2) as [H1 H2'].
    split; [|assumption].
    constructor; [|assumption].
    rewrite Forall_app in H3. destruct H3 as [_ H3].
    inversion H3; assumption.
Qed.

Lemma int_star_singleton (l : list nat) (a : nat) :
  int_star l = Ok a -> l <> [] -> l = [a].
Proof.
  destruct l as [|i [|j l]]; simpl; intros H Hne;
    [contradiction | inversion H; reflexivity | discriminate].
Qed.

(** The row that a sentinel selects: when the identifier occurs in the
    frame and [int] accepted the labels, the frame splits around the one row
    that carries it. *)
Lemma sentinel_split (s : list (nat * wide_row string)) (f : string)
    (a : nat) :
  int_star (labels_where (fun r => String.eqb (FIPS r) f) s) = Ok a ->
  In f (map (fun lr => FIPS (snd lr)) s) ->
  exists r l1 l2,
    s = l1 ++ (a, r) :: l2 /\ FIPS r = f /\
    Forall (fun y => FIPS (snd y) <> f) l1 /\
    Forall (fun y => FIPS (snd y) <> f) l2.
Proof.
  unfold labels_where; intros H Hin.
  set (p := fun lr : nat * wide_row string => String.eqb (FIPS (snd lr)) f) in *.
  assert (Hne : map fst (filter p s) <> []).
  { apply in_map_iff in Hin. destruct Hin as (e & He & Hes).
    assert (Hf : In e (filter p s))
      by (apply filter_In; split; [exact Hes | apply String.eqb_eq; exact He]).
    destruct (filter p s); [contradiction | discriminate]. }
  apply int_star_singleton in H; [|exact Hne].
  destruct (filter p s) as [|[a' r] [|? ?]] eqn:Ef; try discriminate.
  simpl in H; inversion H; subst a'.
  destruct (filter_singleton_split p s (a, r) Ef) as (l1 & l2 & Hs & Hp & H1 & H2).
  exists r, l1, l2; repeat split; auto.
  - apply String.eqb_eq in Hp; exact Hp.
  - eapply Forall_impl; [|exact H1]. intros y Hy; apply String.eqb_neq; exact Hy.
  - eapply Forall_impl; [|exact H2]. intros y Hy; apply String.eqb_neq; exact Hy.
Qed.

(** With both sentinels in the confirmed table, the county identifiers are
    the identifiers of the table from "01001" to "56045", both included. *)
Lemma county_fips_range (so : list string -> list string)
    (df1 : wide string) (df2 : population string)
    (ld : list_dict) (sd : state_dict) :
  get_dicts so df1 df2 = Ok (ld, sd) ->
  In "01001" (map FIPS (rows df1)) ->
  In "56045" (map FIPS (rows df1)) ->
  forall x,
    In x (county_fips ld)
    <-> In x (map FIPS (rows df1))
        /\ String.leb "01001" x = true /\ String.leb x "56045" = true.
Proof.
  intros H Ha Hb.
  destruct (get_dicts_ok so df1 df2 ld sd H)
    as (a & b & range & Hslice & Hia & Hib & Hc & _).
  set (s := sort_values_FIPS (labelled (rows df1))) in *.
  assert (Hperm : Permutation (map FIPS (rows df1))
                    (map (fun lr => FIPS (snd lr)) s)).
  { rewrite <- (labelled_snd (rows df1)) at 1. rewrite map_map.
    apply Permutation_map, sort_values_perm. }
  assert (Hnd : NoDup (map fst s))
    by (apply (@sort_values_labels_NoDup unit)).
  assert (Hsorted : StronglySorted (fun a b => fips_leb a b = true) s)
    by apply sort_values_sorted.
  clearbody s.
  destruct (sentinel_split s "01001" a Hia) as (ra & s1 & s2 & Es & Hra & Hs1 & Hs2).
  { eapply Permutation_in; [exact Hperm | exact Ha]. }
  (* the row of "56045" lies after the row of "01001" *)
  rewrite Es in Hsorted.
  destruct (StronglySorted_split _ _ _ _ Hsorted) as [Hle1 Hle2].
  unfold fips_leb in Hle1, Hle2; simpl in Hle1, Hle2; rewrite Hra in Hle1, Hle2.
  assert (Hib2 : int_star (labels_where (fun r => String.eqb (FIPS r) "56045") s2)
                 = Ok b).
  { rewrite Es in Hib. unfold labels_where in *.
    rewrite filter_app in Hib; simpl in Hib.
    rewrite Hra in Hib; simpl in Hib.
    replace (filter (fun lr : nat * wide_row string =>
                       String.eqb (FIPS (snd lr)) "56045") s1)
      with (@nil (nat * wide_row string)) in Hib; [exact Hib|].
    symmetry. clear - Hle1.
    induction s1 as [|y s1 IH]; simpl; [reflexivity|].
    inversion Hle1; subst.
    destruct (String.eqb_spec (FIPS (snd y)) "56045") as [E|E];
      [rewrite E in *; discriminate | auto]. }
  destruct (sentinel_split s2 "56045" b Hib2) as (rb & u1 & u2 & Es2 & Hrb & Hu1 & Hu2).
  { assert (Hin : In "56045" (map (fun lr => FIPS (snd lr)) s))
      by (eapply Permutation_in; [exact Hperm | exact Hb]).
    rewrite Es, map_app, in_app_iff in Hin; simpl in Hin.
    destruct Hin as [Hin|[Hin|Hin]]; [| rewrite Hra in Hin; discriminate | exact Hin].
    exfalso. apply in_map_iff in Hin. destruct Hin as (y & Hy & Hys).
    rewrite Forall_forall in Hle1. specialize (Hle1 y Hys).
    rewrite Hy in Hle1; discriminate. }
  (* the slice *)
  assert (Hrange : range = (a, ra) :: u1 ++ [(b, rb)]).
  { rewrite Es, Es2 in Hslice, Hnd.
    rewrite loc_slice_between in Hslice by exact Hnd.
    inversion Hslice; reflexivity. }
  (* the order of the parts around the two rows *)
  rewrite Es2 in Hle2.
  rewrite Es2 in Hs2. rewrite Forall_app in Hs2. destruct Hs2 as [Hs2a Hs2b].
  pose proof (Forall_inv_tail Hs2b) as Hs2c.
  rewrite Es2 in Hsorted.
  assert (Hsorted2 : StronglySorted (fun a b => fips_leb a b = true)
                       (u1 ++ (b, rb) :: u2)).
  { clear - Hsorted.
    induction s1 as [|y s1 IH]; simpl in Hsorted.
    - inversion Hsorted; assumption.
    - inversion Hsorted; auto. }
  destruct (StronglySorted_split _ _ _ _ Hsorted2) as [Hle3 Hle4].
  unfold fips_leb in Hle3, Hle4; simpl in Hle3, Hle4; rewrite Hrb in Hle3, Hle4.
  rewrite Forall_app in Hle2. destruct Hle2 as [Hle2a Hle2b].
  intro x. rewrite Hc, Hrange.
  assert (Hmem : In x (map FIPS (rows df1))
                 <-> In x (map (fun lr => FIPS (snd lr)) s)).
  { split; apply Permutation_in;
      [exact Hperm | apply Permutation_sym; exact Hperm]. }
  rewrite Hmem, Es, Es2. simpl. rewrite !map_app. simpl.
  rewrite !in_app_iff. simpl. rewrite map_app, in_app_iff. simpl.
  rewrite Hra, Hrb.
  rewrite Forall_forall in Hle1, Hle2a, Hle3, Hle4, Hs1, Hs2a, Hu1, Hu2.
  split.
  - intros [Hx|[Hx|[Hx|[]]]].
    + subst x. split; [tauto|]. split; reflexivity.
    + split; [tauto|]. apply in_map_iff in Hx. destruct Hx as (y & <- & Hy).
      split; [apply Hle2a | apply Hle3]; exact Hy.
    + subst x. split; [tauto|]. split; reflexivity.
  - intros [[Hx|[Hx|[Hx|[Hx|Hx]]]] [Hlo Hhi]]; auto.
    + exfalso. apply in_map_iff in Hx. destruct Hx as (y & <- & Hy).
      apply (Hs1 y Hy). apply String.leb_antisym; [apply Hle1; exact Hy | exact Hlo].
    + exfalso. apply in_map_iff in Hx. destruct Hx as (y & <- & Hy).
      apply (Hu2 y Hy). apply String.leb_antisym; [exact Hhi | apply Hle4; exact Hy].
Qed.

(** C9: the persisted table and the returned lists are a function of the
    three input tables alone: two runs that iterate over the set of state
    identifiers in different orders give the same outcome, the same
    exception included. *)
Theorem Dataset_deterministic (so1 so2 : list string -> list string)
    (confirmed deaths : wide raw_fips) (pop : population raw_fips) :
  (forall l, Permutation (so1 l) l) ->
  (forall l, Permutation (so2 l) l) ->
  Dataset so1 confirmed deaths pop = Dataset so2 confirmed deaths pop.
Proof.
  intros H1 H2. unfold Dataset.
  destruct (last_label (columns confirmed)) as [a|e]; simpl; [|reflexivity].
  destruct (last_label (columns deaths)) as [b|e]; simpl; [|reflexivity].
  destruct (String.eqb a b); simpl; [|reflexivity].
  destruct (fix_fips confirmed) as [c|e]; simpl; [|reflexivity].
  destruct (fix_fips deaths) as [d|e]; simpl; [|reflexivity].
  destruct (fix_fips_pop pop) as [p|e]; simpl; [|reflexivity].
  rewrite (get_dicts_canonical so1 H1), (get_dicts_canonical so2 H2).
  reflexivity.
Qed.

Lemma Dataset_deterministic_witness :
  Dataset order_as_given ex_confirmed ex_deaths ex_population
  = Dataset order_reversed ex_confirmed ex_deaths ex_population.
Proof.
  apply (Dataset_deterministic order_as_given order_reversed).
  - intro l; reflexivity.
  - intro l; apply Permutation_sym, Permutation_rev.
Defined.

(** C5: on a population table that holds every identifier of the county
    range, the county identifiers and the state identifiers partition the
    population identifiers: their union is [pop_fips] and they share no
    element.  Here [county_fips] is a contiguous run of the identifier
    column of the confirmed table sorted by identifier, the run delimited by
    the rows of "01001" and "56045", and [state_fips] holds the population
    identifiers that are no county identifiers; when both sentinel rows
    are in the confirmed table, the run holds exactly the identifiers of the
    table from "01001" to "56045", both included. *)
Theorem get_dicts_partition (so : list string -> list string)
    (df1 : wide string) (df2 : population string)
    (ld : list_dict) (sd : state_dict) :
  (forall l, Permutation (so l) l) ->
  get_dicts so df1 df2 = Ok (ld, sd) ->
  (forall x, In x (county_fips ld) -> In x (map pop_FIPS df2)) ->
  pop_fips ld = map pop_FIPS df2 /\
  (forall x, In x (pop_fips ld)
             <-> In x (county_fips ld) \/ In x (state_fips ld)) /\
  (forall x, ~ (In x (county_fips ld) /\ In x (state_fips ld))) /\
  (forall x, In x (state_fips ld)
             <-> In x (pop_fips ld) /\ ~ In x (county_fips ld)) /\
  (exists before after,
      map (fun lr => FIPS (snd lr)) (sort_values_FIPS (labelled (rows df1)))
      = before ++ county_fips ld ++ after) /\
  (In "01001" (map FIPS (rows df1)) ->
   In "56045" (map FIPS (rows df1)) ->
   forall x,
     In x (county_fips ld)
     <-> In x (map FIPS (rows df1))
         /\ String.leb "01001" x = true /\ String.leb x "56045" = true).
Proof.
  intros Hso H Hwf.
  pose proof (county_fips_range so df1 df2 ld sd H) as Hrange.
  destruct (get_dicts_ok so df1 df2 ld sd H)
    as (a & b & range & Hslice & _ & _ & Hc & Hp & Hs & _).
  assert (Hstate : forall x, In x (state_fips ld)
                             <-> In x (pop_fips ld) /\ ~ In x (county_fips ld)).
  { intro x. rewrite Hs, sorted_In, set_difference_In, Hp by exact Hso.
    reflexivity. }
  split; [exact Hp|].
  split; [|split; [|split; [exact Hstate|split; [|exact Hrange]]]].
  - intro x; rewrite Hstate, Hp; split.
    + intro Hx. destruct (in_dec string_dec x (county_fips ld)); auto.
    + intros [Hx|[Hx _]]; auto.
  - intros x [Hx Hy]. apply Hstate in Hy. tauto.
  - destruct (loc_slice_contiguous _ _ _ _ Hslice) as (l1 & l2 & El).
    exists (map (fun lr => FIPS (snd lr)) l1), (map (fun lr => FIPS (snd lr)) l2).
    rewrite El, !map_app, Hc; reflexivity.
Qed.

Lemma ex_get_dicts :
  get_dicts order_reversed ex_df1 ex_df3 = Ok (ex_list_dict, ex_state_dict).
Proof. reflexivity. Qed.

Lemma get_dicts_partition_witness :
  pop_fips ex_list_dict = map pop_FIPS ex_df3 /\
  (forall x, In x (pop_fips ex_list_dict)
             <-> In x (county_fips ex_list_dict) \/ In x (state_fips ex_list_dict)) /\
  (forall x, ~ (In x (county_fips ex_list_dict) /\ In x (state_fips ex_list_dict))) /\
  (forall x, In x (state_fips ex_list_dict)
             <-> In x (pop_fips ex_list_dict) /\ ~ In x (county_fips ex_list_dict)) /\
  (exists before after,
      map (fun lr => FIPS (snd lr)) (sort_values_FIPS (labelled (rows ex_df1)))
      = before ++ county_fips ex_list_dict ++ after) /\
  (In "01001" (map FIPS (rows ex_df1)) ->
   In "56045" (map FIPS (rows ex_df1)) ->
   forall x,
     In x (county_fips ex_list_dict)
     <-> In x (map FIPS (rows ex_df1))
         /\ String.leb "01001" x = true /\ String.leb x "56045" = true).
Proof.
  apply (get_dicts_partition order_reversed ex_df1 ex_df3 ex_list_dict
           ex_state_dict).
  - intro l; apply Permutation_sym, Permutation_rev.
  - reflexivity.
  - simpl; tauto.
Defined.

(* ================================================================== *)
(** * The aggregator and reshaper *)
(* ================================================================== *)

(** ** Dictionaries *)

Lemma pair_eqb_eq (a b : string * string) : pair_eqb a b = true <-> a = b.
Proof.
  destruct a as [a1 a2], b as [b1 b2]; unfold pair_eqb; simpl.
  rewrite andb_true_iff, !String.eqb_eq; split;
    [intros [-> ->]; reflexivity | intro H; inversion H; auto].
Qed.

Section DictFacts.
Context {K V : Type} (eqb : K -> K -> bool).
Hypothesis eqb_eq : forall a b, eqb a b = true <-> a = b.

Lemma dict_set_In (d : list (K * V)) (k : K) (v : V) (x : K * V) :
  In x (dict_set eqb d k v) -> x = (k, v) \/ In x d.
Proof.
  induction d as [|[k' v'] d IH]; simpl.
  - intros [H|[]]; auto.
  - destruct (eqb k k'); simpl; intros [H|H]; auto.
    destruct (IH H); auto.
Qed.

Lemma dict_of_list_sub (l : list (K * V)) (x : K * V) :
  In x (dict_of_list eqb l) -> In x l.
Proof.
  unfold dict_of_list.
  assert (G : forall acc, In x (fold_left
                (fun d kv => dict_set eqb d (fst kv) (snd kv)) l acc) ->
              In x acc \/ In x l).
  { induction l as [|[k v] l IH]; simpl; intros acc H; auto.
    destruct (IH _ H) as [H'|H']; auto.
    apply dict_set_In in H'. destruct H'; auto. }
  intro H; destruct (G [] H) as [[]|H']; exact H'.
Qed.

(** When equal keys carry equal values, a comprehension keeps every
    pair. *)
Lemma dict_set_keeps (d : list (K * V)) (k : K) (v : V) (x : K * V) :
  (fst x = k -> x = (k, v)) ->
  x = (k, v) \/ In x d -> In x (dict_set eqb d k v).
Proof.
  intro Hfun. induction d as [|[k' v'] d IH]; simpl.
  - intros [H|[]]; auto.
  - destruct (eqb k k') eqn:E; simpl.
    + apply eqb_eq in E; subst k'.
      intros [H|[H|H]]; auto. left; symmetry; apply Hfun; subst x; reflexivity.
    + intros [H|[H|H]]; auto.
Qed.

Lemma dict_of_list_keeps (l : list (K * V)) (x : K * V) :
  (forall y, In y l -> fst y = fst x -> y = x) ->
  In x l -> In x (dict_of_list eqb l).
Proof.
  unfold dict_of_list. intros Hfun Hin.
  assert (G : forall acc,
             In x acc \/ In x l ->
             In x (fold_left (fun d kv => dict_set eqb d (fst kv) (snd kv)) l acc)).
  { clear Hin. induction l as [|[k v] l IH]; simpl; intros acc H.
    - destruct H as [H|[]]; exact H.
    - apply IH; [intros y Hy; apply Hfun; right; exact Hy|].
      assert (Hkv : fst x = k -> x = (k, v)).
      { intro E. symmetry. apply (Hfun (k, v)); [left; reflexivity | auto]. }
      destruct H as [H|[H|H]]; auto; left; apply dict_set_keeps; auto. }
  apply G; right; exact Hin.
Qed.
End DictFacts.

Lemma Forall2_In_l {A B : Type} (R : A -> B -> Prop) (l : list A) (l' : list B)
    (a : A) :
  Forall2 R l l' -> In a l -> exists b, In b l' /\ R a b.
Proof.
  induction 1 as [|x y l l' Hxy HF IH]; simpl; [intros []|].
  intros [->|H]; [eauto|]. destruct (IH H) as (b & Hb & HR); eauto.
Qed.

Lemma Forall2_In_r {A B : Type} (R : A -> B -> Prop) (l : list A) (l' : list B)
    (b : B) :
  Forall2 R l l' -> In b l' -> exists a, In a l /\ R a b.
Proof.
  induction 1 as [|x y l l' Hxy HF IH]; simpl; [intros []|].
  intros [->|H]; [eauto|]. destruct (IH H) as (a & Ha & HR); eauto.
Qed.

(** A comprehension [{key(k): value(k) for k in keys}] whose body can
    raise: an entry is in the dict exactly when the body gives it for some
    key, provided that equal keys give equal entries. *)
Lemma comprehension_In {A : Type} (F : A -> result ((string * string) * (Z * Z)))
    (keys : list A) (l : list ((string * string) * (Z * Z)))
    (e : (string * string) * (Z * Z)) :
  mapM F keys = Ok l ->
  (forall k1 k2 e1 e2,
      F k1 = Ok e1 -> F k2 = Ok e2 -> fst e1 = fst e2 -> e1 = e2) ->
  (In e (dict_of_list pair_eqb l) <-> exists k, In k keys /\ F k = Ok e).
Proof.
  intros HM Hfun. apply mapM_ok in HM. split.
  - intro H. apply dict_of_list_sub in H.
    eapply Forall2_In_r in H; [|exact HM]. exact H.
  - intros (k & Hk & HF).
    destruct (Forall2_In_l _ _ _ _ HM Hk) as (e' & He' & HF').
    rewrite HF in HF'; inversion HF'; subst e'.
    apply dict_of_list_keeps; [apply pair_eqb_eq | | exact He'].
    intros y Hy Hfst.
    destruct (Forall2_In_r _ _ _ _ HM Hy) as (k' & _ & HF'').
    eapply Hfun; eauto.
Qed.

(** ** The three collections *)

Lemma usa_total_In (df1 df2 : wide string) (dict1 : list_dict)
    (usa : list ((string * string) * (Z * Z))) (e : (string * string) * (Z * Z)) :
  usa_total df1 df2 dict1 = Ok usa ->
  (In e usa <->
   exists date c d,
     In date (dates dict1) /\ column df1 date = Ok c /\ column df2 date = Ok d /\
     e = (("00000", date), (np_sum c, np_sum d))).
Proof.
  unfold usa_total; intro H. inv_bind H. inversion H; subst usa; clear H.
  rewrite (comprehension_In _ _ _ e E).
  - split.
    + intros (date & Hd & HF). inv_bind HF. inv_bind HF. inversion HF.
      exists date, x0, x1; auto.
    + intros (date & c & d & Hd & Hc & Hdd & ->).
      exists date; split; [exact Hd|]. rewrite Hc, Hdd; reflexivity.
  - intros k1 k2 e1 e2 H1 H2 Hk.
    inv_bind H1. inv_bind H1. inv_bind H2. inv_bind H2.
    inversion H1; inversion H2; subst; simpl in Hk.
    inversion Hk; subst. congruence.
Qed.

Lemma counties_dict_In (df1 df2 : wide string) (dict1 : list_dict)
    (cnt : list ((string * string) * (Z * Z))) (e : (string * string) * (Z * Z)) :
  counties_dict df1 df2 dict1 = Ok cnt ->
  (In e cnt <->
   In (fst (fst e)) (county_fips dict1) /\ In (snd (fst e)) (dates dict1) /\
   cell_at df1 (fst (fst e)) (snd (fst e)) = Ok (fst (snd e)) /\
   cell_at df2 (fst (fst e)) (snd (fst e)) = Ok (snd (snd e))).
Proof.
  unfold counties_dict; intro H. inv_bind H. inversion H; subst cnt; clear H.
  rewrite (comprehension_In _ _ _ e E).
  - split.
    + intros ([f date] & Hk & HF). apply in_prod_iff in Hk.
      simpl in HF. inv_bind HF. inv_bind HF. inversion HF; subst e; simpl.
      tauto.
    + destruct e as [[f date] [c d]]; simpl. intros (Hf & Hd & Hc & Hdd).
      exists (f, date); split; [apply in_prod_iff; auto|].
      simpl; rewrite Hc, Hdd; reflexivity.
  - intros k1 k2 e1 e2 H1 H2 Hk.
    inv_bind H1. inv_bind H1. inv_bind H2. inv_bind H2.
    inversion H1; inversion H2; subst; simpl in Hk. subst k2. congruence.
Qed.

Lemma state_sum_ok (t : wide string) (name : name_cell) (date : string) (v : Z) :
  state_sum t name date = Ok v ->
  exists s c,
    name = NameStr s /\
    column_of t (filter (fun r => String.eqb (Province_State r) s) (rows t))
      date = Ok c /\
    v = np_sum c.
Proof.
  destruct name as [s|]; simpl; [|discriminate].
  intro H. inv_bind H. inversion H. eauto.
Qed.

Lemma states_In (df1 df2 : wide string) (dict1 : list_dict) (dict2 : state_dict)
    (sts : list ((string * string) * (Z * Z))) (e : (string * string) * (Z * Z)) :
  states df1 df2 dict1 dict2 = Ok sts ->
  (In e sts <->
   exists name c d,
     In (fst (fst e)) (state_fips dict1) /\ In (snd (fst e)) (dates dict1) /\
     dict_get String.eqb dict2 (fst (fst e)) = Ok (NameStr name) /\
     column_of df1
       (filter (fun r => String.eqb (Province_State r) name) (rows df1))
       (snd (fst e)) = Ok c /\
     column_of df2
       (filter (fun r => String.eqb (Province_State r) name) (rows df2))
       (snd (fst e)) = Ok d /\
     snd e = (np_sum c, np_sum d)).
Proof.
  unfold states; intro H. inv_bind H. inversion H; subst sts; clear H.
  rewrite (comprehension_In _ _ _ e E).
  - split.
    + intros ([f date] & Hk & HF). apply in_prod_iff in Hk.
      simpl in HF. inv_bind HF. inv_bind HF. inv_bind HF. inv_bind HF.
      inversion HF; subst e; simpl.
      apply state_sum_ok in E1, E3.
      destruct E1 as (s & c & -> & Hc & ->).
      destruct E3 as (s' & d & -> & Hd & ->).
      rewrite E0 in E2; inversion E2; subst s'.
      exists s, c, d; tauto.
    + destruct e as [[f date] v]; simpl.
      intros (name & c & d & Hf & Hd & Hn & Hc & Hdd & ->).
      exists (f, date); split; [apply in_prod_iff; auto|].
      simpl; rewrite Hn; simpl. rewrite Hc; simpl.
      rewrite Hdd; reflexivity.
  - intros k1 k2 e1 e2 H1 H2 Hk.
    inv_bind H1. inv_bind H1. inv_bind H1. inv_bind H1.
    inv_bind H2. inv_bind H2. inv_bind H2. inv_bind H2.
    inversion H1; inversion H2; subst; simpl in Hk. subst k2. congruence.
Qed.

(** ** The stacked, parsed and sorted table *)

Lemma key_row_leb_total (a b : long_row) :
  key_leb (fst a) (fst b) = true \/ key_leb (fst b) (fst a) = true.
Proof. apply key_leb_total. Qed.

(** What a successful call of [combine_rows] went through. *)
Lemma combine_rows_ok (df1 df2 : wide string) (dict1 : list_dict)
    (dict2 : state_dict) (rs : list long_row) :
  combine_rows df1 df2 dict1 dict2 = Ok rs ->
  exists usa cnt sts parsed,
    usa_total df1 df2 dict1 = Ok usa /\
    (2 <= len (dates dict1))%nat /\
    counties_dict df1 df2 dict1 = Ok cnt /\
    states df1 df2 dict1 dict2 = Ok sts /\
    Forall2 (fun e row =>
               to_datetime (snd (fst e)) = Ok (snd (fst row)) /\
               fst (fst row) = fst (fst e) /\ snd row = snd e)
            (cnt ++ usa ++ sts) parsed /\
    rs = sort_by (fun a b => key_leb (fst a) (fst b)) parsed.
Proof.
  unfold combine_rows; intro H.
  inv_bind H. inv_bind H. inv_bind H. inv_bind H. inv_bind H.
  inversion H; subst rs; clear H.
  exists x, x1, x2, x3; repeat split; auto.
  - destruct (Nat.ltb_spec (len (dates dict1)) 2); [discriminate | assumption].
  - apply mapM_ok in E3. eapply Forall2_impl; [|exact E3].
    intros e row Hrow; simpl in Hrow. inv_bind Hrow. inversion Hrow; auto.
Qed.

Lemma combine_rows_In (df1 df2 : wide string) (dict1 : list_dict)
    (dict2 : state_dict) (rs : list long_row) (row : long_row) :
  combine_rows df1 df2 dict1 dict2 = Ok rs ->
  (In row rs <->
   county_row df1 df2 dict1 row \/
   national_row df1 df2 dict1 row \/
   state_row df1 df2 dict1 dict2 row).
Proof.
  intro H.
  destruct (combine_rows_ok _ _ _ _ _ H)
    as (usa & cnt & sts & parsed & Hu & _ & Hc & Hs & HF & ->).
  assert (Hperm : In row (sort_by (fun a b => key_leb (fst a) (fst b)) parsed)
                  <-> In row parsed).
  { split; apply Permutation_in;
      [apply Permutation_sym, sort_by_perm | apply sort_by_perm]. }
  rewrite Hperm; clear Hperm.
  destruct row as [[f t] [c d]].
  unfold county_row, national_row, state_row; simpl.
  split.
  - intro Hin. destruct (Forall2_In_r _ _ _ _ HF Hin) as (e & He & Ht & Hf & Hv).
    simpl in Ht, Hf, Hv. destruct e as [[f' label] v]; simpl in *; subst f' v.
    rewrite !in_app_iff in He. destruct He as [He|[He|He]].
    + left. apply (counties_dict_In _ _ _ _ _ Hc) in He; simpl in He.
      exists label; tauto.
    + right; left. apply (usa_total_In _ _ _ _ _ Hu) in He.
      destruct He as (date & c' & d' & Hd & Hc' & Hd' & He).
      inversion He; subst. exists date, c', d'; repeat split; auto.
    + right; right. apply (states_In _ _ _ _ _ _ Hs) in He; simpl in He.
      destruct He as (name & c' & d' & He).
      exists label, name, c', d'; tauto.
  - intro Horigin.
    assert (He : exists label,
               In ((f, label), (c, d)) (cnt ++ usa ++ sts) /\
               to_datetime label = Ok t).
    { destruct Horigin as [(label & Hd & Ht & Hf & H1 & H2)
                          |[(label & c' & d' & Hd & Ht & Hf & H1 & H2 & Hv)
                           |(label & name & c' & d' & Hd & Ht & Hf & Hn & H1 & H2 & Hv)]];
        exists label; (split; [|exact Ht]); rewrite !in_app_iff.
      - left. apply (counties_dict_In _ _ _ _ _ Hc); simpl; auto.
      - right; left. apply (usa_total_In _ _ _ _ _ Hu).
        exists label, c', d'. subst f. inversion Hv; repeat split; auto.
      - right; right. apply (states_In _ _ _ _ _ _ Hs); simpl.
        exists name, c', d'; repeat split; auto. }
    destruct He as (label & He & Ht).
    destruct (Forall2_In_l _ _ _ _ HF He) as (row & Hrow & Ht' & Hf' & Hv').
    simpl in Ht', Hf', Hv'.
    destruct row as [[f' t'] v']; simpl in *.
    rewrite Ht in Ht'; inversion Ht'; subst. exact Hrow.
Qed.

Lemma combine_data_rows (df1 df2 : wide string) (df3 : population string)
    (dict1 : list_dict) (dict2 : state_dict) (fr : frame) :
  combine_data df1 df2 df3 dict1 dict2 = Ok fr ->
  exists rs,
    combine_rows df1 df2 dict1 dict2 = Ok rs /\ fr = frame_of_rows rs.
Proof.
  unfold combine_data; intro H. inv_bind H. inversion H; eauto.
Qed.

Lemma StronglySorted_map {A B : Type} (f : A -> B) (R : B -> B -> Prop)
    (l : list A) :
  StronglySorted (fun a b => R (f a) (f b)) l -> StronglySorted R (map f l).
Proof.
  induction 1 as [|a l Hs IH Hall]; simpl; constructor; auto.
  rewrite Forall_map; exact Hall.
Qed.

Lemma combine_rows_sorted (df1 df2 : wide string) (dict1 : list_dict)
    (dict2 : state_dict) (rs : list long_row) :
  combine_rows df1 df2 dict1 dict2 = Ok rs ->
  StronglySorted (fun a b => key_leb a b = true) (map fst rs).
Proof.
  intro H.
  destruct (combine_rows_ok _ _ _ _ _ H) as (_ & _ & _ & parsed & _ & _ & _ & _ & _ & ->).
  apply StronglySorted_map.
  apply (sort_by_sorted (fun a b : long_row => key_leb (fst a) (fst b))).
  - intros; apply key_leb_total.
  - intros x y z; apply key_leb_trans.
Qed.




Lemma ex_combine_data :
  combine_data ex_df1 ex_df2 ex_df3 ex_list_dict ex_state_dict
  = Ok (frame_of_rows
          [ (("00000", mk_date 2020 1 22), (31, 4));
            (("00000", mk_date 2020 1 23), (39, 6));
            (("00001", mk_date 2020 1 22), (10, 1));
            (("00001", mk_date 2020 1 23), (15, 2));
            (("00056", mk_date 2020 1 22), (20, 3));
            (("00056", mk_date 2020 1 23), (22, 3));
            (("01001", mk_date 2020 1 22), (10, 1));
            (("01001", mk_date 2020 1 23), (15, 2));
            (("56045", mk_date 2020 1 22), (20, 3));
            (("56045", mk_date 2020 1 23), (22, 3)) ]%Z).
Proof. reflexivity. Qed.



(** C6: the long table is sorted ascending by identifier and then by
    calendar date; every date of the index is the calendar date parsed from
    a date label of the wide table, so the order within an identifier is
    chronological and not the order of the labels as strings. *)
Theorem combine_data_sorted (df1 df2 : wide string) (df3 : population string)
    (dict1 : list_dict) (dict2 : state_dict) (fr : frame) :
  combine_data df1 df2 df3 dict1 dict2 = Ok fr ->
  StronglySorted (fun a b => key_leb a b = true) (index fr) /\
  (forall k, In k (index fr) ->
             exists label,
               In label (dates dict1) /\ to_datetime label = Ok (snd k)).
Proof.
  intro H. destruct (combine_data_rows _ _ _ _ _ _ H) as (rs & Hrs & ->).
  simpl; split.
  - eapply combine_rows_sorted; exact Hrs.
  - intros k Hk. apply in_map_iff in Hk. destruct Hk as (row & <- & Hrow).
    apply (combine_rows_In _ _ _ _ _ row Hrs) in Hrow.
    destruct Hrow as [(label & Hl & Ht & _)
                     |[(label & c & d & Hl & Ht & _)
                      |(label & name & c & d & Hl & Ht & _)]]; eauto.
Qed.

Lemma combine_data_sorted_witness :
  StronglySorted (fun a b => key_leb a b = true)
    (map fst
       [ (("00000", mk_date 2020 9 30), (31, 4));
         (("00000", mk_date 2020 10 1), (39, 6));
         (("00001", mk_date 2020 9 30), (10, 1));
         (("00001", mk_date 2020 10 1), (15, 2));
         (("00056", mk_date 2020 9 30), (20, 3));
         (("00056", mk_date 2020 10 1), (22, 3));
         (("01001", mk_date 2020 9 30), (10, 1));
         (("01001", mk_date 2020 10 1), (15, 2));
         (("56045", mk_date 2020 9 30), (20, 3));
         (("56045", mk_date 2020 10 1), (22, 3)) ]%Z) /\
  (forall k,
      In k (map fst
              [ (("00000", mk_date 2020 9 30), (31, 4));
                (("00000", mk_date 2020 10 1), (39, 6));
                (("00001", mk_date 2020 9 30), (10, 1));
                (("00001", mk_date 2020 10 1), (15, 2));
                (("00056", mk_date 2020 9 30), (20, 3));
                (("00056", mk_date 2020 10 1), (22, 3));
                (("01001", mk_date 2020 9 30), (10, 1));
                (("01001", mk_date 2020 10 1), (15, 2));
                (("56045", mk_date 2020 9 30), (20, 3));
                (("56045", mk_date 2020 10 1), (22, 3)) ]%Z) ->
      exists label,
        In label (dates ex_list_dict_autumn) /\ to_datetime label = Ok (snd k)).
Proof.
  apply (combine_data_sorted ex_df1_autumn ex_df2_autumn ex_df3
           ex_list_dict_autumn ex_state_dict
           (frame_of_rows
              [ (("00000", mk_date 2020 9 30), (31, 4));
                (("00000", mk_date 2020 10 1), (39, 6));
                (("00001", mk_date 2020 9 30), (10, 1));
                (("00001", mk_date 2020 10 1), (15, 2));
                (("00056", mk_date 2020 9 30), (20, 3));
                (("00056", mk_date 2020 10 1), (22, 3));
                (("01001", mk_date 2020 9 30), (10, 1));
                (("01001", mk_date 2020 10 1), (15, 2));
                (("56045", mk_date 2020 9 30), (20, 3));
                (("56045", mk_date 2020 10 1), (22, 3)) ]%Z)).
  reflexivity.
Defined.

(** The labels of that run in the order of strings: "10/1/20" sorts before
    "9/30/20", the reverse of the calendar. *)
Example label_order_is_not_chronological :
  String.ltb "10/1/20" "9/30/20" = true /\
  date_leb (mk_date 2020 9 30) (mk_date 2020 10 1) = true /\
  date_leb (mk_date 2020 10 1) (mk_date 2020 9 30) = false.
Proof. repeat split. Qed.

(* ================================================================== *)
(** * The metric deriver *)
(* ================================================================== *)

(** ** Rounding *)

(** [round_half_even] gives a nearest integer, and the even one of the two
    when the value is half way. *)
Lemma round_half_even_nearest (q : Q) :
  let m := round_half_even q in
  let n := Qnum q in
  let d := Z.pos (Qden q) in
  (2 * Z.abs (n - m * d) <= d)%Z /\
  ((2 * Z.abs (n - m * d) = d)%Z -> Z.even m = true).
Proof.
  unfold round_half_even.
  set (n := Qnum q). set (d := Z.pos (Qden q)). cbv zeta.
  assert (Hd : (0 < d)%Z) by (unfold d; lia).
  pose proof (Z.div_mod n d ltac:(lia)) as Hdm.
  pose proof (Z.mod_pos_bound n d Hd) as Hr.
  set (f := (n / d)%Z) in *. set (r := (n mod d)%Z) in *.
  destruct (Z.compare_spec (2 * r) d) as [E|E|E].
  - destruct (Z.even f) eqn:Ev; split; try (intros _; assumption); try nia.
    intros _. rewrite Z.even_add, Ev; reflexivity.
  - split; [nia|]. intro H; exfalso; nia.
  - split; [nia|]. intro H; exfalso; nia.
Qed.

Lemma round_half_even_int (z : Z) : round_half_even (inject_Z z) = z.
Proof.
  unfold round_half_even, inject_Z; simpl.
  rewrite Z.div_1_r, Z.mod_1_r; reflexivity.
Qed.

Lemma round_half_even_zero (q : Q) : Qnum q = 0%Z -> round_half_even q = 0%Z.
Proof.
  unfold round_half_even; intros ->; reflexivity.
Qed.

(** ** Selections *)

Lemma loc_ok (data : frame) (fips column : string) (s : list float64) :
  loc data fips column = Ok s ->
  exists col,
    frame_col (cols data) column = Ok col /\
    s = select (index data) col fips /\ s <> [].
Proof.
  unfold loc; intro H. inv_bind H. exists x; split; [exact E|].
  destruct (select (index data) x fips) eqn:Es; [discriminate|].
  inversion H; split; [reflexivity | discriminate].
Qed.

(** ** Differences *)

Lemma nth_error_repeat_app {A : Type} (a : A) (n k : nat) (l : list A) :
  nth_error (repeat a n ++ l) k
  = if (k <? n)%nat then Some a else nth_error l (k - n).
Proof.
  destruct (Nat.ltb_spec k n) as [H|H].
  - rewrite nth_error_app1 by (rewrite repeat_length; exact H).
    apply nth_error_repeat; exact H.
  - rewrite nth_error_app2 by (rewrite repeat_length; exact H).
    rewrite repeat_length; reflexivity.
Qed.

Lemma nth_error_shift (periods k : nat) (s : list float64) :
  (k < len s)%nat ->
  nth_error (shift periods s) k
  = if (k <? periods)%nat then Some NaN else nth_error s (k - periods).
Proof.
  intro Hk. unfold shift.
  rewrite nth_error_firstn.
  destruct (Nat.ltb_spec k (len s)) as [_|H]; [|lia].
  apply nth_error_repeat_app.
Qed.

Lemma nth_error_combine {A B : Type} (l1 : list A) :
  forall (l2 : list B) (k : nat) (a : A) (b : B),
    nth_error l1 k = Some a -> nth_error l2 k = Some b ->
    nth_error (combine l1 l2) k = Some (a, b).
Proof.
  induction l1 as [|x l1 IH]; intros [|y l2] [|k] a b H1 H2;
    simpl in *; try discriminate.
  - congruence.
  - apply IH; assumption.
Qed.

Lemma shift_length (periods : nat) (s : list float64) :
  len (shift periods s) = len s.
Proof.
  unfold shift. rewrite length_firstn, length_app. lia.
Qed.

Lemma diff_length (periods : nat) (s : list float64) :
  len (diff periods s) = len s.
Proof.
  unfold diff. rewrite length_map, length_combine, shift_length. lia.
Qed.

Lemma nth_error_diff (periods k : nat) (s : list float64) (x : float64) :
  nth_error s k = Some x ->
  nth_error (diff periods s) k
  = if (k <? periods)%nat then Some NaN
    else option_map (fsub x) (nth_error s (k - periods)).
Proof.
  intro Hx.
  assert (Hk : (k < len s)%nat) by (apply nth_error_Some; congruence).
  pose proof (nth_error_shift periods k s Hk) as Hs.
  unfold diff.
  destruct (Nat.ltb_spec k periods) as [Hlt|Hge].
  - rewrite (nth_error_map _ k).
    rewrite (nth_error_combine _ _ _ _ _ Hx Hs); simpl.
    destruct x; reflexivity.
  - destruct (nth_error s (k - periods)) as [y|] eqn:Ey.
    + rewrite (nth_error_map _ k).
      rewrite (nth_error_combine _ _ _ _ _ Hx Hs); reflexivity.
    + exfalso. apply nth_error_None in Ey. lia.
Qed.

(** ** The rolling average *)

(** The block of one identifier in the 'average' calculation. *)
Lemma average_block_values (days : nat) (s : list float64) :
  (0 < days)%nat ->
  let block :=
    map (fun x => fround (fdiv (fillna0 x) (of_int (Z.of_nat days))))
        (diff days s) in
  len block = len s /\
  (forall k, (k < days)%nat -> (k < len s)%nat ->
             nth_error block k = Some (Finite 0)) /\
  (forall k x y,
      (days <= k)%nat ->
      nth_error s k = Some (Finite x) ->
      nth_error s (k - days) = Some (Finite y) ->
      nth_error block k
      = Some (Finite (inject_Z (round_half_even
                                  ((x - y) / inject_Z (Z.of_nat days)))))).
Proof.
  intros Hdays block. unfold block.
  assert (Hz : Qzero (inject_Z (Z.of_nat days)) = false).
  { unfold Qzero; simpl. apply Z.eqb_neq; lia. }
  split; [rewrite length_map; apply diff_length|]. split.
  - intros k Hk Hlen.
    destruct (nth_error s k) as [x|] eqn:Ex;
      [|apply nth_error_None in Ex; lia].
    rewrite nth_error_map, (nth_error_diff _ _ _ _ Ex).
    destruct (Nat.ltb_spec k days) as [_|H]; [|lia].
    simpl. unfold of_int. rewrite Hz. simpl.
    rewrite round_half_even_zero; [reflexivity|].
    simpl. reflexivity.
  - intros k x y Hk Ex Ey.
    rewrite nth_error_map, (nth_error_diff _ _ _ _ Ex), Ey.
    destruct (Nat.ltb_spec k days) as [H|_]; [lia|].
    simpl. unfold of_int. rewrite Hz. reflexivity.
Qed.

(** C2: the list that the 'average' calculation returns is made of one
    block per identifier of [all_fips], each block computed from the rows of
    that identifier alone, taken in table order; in a block the value at
    position k is 0 for k < N and round((c[k] - c[k-N]) / N) for k >= N,
    where c is the source column on the rows of the identifier and N the
    window ([round] rounding half to even). *)
Theorem new_column_average (column : string) (data : frame)
    (data2 : population string) (dict1 : list_dict) (days : nat)
    (lst : list float64) :
  (0 < days)%nat ->
  new_column column average data data2 dict1 days = Ok lst ->
  exists blocks,
    lst = List.concat blocks /\
    Forall2
      (fun fips block =>
         exists c,
           loc data fips column = Ok c /\
           len block = len c /\
           (forall k, (k < days)%nat -> (k < len c)%nat ->
                      nth_error block k = Some (Finite 0)) /\
           (forall k x y,
               (days <= k)%nat ->
               nth_error c k = Some (Finite x) ->
               nth_error c (k - days) = Some (Finite y) ->
               nth_error block k
               = Some (Finite (inject_Z (round_half_even
                                 ((x - y) / inject_Z (Z.of_nat days)))))))
      (all_fips dict1) blocks.
Proof.
  intros Hdays H. unfold new_column in H.
  apply (foldM_blocks _
           (fun fips =>
              s <- loc data fips column ;;
              Ok (map (fun x => fround (fdiv (fillna0 x) (of_int (Z.of_nat days))))
                      (diff days s)))) in H.
  - destruct H as (blocks & HF & ->). exists blocks; split; [reflexivity|].
    eapply Forall2_impl; [|exact HF].
    intros fips block Hb; simpl in Hb. inv_bind Hb. inversion Hb; subst block.
    exists x; split; [exact E|]. apply average_block_values; exact Hdays.
  - intros l a. destruct (loc data a column); reflexivity.
Qed.

(** ** The per-100k normalization *)

(** What a successful 'PER100K' calculation went through. *)
Lemma new_column_per100k_ok (column : string) (data : frame)
    (data2 : population string) (dict1 : list_dict) (days : nat)
    (lst : list float64) :
  new_column column PER100K_kind data data2 dict1 days = Ok lst ->
  exists pops total c0 blocks,
    Forall2 (fun fips p => loc_PER100K data2 fips = Ok p)
            (state_fips dict1) pops /\
    total = fold_left fadd pops (Finite 0) /\
    loc data "00000" column = Ok c0 /\
    lst = map (fun x => fround (fdiv x total)) c0 ++ List.concat blocks /\
    Forall2
      (fun fips block =>
         exists c p,
           loc data fips column = Ok c /\
           loc_PER100K data2 fips = Ok p /\
           block = map (fun x => fround (fdiv x p)) c)
      (pop_fips dict1) blocks.
Proof.
  unfold new_column; intro H. inv_bind H. inv_bind H.
  apply foldM_sum in E. destruct E as (pops & Hpops & Htotal).
  apply (foldM_blocks _
           (fun fips =>
              s <- loc data fips column ;;
              p <- loc_PER100K data2 fips ;;
              Ok (map (fun x => fround (fdiv x p)) s))) in H.
  - destruct H as (blocks & HF & ->).
    exists pops, x, x0, blocks; repeat split; auto.
    eapply Forall2_impl; [|exact HF].
    intros fips block Hb; simpl in Hb. inv_bind Hb. inv_bind Hb.
    inversion Hb; eauto.
  - intros l a. destruct (loc data a column); simpl; [|reflexivity].
    destruct (loc_PER100K data2 a); reflexivity.
Qed.


(** ** The order of the per-100k list and the rows of the table *)

Lemma select_keys_select (idx : list long_key) :
  forall (col : list float64) (fips : string),
    len col = len idx ->
    select_keys idx fips
    = map fst (filter (fun kv => String.eqb (fst (fst kv)) fips)
                      (combine idx col)).
Proof.
  unfold select_keys.
  induction idx as [|k idx IH]; intros [|x col] fips Hlen;
    simpl in *; try discriminate; [reflexivity|].
  destruct (String.eqb (fst k) fips); simpl; rewrite (IH col) by congruence;
    reflexivity.
Qed.

Lemma select_keys_length (idx : list long_key) (col : list float64)
    (fips : string) :
  len col = len idx ->
  len (select_keys idx fips) = len (select idx col fips).
Proof.
  intro Hlen. rewrite (select_keys_select idx col fips Hlen).
  unfold select. rewrite !length_map. reflexivity.
Qed.


Lemma Forall2_concat {A B : Type} (R : A -> B -> Prop) (ls : list (list A)) :
  forall (ls' : list (list B)),
    Forall2 (Forall2 R) ls ls' -> Forall2 R (List.concat ls) (List.concat ls').
Proof.
  induction ls as [|l ls IH]; intros ls' H; inversion H; subst; simpl;
    [constructor|].
  apply Forall2_app; auto.
Qed.




Lemma key_leb_fst (a b : long_key) :
  key_leb a b = true -> String.leb (fst a) (fst b) = true.
Proof.
  unfold key_leb; intro H. apply orb_true_iff in H. destruct H as [H|H].
  - apply string_ltb_leb in H; tauto.
  - apply andb_true_iff in H. destruct H as [H _].
    apply String.eqb_eq in H. rewrite H. apply string_leb_refl.
Qed.


Lemma select_keys_fst (idx : list long_key) (f : string) (k : long_key) :
  In k (select_keys idx f) -> fst k = f.
Proof.
  unfold select_keys; intro H. apply filter_In in H.
  destruct H as [_ H]. apply String.eqb_eq; exact H.
Qed.


Lemma sorted_NoDup_strict (F : list string) :
  StronglySorted (fun a b => String.leb a b = true) F ->
  NoDup F ->
  StronglySorted (fun a b => String.ltb a b = true) F.
Proof.
  induction 1 as [|f F Hs IH Hall]; intro Hnd; constructor;
    inversion Hnd; subst; auto.
  rewrite Forall_forall in *. intros g Hg.
  apply string_ltb_leb; split; [apply Hall; exact Hg|].
  intros ->; contradiction.
Qed.



(** The other direction, for a table whose identifiers are "00000" and the
    population identifiers: when "00000" followed by [pop_fips] is strictly
    ascending, the order of the list is the order of the table. *)
Lemma sorted_partition_head (idx : list long_key) (f : string) :
  StronglySorted (fun a b => key_leb a b = true) idx ->
  (forall k, In k idx -> fst k = f \/ String.ltb f (fst k) = true) ->
  idx = select_keys idx f
        ++ filter (fun k => negb (String.eqb (fst k) f)) idx.
Proof.
  unfold select_keys.
  induction 1 as [|k idx Hs IH Hall]; intro Hk; [reflexivity|].
  simpl. destruct (String.eqb_spec (fst k) f) as [E|E]; simpl.
  - f_equal. apply IH. intros k' Hk'; apply Hk; right; exact Hk'.
  - assert (Hlt : String.ltb f (fst k) = true).
    { destruct (Hk k (or_introl eq_refl)); [contradiction | assumption]. }
    assert (Hrest : Forall (fun k' => String.eqb (fst k') f = false) idx).
    { rewrite Forall_forall in *. intros k' Hk'.
      apply String.eqb_neq. intro E'.
      specialize (Hall k' Hk'). apply key_leb_fst in Hall. rewrite E' in Hall.
      apply string_ltb_leb in Hlt. destruct Hlt as [Hle Hne].
      apply Hne. apply String.leb_antisym; assumption. }
    clear - Hrest.
    assert (G : filter (fun k0 => String.eqb (fst k0) f) idx = []
                /\ filter (fun k0 => negb (String.eqb (fst k0) f)) idx = idx).
    { induction Hrest as [|k' idx Hk' _ [IH1 IH2]]; simpl; [auto|].
      rewrite Hk'; simpl. rewrite IH2. auto. }
    destruct G as [-> ->]. reflexivity.
Qed.

Lemma StronglySorted_filter {A : Type} (R : A -> A -> Prop) (p : A -> bool)
    (l : list A) :
  StronglySorted R l -> StronglySorted R (filter p l).
Proof.
  induction 1 as [|a l Hs IH Hall]; simpl; [constructor|].
  destruct (p a); [|exact IH].
  constructor; [exact IH|].
  rewrite Forall_forall in *. intros x Hx. apply filter_In in Hx.
  apply Hall; tauto.
Qed.

Lemma select_keys_filter_other (idx : list long_key) (f f' : string) :
  f' <> f ->
  select_keys (filter (fun k => negb (String.eqb (fst k) f)) idx) f'
  = select_keys idx f'.
Proof.
  intro Hne. unfold select_keys.
  induction idx as [|k idx IH]; simpl; [reflexivity|].
  destruct (String.eqb_spec (fst k) f) as [E|E]; simpl.
  - rewrite IH. destruct (String.eqb_spec (fst k) f'); [congruence | reflexivity].
  - rewrite IH. reflexivity.
Qed.

Lemma blocks_rebuild_table (F : list string) :
  forall idx : list long_key,
    StronglySorted (fun a b => String.ltb a b = true) F ->
    StronglySorted (fun a b => key_leb a b = true) idx ->
    (forall k, In k idx -> In (fst k) F) ->
    List.concat (map (select_keys idx) F) = idx.
Proof.
  induction F as [|f F IH]; intros idx HF Hs Hcover; simpl.
  - destruct idx as [|k idx]; [reflexivity|].
    destruct (Hcover k (or_introl eq_refl)).
  - inversion HF as [|? ? HF' Hlt]; subst.
    rewrite Forall_forall in Hlt.
    set (rest := filter (fun k => negb (String.eqb (fst k) f)) idx).
    assert (Hsplit : idx = select_keys idx f ++ rest).
    { apply sorted_partition_head; [exact Hs|].
      intros k Hk. destruct (Hcover k Hk) as [E|Hin]; auto. }
    assert (Hmap : map (select_keys idx) F = map (select_keys rest) F).
    { apply map_ext_in. intros f' Hf'. symmetry.
      apply select_keys_filter_other.
      intros ->. specialize (Hlt _ Hf').
      apply string_ltb_leb in Hlt. tauto. }
    rewrite Hmap, (IH rest); [symmetry; exact Hsplit | exact HF' | |].
    + apply StronglySorted_filter; exact Hs.
    + intros k Hk. apply filter_In in Hk. destruct Hk as [Hk Hne].
      destruct (Hcover k Hk) as [E|Hin]; [|exact Hin].
      apply negb_true_iff, String.eqb_neq in Hne. congruence.
Qed.

Lemma per100k_order_aligned (idx : list long_key) (pop : list string) :
  StronglySorted (fun a b => String.ltb a b = true) ("00000" :: pop) ->
  StronglySorted (fun a b => key_leb a b = true) idx ->
  (forall k, In k idx -> fst k = "00000" \/ In (fst k) pop) ->
  per100k_order idx pop = idx.
Proof.
  intros HF Hs Hcover.
  apply (blocks_rebuild_table ("00000" :: pop)); auto.
  intros k Hk. destruct (Hcover k Hk); [left; congruence | right; assumption].
Qed.

(** ** Runs on the small instance *)

Lemma new_column_average_witness :
  exists blocks,
    ex_new_cases = List.concat blocks /\
    Forall2
      (fun fips block =>
         exists c,
           loc ex_frame fips "Confirmed" = Ok c /\
           len block = len c /\
           (forall k, (k < 1)%nat -> (k < len c)%nat ->
                      nth_error block k = Some (Finite 0)) /\
           (forall k x y,
               (1 <= k)%nat ->
               nth_error c k = Some (Finite x) ->
               nth_error c (k - 1) = Some (Finite y) ->
               nth_error block k
               = Some (Finite (inject_Z (round_half_even
                                 ((x - y) / inject_Z (Z.of_nat 1)))))))
      (all_fips ex_list_dict) blocks.
Proof.
  apply (new_column_average "Confirmed" ex_frame ex_df3 ex_list_dict 1
           ex_new_cases); [lia | reflexivity].
Defined.



(** With the population rows out of identifier order the list is no longer
    in the order of the table: the fifth value, computed from the rows of
    "01001", lands on the first row of "00056", whose own value is 1. *)
Example per100k_misplaced :
  get_dicts order_as_given ex_df1 ex_df3_unsorted
  = Ok (ex_list_dict_unsorted, ex_state_dict) /\
  per100k_order (index ex_frame) (pop_fips ex_list_dict_unsorted)
  <> index ex_frame /\
  (exists lst,
      new_column "Deaths" PER100K_kind ex_frame ex_df3_unsorted
        ex_list_dict_unsorted 1 = Ok lst /\
      nth_error (index ex_frame) 4 = Some ("00056", mk_date 2020 1 22) /\
      nth_error lst 4 = Some (Finite 0) /\
      nth_error ex_deaths_per_100k 4 = Some (Finite 1)).
Proof.
  split; [reflexivity|]. split; [vm_compute; discriminate|].
  eexists; split; [reflexivity|]. repeat split.
Qed.

(* ================================================================== *)
(** * The persisted table *)
(* ================================================================== *)

Lemma set_column_ok (data : frame) (name : string) (lst : list float64)
    (fr : frame) :
  set_column data name lst = Ok fr ->
  len lst = len (index data) /\
  fr = mk_frame (index data) (dict_set String.eqb (cols data) name lst).
Proof.
  unfold set_column.
  destruct (Nat.eqb_spec (len lst) (len (index data))); [|discriminate].
  intro H; inversion H; auto.
Qed.

Lemma astype_columns (n : nat) (cs : list (string * list float64))
    (out : list (list Z)) :
  mapM (fun c => mapM to_int (snd c)) cs = Ok out ->
  len out = len cs /\
  (Forall (fun c => len (snd c) = n) cs -> Forall (fun c => len c = n) out).
Proof.
  intro H. split; [eapply mapM_length; exact H|].
  apply mapM_ok in H. induction H as [|c o cs out Hc HF IH]; intro Hall;
    constructor; inversion Hall; subst; auto.
  apply mapM_length in Hc. congruence.
Qed.

(** C8, as the code has it: the persisted table has the columns FIPS,
    Date, Confirmed, Deaths, New Cases, New Deaths, "Cases, 7DMA",
    "Deaths, 7DMA", "New Cases Per 100k, 7DMA" and Deaths Per 100k, in that
    order (three of the labels hold a comma); its eight numeric columns hold
    integers, one per row of the table. *)
Theorem Dataset_columns (so : list string -> list string)
    (confirmed deaths : wide raw_fips) (pop : population raw_fips)
    (out : int_frame) (ld : list_dict) :
  Dataset so confirmed deaths pop = Ok (out, ld) ->
  out_columns out
  = ["FIPS"; "Date"; "Confirmed"; "Deaths"; "New Cases"; "New Deaths";
     "Cases, 7DMA"; "Deaths, 7DMA"; "New Cases Per 100k, 7DMA";
     "Deaths Per 100k"] /\
  len (out_values out) = 8%nat /\
  Forall (fun c : list Z => len c = len (out_index out)) (out_values out).
Proof.
  unfold Dataset; intro H.
  inv_bind H. inv_bind H. inv_bind H. inv_bind H. inv_bind H. inv_bind H.
  inv_bind H. destruct x5 as [list_dict sd].
  inv_bind H.
  destruct (combine_data_rows _ _ _ _ _ _ E6) as (rs & _ & ->).
  repeat match goal with
         | H : bind (new_column _ _ _ _ _ _) _ = Ok _ |- _ => inv_bind H
         | H : bind (set_column _ _ _) _ = Ok _ |- _ =>
             let a := fresh "fr" in
             let Ha := fresh "S" in
             apply bind_ok in H; destruct H as (a & Ha & H);
             apply set_column_ok in Ha; destruct Ha as [? ->]
         end.
  inv_bind H. inversion H; subst; clear H.
  match goal with
  | E : astype_int _ = Ok _ |- _ =>
      unfold astype_int in E; inv_bind E; inversion E; subst; clear E
  end.
  cbn [index cols frame_of_rows out_columns out_values out_index] in *.
  match goal with
  | E : mapM _ _ = Ok ?cs |- _ =>
      destruct (astype_columns (len (map fst rs)) _ _ E) as [Hlen Hall]
  end.
  split; [reflexivity|]. split; [exact Hlen|].
  apply Hall. simpl.
  repeat constructor; simpl;
    first [assumption | rewrite !length_map; reflexivity].
Qed.

Lemma ex_Dataset :
  Dataset order_as_given ex_confirmed ex_deaths ex_population
  = Ok (ex_out, ex_list_dict).
Proof. vm_compute; reflexivity. Qed.

Lemma Dataset_columns_witness :
  out_columns ex_out
  = ["FIPS"; "Date"; "Confirmed"; "Deaths"; "New Cases"; "New Deaths";
     "Cases, 7DMA"; "Deaths, 7DMA"; "New Cases Per 100k, 7DMA";
     "Deaths Per 100k"] /\
  len (out_values ex_out) = 8%nat /\
  Forall (fun c : list Z => len c = len (out_index ex_out)) (out_values ex_out).
Proof.
  apply (Dataset_columns order_as_given ex_confirmed ex_deaths ex_population
           ex_out ex_list_dict).
  vm_compute; reflexivity.
Defined.

(** C8 as stated fails on the labels: the persisted labels of the three
    moving-average columns hold a comma, those of the specification do
    not. *)
Lemma Dataset_columns_differ_from_spec :
  exists out ld,
    Dataset order_as_given ex_confirmed ex_deaths ex_population = Ok (out, ld) /\
    out_columns out <> spec_columns.
Proof.
  exists ex_out, ex_list_dict; split; [vm_compute; reflexivity|].
  vm_compute; discriminate.
Qed.

(* ================================================================== *)
(** * Further properties of the code *)
(* ================================================================== *)

(** ** Exceptions of loops *)

Lemma mapM_raise {A B : Type} (f : A -> result B) (l : list A) (e : error) :
  mapM f l = Raise e -> exists a, In a l /\ f a = Raise e.
Proof.
  induction l as [|a l IH]; simpl; [discriminate|].
  destruct (f a) as [b|e'] eqn:Ea; simpl.
  - destruct (mapM f l) as [bs|e'']; simpl; [discriminate|].
    intro H; inversion H; subst.
    destruct (IH eq_refl) as (a' & Ha' & Hf); eauto.
  - intro H; inversion H; subst. eauto.
Qed.

Lemma mapM_fails {A B : Type} (f : A -> result B) (l : list A) (a : A)
    (e : error) :
  In a l -> f a = Raise e -> exists e', mapM f l = Raise e'.
Proof.
  induction l as [|x l IH]; simpl; [intros []|].
  intros [->|Hin] Hf.
  - rewrite Hf; simpl; eauto.
  - destruct (f x); simpl; [|eauto].
    destruct (IH Hin Hf) as (e' & ->); simpl; eauto.
Qed.

Lemma mapM_all_ok {A B : Type} (f : A -> result B) (l : list A) (bs : list B) :
  mapM f l = Ok bs -> forall a, In a l -> exists b, In b bs /\ f a = Ok b.
Proof.
  intros H a Ha. apply mapM_ok in H.
  destruct (Forall2_In_l _ _ _ _ H Ha) as (b & Hb & Hf); eauto.
Qed.

(** ** fix_fips *)




(** X3: normalization does not merge identifiers: two cells that stand for
    integers from 0 to 99999 and have the same normal form stand for the
    same integer. *)
Theorem fix_fips_cell_injective (c1 c2 : raw_fips) (n1 n2 : Z) :
  raw_value c1 = Some n1 -> raw_value c2 = Some n2 ->
  (0 <= n1 < 100000)%Z -> (0 <= n2 < 100000)%Z ->
  fix_fips_cell c1 = fix_fips_cell c2 ->
  n1 = n2.
Proof.
  intros V1 V2 R1 R2. unfold fix_fips_cell.
  rewrite (astype_int32_value c1 n1 V1), (astype_int32_value c2 n2 V2)
    by (unfold int32_min, int32_max; lia).
  simpl. intro H; inversion H as [Hs].
  pose proof (five_digits_below_100000 n1 R1) as H1.
  pose proof (five_digits_below_100000 n2 R2) as H2.
  unfold five_digits in H1, H2. rewrite Hs in H1.
  apply andb_true_iff in H1, H2. destruct H1 as [_ H1], H2 as [_ H2].
  destruct (decimal_value (zfill 5 (str_of_Z n2))) as [v|]; [|discriminate].
  apply Z.eqb_eq in H1, H2. congruence.
Qed.

Lemma fix_fips_cell_injective_witness :
  raw_value (RawFloat (Finite 1001)) = Some 1001%Z /\
  raw_value (RawInt 1001) = Some 1001%Z /\
  fix_fips_cell (RawFloat (Finite 1001)) = fix_fips_cell (RawInt 1001) /\
  1001%Z = 1001%Z.
Proof.
  split; [reflexivity|]. split; [reflexivity|]. split; [reflexivity|].
  apply (fix_fips_cell_injective (RawFloat (Finite 1001)) (RawInt 1001));
    [reflexivity | reflexivity | lia | lia | reflexivity].
Defined.

(** ** Date labels *)







Lemma date_eqb_eq (s t : Timestamp) : date_eqb s t = true <-> s = t.
Proof.
  destruct s, t; unfold date_eqb; simpl.
  rewrite !andb_true_iff, !Nat.eqb_eq. split.
  - intros [[-> ->] ->]; reflexivity.
  - intro H; inversion H; auto.
Qed.

Lemma labels_parse_all :
  forallb (fun y =>
    forallb (fun m =>
      forallb (fun dd =>
        let d := mk_date y m dd in
        (negb (valid_date d) || labels_parse d)%bool)
      (seq 1 31))
    (seq 1 12))
  (seq 1969 100) = true.
Proof. vm_compute. reflexivity. Qed.

(** X5: every day of the calendar from 1969 to 2068, written as
    month/day/two-digit year, parses to itself, with or without leading
    zeros in the month and the day; so two different labels can denote the
    same date. *)
Theorem to_datetime_of_label (d : Timestamp) :
  valid_date d = true ->
  to_datetime (label_of d) = Ok d /\ to_datetime (padded_label_of d) = Ok d.
Proof.
  intro Hv. pose proof labels_parse_all as Hall.
  unfold valid_date in Hv. repeat rewrite andb_true_iff in Hv.
  destruct Hv as [[[[[H1 H2] H3] H4] H5] H6].
  apply Nat.leb_le in H1, H2, H3, H4, H5, H6.
  rewrite forallb_forall in Hall.
  specialize (Hall (year d) ltac:(apply in_seq; lia)).
  rewrite forallb_forall in Hall.
  specialize (Hall (month d) ltac:(apply in_seq; lia)).
  rewrite forallb_forall in Hall.
  assert (Hd : (day d <= 31)%nat).
  { etransitivity; [exact H4|]. unfold days_in_month.
    destruct (month d) as [|[|[|[|[|[|[|[|[|[|[|[|?]]]]]]]]]]]];
      try destruct (leap (year d)); lia. }
  specialize (Hall (day d) ltac:(apply in_seq; lia)).
  cbv zeta in Hall.
  replace (mk_date (year d) (month d) (day d)) with d in Hall
    by (destruct d; reflexivity).
  assert (Hvd : valid_date d = true).
  { unfold valid_date. repeat rewrite andb_true_iff.
    repeat split; apply Nat.leb_le; lia. }
  rewrite Hvd in Hall; simpl in Hall.
  unfold labels_parse in Hall. apply andb_true_iff in Hall.
  destruct Hall as [Ha Hb]. unfold result_date_eqb in Ha, Hb.
  destruct (to_datetime (label_of d)) as [d1|]; [|discriminate].
  destruct (to_datetime (padded_label_of d)) as [d2|]; [|discriminate].
  apply date_eqb_eq in Ha, Hb. subst; auto.
Qed.

Lemma to_datetime_of_label_witness :
  to_datetime (label_of (mk_date 2020 10 1)) = Ok (mk_date 2020 10 1) /\
  to_datetime (padded_label_of (mk_date 2020 10 1)) = Ok (mk_date 2020 10 1).
Proof.
  apply (to_datetime_of_label (mk_date 2020 10 1)). reflexivity.
Defined.

(** ** get_dicts *)

Lemma Permutation_filter_length {A : Type} (p : A -> bool) (l l' : list A) :
  Permutation l l' -> len (filter p l) = len (filter p l').
Proof.
  induction 1 as [|x l l' HP IH|x y l|l l' l'' H1 IH1 H2 IH2]; simpl.
  - reflexivity.
  - destruct (p x); simpl; congruence.
  - destruct (p x), (p y); reflexivity.
  - congruence.
Qed.

Lemma filter_labelled_length {A : Type} (p : A -> bool) (l : list A) :
  len (filter (fun lr => p (snd lr)) (labelled l)) = len (filter p l).
Proof.
  unfold labelled. generalize 0%nat.
  induction l as [|a l IH]; intro k; simpl; [reflexivity|].
  destruct (p a); simpl; rewrite IH; reflexivity.
Qed.

(** The number of labels with an identifier in the sorted frame is the
    number of rows that carry it in the table. *)
Lemma labels_where_count (p : wide_row string -> bool)
    (rs : list (wide_row string)) :
  len (labels_where p (sort_values_FIPS (labelled rs))) = len (filter p rs).
Proof.
  unfold labels_where. rewrite length_map.
  rewrite <- (Permutation_filter_length _ _ _ (sort_values_perm (labelled rs))).
  apply filter_labelled_length.
Qed.


Lemma label_pos_Some {A : Type} (a : nat) (l : list (nat * A)) :
  In a (map fst l) -> exists p, label_pos a l = Some p.
Proof.
  induction l as [|[b r] l IH]; simpl; [intros []|].
  destruct (Nat.eqb_spec a b) as [->|Hne]; [eauto|].
  intros [H|H]; [congruence|].
  destruct (IH H) as (p & ->); simpl; eauto.
Qed.







Lemma set_difference_NoDup (so : list string -> list string)
    (a b : list string) :
  (forall l, Permutation (so l) l) -> NoDup (set_difference so a b).
Proof.
  intro Hso. unfold set_difference.
  eapply Permutation_NoDup; [apply Permutation_sym, Hso|].
  apply NoDup_filter, NoDup_nodup.
Qed.

(** X7: the lists of a successful [get_dicts]: [state_fips] is strictly
    ascending, so it holds no identifier twice; [all_fips] is "00000" and
    the population identifiers, duplicates kept, in ascending order; the
    state names are keyed by [state_fips] in its order; and the dates are
    the column labels of the confirmed table from position 11 on. *)
Theorem get_dicts_lists (so : list string -> list string)
    (df1 : wide string) (df2 : population string)
    (ld : list_dict) (sd : state_dict) :
  (forall l, Permutation (so l) l) ->
  get_dicts so df1 df2 = Ok (ld, sd) ->
  StronglySorted (fun a b => String.ltb a b = true) (state_fips ld) /\
  StronglySorted (fun a b => String.leb a b = true) (all_fips ld) /\
  Permutation (all_fips ld) ("00000" :: pop_fips ld) /\
  map fst sd = state_fips ld /\
  dates ld = skipn 11 (columns df1).
Proof.
  intros Hso H.
  destruct (get_dicts_ok so df1 df2 ld sd H)
    as (a & b & range & _ & _ & _ & _ & Hp & Hs & Hall & Hd & Hsd).
  split; [|split; [|split; [|split]]].
  - rewrite Hs. apply sorted_NoDup_strict; [apply sorted_strongly|].
    eapply Permutation_NoDup; [apply sort_by_perm|].
    apply set_difference_NoDup; exact Hso.
  - rewrite Hall. apply sorted_strongly.
  - rewrite Hall, Hp. apply Permutation_sym. apply sort_by_perm.
  - apply mapM_ok in Hsd. clear - Hsd.
    induction Hsd as [|f e l l' Hf HF IH]; simpl; [reflexivity|].
    inv_bind Hf. inversion Hf; subst e; simpl. congruence.
  - exact Hd.
Qed.

Lemma get_dicts_lists_witness :
  StronglySorted (fun a b => String.ltb a b = true) (state_fips ex_list_dict) /\
  StronglySorted (fun a b => String.leb a b = true) (all_fips ex_list_dict) /\
  Permutation (all_fips ex_list_dict) ("00000" :: pop_fips ex_list_dict) /\
  map fst ex_state_dict = state_fips ex_list_dict /\
  dates ex_list_dict = skipn 11 (columns ex_df1).
Proof.
  apply (get_dicts_lists order_reversed ex_df1 ex_df3 ex_list_dict
           ex_state_dict).
  - intro l; apply Permutation_sym, Permutation_rev.
  - reflexivity.
Defined.

Lemma labelled_cons_zero {A : Type} (r0 : A) (rest : list A) (x : A) :
  In (0%nat, x) (labelled (r0 :: rest)) -> x = r0.
Proof.
  unfold labelled; simpl. intros [H|H]; [inversion H; reflexivity|].
  apply in_combine_l in H. apply in_seq in H. lia.
Qed.

Lemma label_pos_nth {A : Type} (a : nat) (l : list (nat * A)) (p : nat) :
  label_pos a l = Some p -> exists r, nth_error l p = Some (a, r).
Proof.
  revert p; induction l as [|[b r] l IH]; simpl; intro p; [discriminate|].
  destruct (Nat.eqb_spec a b) as [->|Hne].
  - intro H; inversion H; simpl; eauto.
  - destruct (label_pos a l) as [q|]; simpl; [|discriminate].
    intro H; inversion H; subst p. simpl. apply IH; reflexivity.
Qed.

Lemma firstn_one_skipn {A : Type} (l : list A) (p : nat) (x : A) :
  nth_error l p = Some x -> firstn 1 (skipn p l) = [x].
Proof.
  revert p; induction l as [|y l IH]; intros [|p]; simpl; try discriminate.
  - intro H; inversion H; reflexivity.
  - apply IH.
Qed.

(** X8: absent sentinels are not an error.  When neither "01001" nor
    "56045" is an identifier of the confirmed table, both row labels default
    to 0 and [county_fips] is the single identifier of the first row of the
    file, whatever it is. *)
Theorem get_dicts_without_sentinels (so : list string -> list string)
    (df1 : wide string) (df2 : population string)
    (ld : list_dict) (sd : state_dict) (r0 : wide_row string)
    (rest : list (wide_row string)) :
  get_dicts so df1 df2 = Ok (ld, sd) ->
  rows df1 = r0 :: rest ->
  (forall r, In r (rows df1) -> FIPS r <> "01001" /\ FIPS r <> "56045") ->
  county_fips ld = [FIPS r0].
Proof.
  intros H Hrows Habs.
  destruct (get_dicts_ok so df1 df2 ld sd H)
    as (a & b & range & Hslice & Ha & Hb & Hc & _).
  set (s := sort_values_FIPS (labelled (rows df1))) in *.
  assert (Hperm : Permutation (labelled (rows df1)) s)
    by apply sort_values_perm.
  assert (Hnone : forall f, (f = "01001" \/ f = "56045") ->
            labels_where (fun r => String.eqb (FIPS r) f) s = []).
  { intros f Hf. unfold labels_where.
    replace (filter (fun lr : nat * wide_row string =>
                       String.eqb (FIPS (snd lr)) f) s)
      with (@nil (nat * wide_row string)); [reflexivity|].
    symmetry. apply length_zero_iff_nil.
    pose proof (labels_where_count (fun r => String.eqb (FIPS r) f) (rows df1))
      as Hcount.
    unfold labels_where in Hcount. rewrite length_map in Hcount.
    fold s in Hcount. rewrite Hcount.
    apply length_zero_iff_nil.
    destruct (filter (fun r => String.eqb (FIPS r) f) (rows df1))
      as [|r l] eqn:Ef; [reflexivity|].
    assert (Hr : In r (filter (fun r => String.eqb (FIPS r) f) (rows df1)))
      by (rewrite Ef; left; reflexivity).
    apply filter_In in Hr. destruct Hr as [Hr Heq].
    apply String.eqb_eq in Heq. destruct (Habs r Hr) as [N1 N2].
    destruct Hf; subst f; contradiction. }
  rewrite (Hnone "01001") in Ha by auto. rewrite (Hnone "56045") in Hb by auto.
  simpl in Ha, Hb. inversion Ha; inversion Hb; subst a b.
  assert (Hin0 : In 0%nat (map fst s)).
  { eapply Permutation_in; [apply Permutation_map; exact Hperm|].
    rewrite labelled_fst, Hrows. simpl. auto. }
  destruct (label_pos_Some 0 s Hin0) as (p & Hp).
  destruct (label_pos_nth 0 s p Hp) as (r & Hr).
  assert (Hr0 : r = r0).
  { apply (labelled_cons_zero r0 rest). rewrite <- Hrows.
    eapply Permutation_in; [apply Permutation_sym; exact Hperm|].
    eapply nth_error_In; exact Hr. }
  subst r. unfold loc_slice in Hslice. rewrite Hp in Hslice.
  destruct s as [|x s'] eqn:Es; [destruct p; discriminate|].
  replace (S p - p)%nat with 1%nat in Hslice by lia.
  rewrite (firstn_one_skipn _ _ _ Hr) in Hslice.
  inversion Hslice; subst range. rewrite Hc. reflexivity.
Qed.

Lemma get_dicts_without_sentinels_witness :
  county_fips ex_list_dict_no_sentinels = ["72001"].
Proof.
  apply (get_dicts_without_sentinels order_as_given ex_df1_no_sentinels ex_df3
           ex_list_dict_no_sentinels ex_state_dict_no_sentinels
           (mk_wide_row "72001" "Puerto Rico" [7; 9]%Z)
           [mk_wide_row "00060" "American Samoa" [1; 2]%Z]).
  - reflexivity.
  - reflexivity.
  - intros r [<-|[<-|[]]]; split; discriminate.
Defined.

(** ** cell_at *)

Lemma labels_where_none {A : Type} (p : A -> bool) (l : list A) :
  Forall (fun x => p x = false) l ->
  forall k, labels_where p (combine (seq k (len l)) l) = [].
Proof.
  unfold labels_where. induction 1 as [|x l Hx _ IH]; intro k; simpl;
    [reflexivity|].
  rewrite Hx. apply IH.
Qed.

Lemma labels_where_one {A : Type} (p : A -> bool) (l1 l2 : list A) (r : A) :
  Forall (fun x => p x = false) l1 ->
  Forall (fun x => p x = false) l2 ->
  p r = true ->
  forall k,
    labels_where p (combine (seq k (len (l1 ++ r :: l2))) (l1 ++ r :: l2))
    = [(k + len l1)%nat].
Proof.
  intros H1 H2 Hr. induction H1 as [|x l1 Hx _ IH]; intro k; simpl.
  - unfold labels_where; simpl. rewrite Hr; simpl.
    fold (labels_where p (combine (seq (S k) (len l2)) l2)).
    rewrite (labels_where_none p l2 H2). f_equal. lia.
  - unfold labels_where in *; simpl. rewrite Hx.
    rewrite (IH (S k)). f_equal. lia.
Qed.

Lemma position_In (x : string) (l : list string) :
  In x l -> exists j, position x l = Some j.
Proof.
  induction l as [|y l IH]; simpl; [intros []|].
  destruct (String.eqb_spec x y) as [->|Hne]; [eauto|].
  intros [H|H]; [congruence|].
  destruct (IH H) as (j & ->); simpl; eauto.
Qed.

Lemma column_position (t : wide string) (label : string) (j : nat) :
  position label (date_columns t) = Some j ->
  column t label = Ok (map (cell j) (rows t)).
Proof. unfold column, column_of; intros ->; reflexivity. Qed.

Lemma cell_at_absent_row (t : wide string) (fips date : string)
    (r0 : wide_row string) (rest : list (wide_row string)) (j : nat) :
  rows t = r0 :: rest ->
  (forall r, In r (rows t) -> FIPS r <> fips) ->
  position date (date_columns t) = Some j ->
  cell_at t fips date = Ok (cell j r0).
Proof.
  intros Hrows Habs Hj. unfold cell_at, labelled.
  rewrite (labels_where_none (fun r => String.eqb (FIPS r) fips) (rows t)).
  - simpl. rewrite (column_position t date j Hj). simpl.
    rewrite Hrows; reflexivity.
  - apply Forall_forall. intros r Hr. apply String.eqb_neq. auto.
Qed.

(** X9: an identifier that no row of the table carries is not an error
    for the cell lookup of [combine_data]: [int] of no label is 0, so the
    lookup reads the cell of the first row of the file. *)
Theorem cell_at_absent (t : wide string) (fips date : string)
    (r0 : wide_row string) (rest : list (wide_row string)) (j : nat) :
  rows t = r0 :: rest ->
  (forall r, In r (rows t) -> FIPS r <> fips) ->
  position date (date_columns t) = Some j ->
  cell_at t fips date = Ok (nth j (counts r0) 0%Z).
Proof. apply cell_at_absent_row. Qed.

Lemma cell_at_absent_witness :
  cell_at ex_df2 "01003" "1/22/20"
  = Ok (nth 0 (counts (mk_wide_row "00060" "American Samoa" [0; 1]%Z)) 0%Z).
Proof.
  apply (cell_at_absent ex_df2 "01003" "1/22/20"
           (mk_wide_row "00060" "American Samoa" [0; 1]%Z)
           [mk_wide_row "01001" "Alabama" [1; 2]%Z;
            mk_wide_row "56045" "Wyoming" [3; 3]%Z] 0).
  - reflexivity.
  - intros r [<-|[<-|[<-|[]]]]; discriminate.
  - reflexivity.
Defined.

(** X10: the cell lookup finds the row of an identifier that exactly one
    row carries, wherever the row stands, and reads its cell in the column
    of the date. *)
Theorem cell_at_unique (t : wide string) (fips date : string)
    (l1 l2 : list (wide_row string)) (r : wide_row string) (j : nat) :
  rows t = l1 ++ r :: l2 ->
  FIPS r = fips ->
  (forall x, In x (l1 ++ l2) -> FIPS x <> fips) ->
  position date (date_columns t) = Some j ->
  cell_at t fips date = Ok (nth j (counts r) 0%Z).
Proof.
  intros Hrows Hr Hother Hj. unfold cell_at, labelled. rewrite Hrows.
  rewrite (labels_where_one (fun x => String.eqb (FIPS x) fips) l1 l2 r).
  - simpl. rewrite (column_position t date j Hj), Hrows. simpl.
    rewrite nth_error_map, nth_error_app2, Nat.sub_diag by lia.
    reflexivity.
  - apply Forall_forall. intros x Hx. apply String.eqb_neq.
    apply Hother. apply in_or_app; auto.
  - apply Forall_forall. intros x Hx. apply String.eqb_neq.
    apply Hother. apply in_or_app; auto.
  - apply String.eqb_eq; exact Hr.
Qed.

Lemma cell_at_unique_witness :
  cell_at ex_df1 "01001" "1/23/20"
  = Ok (nth 1 (counts (mk_wide_row "01001" "Alabama" [10; 15]%Z)) 0%Z).
Proof.
  apply (cell_at_unique ex_df1 "01001" "1/23/20"
           [mk_wide_row "00060" "American Samoa" [1; 2]%Z]
           [mk_wide_row "56045" "Wyoming" [20; 22]%Z]
           (mk_wide_row "01001" "Alabama" [10; 15]%Z) 1).
  - reflexivity.
  - reflexivity.
  - intros x [<-|[<-|[]]]; discriminate.
  - reflexivity.
Defined.




(** ** combine_data *)

(** X12: with fewer than two date columns [combine_data] returns no table:
    once the national sums are built, the look at the last two dates raises
    IndexError. *)
Theorem combine_data_needs_two_dates (df1 df2 : wide string)
    (df3 : population string) (dict1 : list_dict) (dict2 : state_dict) :
  (len (dates dict1) < 2)%nat ->
  (forall d, In d (dates dict1) ->
             In d (date_columns df1) /\ In d (date_columns df2)) ->
  combine_data df1 df2 df3 dict1 dict2 = Raise IndexError.
Proof.
  intros Hlen Hcols. unfold combine_data, combine_rows, usa_total.
  destruct (mapM_total
              (fun date =>
                 c <- column df1 date ;;
                 d <- column df2 date ;;
                 Ok (("00000", date), (np_sum c, np_sum d)))
              (dates dict1)) as (l & ->).
  - intros d Hd. destruct (Hcols d Hd) as [H1 H2].
    destruct (position_In _ _ H1) as (j1 & E1).
    destruct (position_In _ _ H2) as (j2 & E2).
    rewrite (column_position _ _ _ E1), (column_position _ _ _ E2).
    simpl; eauto.
  - simpl. destruct (Nat.ltb_spec (len (dates dict1)) 2); [reflexivity | lia].
Qed.

Lemma combine_data_needs_two_dates_witness :
  combine_data ex_df1 ex_df2 ex_df3 ex_list_dict_one_date ex_state_dict
  = Raise IndexError.
Proof.
  apply (combine_data_needs_two_dates ex_df1 ex_df2 ex_df3
           ex_list_dict_one_date ex_state_dict).
  - simpl; lia.
  - intros d [<-|[]]; simpl; auto.
Defined.

Section DictNoDup.
Context {K V : Type} (eqb : K -> K -> bool).
Hypothesis eqb_eq : forall a b, eqb a b = true <-> a = b.

Lemma dict_set_fresh (d : list (K * V)) (k : K) (v : V) :
  ~ In k (map fst d) -> dict_set eqb d k v = d ++ [(k, v)].
Proof.
  induction d as [|[k' v'] d IH]; simpl; intro H; [reflexivity|].
  destruct (eqb k k') eqn:E.
  - apply eqb_eq in E. exfalso; apply H; auto.
  - rewrite IH by tauto. reflexivity.
Qed.

(** A comprehension over distinct keys has one entry per key, in the order
    of the keys. *)
Lemma dict_of_list_distinct (l : list (K * V)) :
  NoDup (map fst l) -> dict_of_list eqb l = l.
Proof.
  unfold dict_of_list.
  assert (G : forall acc,
             NoDup (map fst (acc ++ l)) ->
             fold_left (fun d kv => dict_set eqb d (fst kv) (snd kv)) l acc
             = acc ++ l).
  { induction l as [|[k v] l IH]; intros acc Hnd; simpl.
    - rewrite app_nil_r; reflexivity.
    - rewrite dict_set_fresh.
      + rewrite IH; rewrite <- app_assoc; [reflexivity | exact Hnd].
      + rewrite map_app in Hnd. simpl in Hnd.
        apply NoDup_remove_2 in Hnd. intro Hin; apply Hnd.
        apply in_or_app; auto. }
  intro H; apply (G []); exact H.
Qed.
End DictNoDup.

Lemma NoDup_list_prod {A B : Type} (l : list A) (l' : list B) :
  NoDup l -> NoDup l' -> NoDup (list_prod l l').
Proof.
  intros Hl Hl'. induction Hl as [|a l Ha Hl IH]; simpl; [constructor|].
  apply NoDup_app.
  - clear - Hl'. induction Hl' as [|b l' Hb _ IH]; simpl; constructor; auto.
    intro H. apply in_map_iff in H. destruct H as (b' & E & Hb').
    inversion E; subst; contradiction.
  - exact IH.
  - intros [a' b'] H1 H2. apply in_map_iff in H1.
    destruct H1 as (b0 & E & _). inversion E; subst.
    apply in_prod_iff in H2. tauto.
Qed.

Lemma NoDup_map_pair {A B : Type} (a : A) (l : list B) :
  NoDup l -> NoDup (map (pair a) l).
Proof.
  induction 1 as [|b l Hb _ IH]; simpl; constructor; auto.
  intro H. apply in_map_iff in H. destruct H as (b' & E & Hb').
  inversion E; subst; contradiction.
Qed.

Lemma mapM_keys {A K V : Type} (F : A -> result (K * V)) (key : A -> K)
    (l : list A) (out : list (K * V)) :
  mapM F l = Ok out ->
  (forall a e, F a = Ok e -> fst e = key a) ->
  map fst out = map key l.
Proof.
  intros H Hkey. apply mapM_ok in H.
  induction H as [|a e l out Ha _ IH]; simpl; [reflexivity|].
  rewrite (Hkey a e Ha), IH; reflexivity.
Qed.

Lemma usa_total_length (df1 df2 : wide string) (dict1 : list_dict)
    (usa : list ((string * string) * (Z * Z))) :
  usa_total df1 df2 dict1 = Ok usa ->
  NoDup (dates dict1) ->
  len usa = len (dates dict1).
Proof.
  unfold usa_total; intros H Hnd. inv_bind H. inversion H; subst usa.
  rewrite dict_of_list_distinct; [eapply mapM_length; exact E | apply pair_eqb_eq |].
  rewrite (mapM_keys _ (fun d => ("00000", d)) _ _ E).
  - apply NoDup_map_pair; exact Hnd.
  - intros a e He. inv_bind He. inv_bind He. inversion He; reflexivity.
Qed.

Lemma counties_dict_length (df1 df2 : wide string) (dict1 : list_dict)
    (cnt : list ((string * string) * (Z * Z))) :
  counties_dict df1 df2 dict1 = Ok cnt ->
  NoDup (county_fips dict1) -> NoDup (dates dict1) ->
  len cnt = (len (county_fips dict1) * len (dates dict1))%nat.
Proof.
  unfold counties_dict; intros H Hc Hd. inv_bind H. inversion H; subst cnt.
  rewrite dict_of_list_distinct.
  - rewrite (mapM_length _ _ _ E). apply length_prod.
  - apply pair_eqb_eq.
  - rewrite (mapM_keys _ (fun k => k) _ _ E).
    + rewrite map_id. apply NoDup_list_prod; assumption.
    + intros a e He. inv_bind He. inv_bind He. inversion He; reflexivity.
Qed.

Lemma states_length (df1 df2 : wide string) (dict1 : list_dict)
    (dict2 : state_dict) (sts : list ((string * string) * (Z * Z))) :
  states df1 df2 dict1 dict2 = Ok sts ->
  NoDup (state_fips dict1) -> NoDup (dates dict1) ->
  len sts = (len (state_fips dict1) * len (dates dict1))%nat.
Proof.
  unfold states; intros H Hc Hd. inv_bind H. inversion H; subst sts.
  rewrite dict_of_list_distinct.
  - rewrite (mapM_length _ _ _ E). apply length_prod.
  - apply pair_eqb_eq.
  - rewrite (mapM_keys _ (fun k => k) _ _ E).
    + rewrite map_id. apply NoDup_list_prod; assumption.
    + intros a e He. inv_bind He. inv_bind He. inv_bind He. inv_bind He.
      inversion He; reflexivity.
Qed.

(** X13: the long table has one row per identifier and date label: with
    distinct county identifiers, distinct state identifiers and distinct
    date labels, it has (counties + 1 + states) x dates rows, and both of
    its columns are as long as its index. *)
Theorem combine_data_row_count (df1 df2 : wide string)
    (df3 : population string) (dict1 : list_dict) (dict2 : state_dict)
    (fr : frame) :
  combine_data df1 df2 df3 dict1 dict2 = Ok fr ->
  NoDup (county_fips dict1) ->
  NoDup (state_fips dict1) ->
  NoDup (dates dict1) ->
  len (index fr)
  = ((len (county_fips dict1) + 1 + len (state_fips dict1))
     * len (dates dict1))%nat /\
  Forall (fun c => len (snd c) = len (index fr)) (cols fr).
Proof.
  intros H Hc Hs Hd.
  destruct (combine_data_rows _ _ _ _ _ _ H) as (rs & Hrs & ->).
  destruct (combine_rows_ok _ _ _ _ _ Hrs)
    as (usa & cnt & sts & parsed & Hu & _ & Hcn & Hst & HF & ->).
  simpl. split.
  - rewrite length_map.
    rewrite <- (Permutation_length (sort_by_perm _ parsed)).
    rewrite <- (Forall2_length HF), !length_app.
    rewrite (usa_total_length _ _ _ _ Hu Hd),
      (counties_dict_length _ _ _ _ Hcn Hc Hd),
      (states_length _ _ _ _ _ Hst Hs Hd).
    lia.
  - repeat constructor; simpl; rewrite !length_map; reflexivity.
Qed.

Lemma combine_data_row_count_witness :
  len (index ex_frame)
  = ((len (county_fips ex_list_dict) + 1 + len (state_fips ex_list_dict))
     * len (dates ex_list_dict))%nat /\
  Forall (fun c => len (snd c) = len (index ex_frame)) (cols ex_frame).
Proof.
  apply (combine_data_row_count ex_df1 ex_df2 ex_df3 ex_list_dict
           ex_state_dict ex_frame).
  - reflexivity.
  - repeat constructor; simpl; intuition discriminate.
  - repeat constructor; simpl; intuition discriminate.
  - repeat constructor; simpl; intuition discriminate.
Defined.

(** Every county at every date has its row. *)
Lemma county_rows_exist (df1 df2 : wide string) (dict1 : list_dict)
    (dict2 : state_dict) (rs : list long_row) (fips label : string) :
  combine_rows df1 df2 dict1 dict2 = Ok rs ->
  In fips (county_fips dict1) ->
  In label (dates dict1) ->
  exists t c d,
    to_datetime label = Ok t /\
    cell_at df1 fips label = Ok c /\
    cell_at df2 fips label = Ok d /\
    In ((fips, t), (c, d)) rs.
Proof.
  intros H Hf Hl.
  pose proof (fun row => combine_rows_In _ _ _ _ _ row H) as Hin.
  destruct (combine_rows_ok _ _ _ _ _ H)
    as (usa & cnt & sts & parsed & _ & _ & Hc & _ & HF & _).
  assert (Hcell : exists c d, cell_at df1 fips label = Ok c
                              /\ cell_at df2 fips label = Ok d).
  { unfold counties_dict in Hc. inv_bind Hc.
    assert (Hk : In (fips, label) (list_prod (county_fips dict1) (dates dict1)))
      by (apply in_prod_iff; auto).
    destruct (mapM_all_ok _ _ _ E _ Hk) as (e & _ & He).
    simpl in He. inv_bind He. inv_bind He. eauto. }
  destruct Hcell as (c & d & H1 & H2).
  assert (He : In ((fips, label), (c, d)) (cnt ++ usa ++ sts)).
  { rewrite !in_app_iff; left.
    apply (counties_dict_In _ _ _ _ _ Hc); simpl; auto. }
  destruct (Forall2_In_l _ _ _ _ HF He) as ([[f t] v] & _ & Ht & Hf' & Hv).
  simpl in Ht, Hf', Hv.
  exists t, c, d; repeat split; auto.
  apply Hin. left. exists label; simpl; auto.
Qed.

(** X14: a county that the deaths table does not hold still gets its rows
    in the long table, and their Deaths values are those of the first row of
    the deaths file. *)
Theorem combine_rows_missing_county (df1 df2 : wide string)
    (dict1 : list_dict) (dict2 : state_dict) (rs : list long_row)
    (fips label : string) (r0 : wide_row string)
    (rest : list (wide_row string)) (j : nat) :
  combine_rows df1 df2 dict1 dict2 = Ok rs ->
  In fips (county_fips dict1) ->
  In label (dates dict1) ->
  rows df2 = r0 :: rest ->
  (forall r, In r (rows df2) -> FIPS r <> fips) ->
  position label (date_columns df2) = Some j ->
  exists t c,
    to_datetime label = Ok t /\
    In ((fips, t), (c, nth j (counts r0) 0%Z)) rs.
Proof.
  intros H Hf Hl Hrows Habs Hj.
  destruct (county_rows_exist _ _ _ _ _ _ _ H Hf Hl)
    as (t & c & d & Ht & _ & Hd & Hin).
  rewrite (cell_at_absent_row df2 fips label r0 rest j Hrows Habs Hj) in Hd.
  inversion Hd; subst d. exists t, c; auto.
Qed.

Lemma combine_rows_missing_county_witness :
  exists rs,
    combine_rows ex_df1 ex_df2_short ex_list_dict_extra_county ex_state_dict
    = Ok rs /\
    exists t c,
      to_datetime "1/23/20" = Ok t /\
      In (("00060", t),
          (c, nth 1 (counts (mk_wide_row "01001" "Alabama" [1; 2]%Z)) 0%Z)) rs.
Proof.
  eexists; split; [vm_compute; reflexivity|].
  apply (combine_rows_missing_county ex_df1 ex_df2_short
           ex_list_dict_extra_county ex_state_dict _ "00060" "1/23/20"
           (mk_wide_row "01001" "Alabama" [1; 2]%Z)
           [mk_wide_row "56045" "Wyoming" [3; 3]%Z] 1).
  - vm_compute; reflexivity.
  - simpl; auto.
  - simpl; auto.
  - reflexivity.
  - intros r [<-|[<-|[]]]; discriminate.
  - reflexivity.
Defined.

(** ** new_column, the column assignment and the cast *)

Lemma foldM_blocks_raise {A B : Type} (body : list B -> A -> result (list B))
    (block : A -> result (list B)) :
  (forall lst a, body lst a = (t <- block a ;; Ok (lst ++ t))) ->
  forall (l : list A) (acc : list B) (e : error),
    foldM body l acc = Raise e -> exists a, In a l /\ block a = Raise e.
Proof.
  intros Hbody l; induction l as [|a l IH]; simpl; intros acc e H;
    [discriminate|].
  rewrite Hbody in H. destruct (block a) as [t|e'] eqn:Ea; simpl in H.
  - destruct (IH _ _ H) as (a' & Ha' & Hb); eauto.
  - inversion H; subst; eauto.
Qed.

Lemma foldM_blocks_fails {A B : Type} (body : list B -> A -> result (list B))
    (block : A -> result (list B)) :
  (forall lst a, body lst a = (t <- block a ;; Ok (lst ++ t))) ->
  forall (l : list A) (acc : list B) (a : A) (e : error),
    In a l -> block a = Raise e -> exists e', foldM body l acc = Raise e'.
Proof.
  intros Hbody l; induction l as [|x l IH]; simpl; intros acc a e Hin Hb;
    [contradiction|].
  rewrite Hbody. destruct Hin as [->|Hin].
  - rewrite Hb; simpl; eauto.
  - destruct (block x); simpl; [|eauto]. eapply IH; eauto.
Qed.

Lemma frame_col_raises (cs : list (string * list float64)) (column : string)
    (e : error) :
  frame_col cs column = Raise e -> e = KeyError.
Proof.
  induction cs as [|[name c] cs IH]; simpl.
  - intro H; inversion H; reflexivity.
  - destruct (String.eqb column name); [discriminate | exact IH].
Qed.

Lemma loc_raises (data : frame) (fips column : string) (e : error) :
  loc data fips column = Raise e <->
  e = KeyError /\
  (frame_col (cols data) column = Raise KeyError \/
   exists col, frame_col (cols data) column = Ok col
               /\ select (index data) col fips = []).
Proof.
  unfold loc. destruct (frame_col (cols data) column) as [col|e'] eqn:Ec; simpl.
  - destruct (select (index data) col fips) as [|x l] eqn:Es; split.
    + intro H; inversion H; split; [reflexivity|]. right; eauto.
    + intros [-> _]; reflexivity.
    + discriminate.
    + intros [_ [H|(col' & H & Hs)]]; [discriminate|].
      inversion H; subst col'. rewrite Es in Hs; discriminate.
  - pose proof (frame_col_raises _ _ _ Ec) as ->. split.
    + intro H; inversion H; auto.
    + intros [-> _]; reflexivity.
Qed.

(** X15: the 'average' calculation raises nothing but KeyError, and it
    raises exactly when, for some identifier of [all_fips], the table lacks
    the source column or has no row of that identifier. *)
Theorem new_column_average_raises_iff (column : string) (data : frame)
    (data2 : population string) (dict1 : list_dict) (days : nat) (e : error) :
  new_column column average data data2 dict1 days = Raise e <->
  e = KeyError /\
  exists fips,
    In fips (all_fips dict1) /\
    (frame_col (cols data) column = Raise KeyError \/
     exists col, frame_col (cols data) column = Ok col
                 /\ select (index data) col fips = []).
Proof.
  unfold new_column.
  set (block := fun fips =>
         s <- loc data fips column ;;
         Ok (map (fun x => fround (fdiv (fillna0 x) (of_int (Z.of_nat days))))
                 (diff days s))).
  assert (Hbody : forall (lst : list float64) a,
             (s <- loc data a column ;;
              (let temp :=
                 map (fun x => fround (fdiv (fillna0 x) (of_int (Z.of_nat days))))
                     (diff days s) in
               Ok (lst ++ temp)))
             = (t <- block a ;; Ok (lst ++ t))).
  { intros lst a. unfold block. destruct (loc data a column); reflexivity. }
  assert (Hblock : forall f e', block f = Raise e' <-> loc data f column = Raise e').
  { intros f e'. unfold block. destruct (loc data f column); simpl;
      split; congruence. }
  split.
  - intro H. apply (foldM_blocks_raise _ block Hbody) in H.
    destruct H as (f & Hf & Hb). apply Hblock in Hb.
    apply loc_raises in Hb. destruct Hb as [-> Hb]. eauto.
  - intros [-> (f & Hf & Hb)].
    assert (Hl : loc data f column = Raise KeyError)
      by (apply loc_raises; auto).
    apply Hblock in Hl.
    destruct (foldM_blocks_fails _ block Hbody _ [] _ _ Hf Hl) as (e' & He').
    pose proof He' as He''.
    apply (foldM_blocks_raise _ block Hbody) in He''.
    destruct He'' as (f' & _ & Hb'). apply Hblock in Hb'.
    apply loc_raises in Hb'. destruct Hb' as [-> _]. exact He'.
Qed.

Lemma Forall2_all {A B : Type} (R : A -> B -> Prop) (l : list A) :
  forall (l' : list B),
    len l = len l' ->
    (forall a b, In a l -> In b l' -> R a b) ->
    Forall2 R l l'.
Proof.
  induction l as [|a l IH]; intros [|b l'] Hlen HR; simpl in *;
    try discriminate; constructor.
  - apply HR; auto.
  - apply IH; [congruence | intros; apply HR; auto].
Qed.

(** X16: on a table sorted by (identifier, date) whose identifiers all
    lie in [all_fips], with [all_fips] strictly ascending, the 'average'
    list has one value per row of the table, in the order of the rows: the
    value at a position was computed from the rows of the identifier that
    stands at that position, so its assignment as a column succeeds and
    puts no value under a foreign identifier. *)
Theorem new_column_average_aligned (column name : string) (data : frame)
    (data2 : population string) (dict1 : list_dict) (days : nat)
    (lst col : list float64) :
  new_column column average data data2 dict1 days = Ok lst ->
  frame_col (cols data) column = Ok col ->
  len col = len (index data) ->
  StronglySorted (fun a b => key_leb a b = true) (index data) ->
  StronglySorted (fun a b => String.ltb a b = true) (all_fips dict1) ->
  (forall k, In k (index data) -> In (fst k) (all_fips dict1)) ->
  Forall2
    (fun key y =>
       exists c,
         loc data (fst key) column = Ok c /\
         In y (map (fun x => fround (fdiv (fillna0 x) (of_int (Z.of_nat days))))
                   (diff days c)))
    (index data) lst /\
  exists fr, set_column data name lst = Ok fr.
Proof.
  intros H Hcol Hlen Hsorted Hstrict Hcover.
  unfold new_column in H.
  apply (foldM_blocks _
           (fun fips =>
              s <- loc data fips column ;;
              Ok (map (fun x => fround (fdiv (fillna0 x) (of_int (Z.of_nat days))))
                      (diff days s)))) in H;
    [|intros l a; destruct (loc data a column); reflexivity].
  destruct H as (blocks & HF & ->). simpl.
  assert (HA : Forall2
                 (fun key y =>
                    exists c,
                      loc data (fst key) column = Ok c /\
                      In y (map (fun x => fround (fdiv (fillna0 x)
                                                    (of_int (Z.of_nat days))))
                                (diff days c)))
                 (index data) (List.concat blocks)).
  { rewrite <- (blocks_rebuild_table (all_fips dict1) (index data)
                  Hstrict Hsorted Hcover) at 1.
    apply Forall2_concat.
    clear - HF Hcol Hlen.
    induction HF as [|f block l l' Hb HF IH]; simpl; constructor; [|exact IH].
    inv_bind Hb. inversion Hb; subst block.
    pose proof E as E'. apply loc_ok in E'.
    destruct E' as (col' & Hc' & -> & _).
    rewrite Hcol in Hc'; inversion Hc'; subst col'.
    apply Forall2_all.
    - rewrite length_map, diff_length. apply select_keys_length; exact Hlen.
    - intros key y Hkey Hy. apply select_keys_fst in Hkey. subst f.
      eexists; split; [exact E | exact Hy]. }
  split; [exact HA|].
  unfold set_column. apply Forall2_length in HA.
  rewrite <- HA, Nat.eqb_refl. eauto.
Qed.

Lemma new_column_average_aligned_witness :
  Forall2
    (fun key y =>
       exists c,
         loc ex_frame (fst key) "Confirmed" = Ok c /\
         In y (map (fun x => fround (fdiv (fillna0 x) (of_int (Z.of_nat 1))))
                   (diff 1 c)))
    (index ex_frame) ex_new_cases /\
  exists fr, set_column ex_frame "New Cases" ex_new_cases = Ok fr.
Proof.
  apply (new_column_average_aligned "Confirmed" "New Cases" ex_frame ex_df3
           ex_list_dict 1 ex_new_cases
           (map (fun r => of_int (fst (snd r))) ex_rows)).
  - reflexivity.
  - reflexivity.
  - reflexivity.
  - repeat constructor.
  - repeat constructor.
  - simpl. intros k Hk.
    repeat (destruct Hk as [<-|Hk]; [simpl; tauto|]). destruct Hk.
Defined.

(** *** Daily differences *)

Lemma round_sub_int (z p : Z) :
  round_half_even ((inject_Z z - inject_Z p) / inject_Z 1) = (z - p)%Z.
Proof.
  unfold round_half_even. simpl.
  rewrite Z.div_1_r, Z.mod_1_r. simpl. lia.
Qed.

Lemma average_one_pair (z p : Z) :
  fround (fdiv (fillna0 (fsub (of_int z) (of_int p))) (of_int (Z.of_nat 1)))
  = of_int (z - p).
Proof.
  unfold of_int. simpl fsub. simpl fillna0. unfold fdiv.
  change (Qzero (inject_Z (Z.of_nat 1))) with false. cbv iota.
  unfold fround. rewrite round_sub_int. reflexivity.
Qed.

Lemma average_one_tail (zs : list Z) :
  forall p,
    map (fun x => fround (fdiv (fillna0 x) (of_int (Z.of_nat 1))))
        (map (fun q => fsub (fst q) (snd q))
             (combine (map of_int zs)
                      (firstn (len (map of_int zs)) (of_int p :: map of_int zs))))
    = map of_int (differences p zs).
Proof.
  induction zs as [|z zs IH]; intro p; simpl; [reflexivity|].
  f_equal; [apply average_one_pair | apply IH].
Qed.

(** On a column of whole numbers the block of window 1 holds the
    differences of consecutive values. *)
Lemma average_one_block (zs : list Z) :
  map (fun x => fround (fdiv (fillna0 x) (of_int (Z.of_nat 1))))
      (diff 1 (map of_int zs))
  = map of_int (daily zs).
Proof.
  destruct zs as [|z zs]; [reflexivity|].
  unfold diff, shift. simpl. f_equal. apply average_one_tail.
Qed.

Lemma last_cons {A : Type} (l : list A) :
  forall (a d : A), last (a :: l) d = last l a.
Proof.
  induction l as [|b l IH]; intros a d; [reflexivity|].
  change (last (a :: b :: l) d) with (last (b :: l) d).
  rewrite (IH b d), (IH b a). reflexivity.
Qed.

Lemma differences_sum (zs : list Z) :
  forall p, np_sum (differences p zs) = (last zs p - p)%Z.
Proof.
  induction zs as [|z zs IH]; intro p; simpl differences;
    [simpl; lia|].
  change (np_sum ((z - p)%Z :: differences z zs))
    with ((z - p) + np_sum (differences z zs))%Z.
  rewrite IH, last_cons. lia.
Qed.

Lemma daily_sum (zs : list Z) :
  zs <> [] -> np_sum (daily zs) = (last zs 0 - hd 0 zs)%Z.
Proof.
  destruct zs as [|z zs]; [contradiction|]. intros _.
  change (np_sum (daily (z :: zs))) with (0 + np_sum (differences z zs))%Z.
  rewrite differences_sum, last_cons. simpl. lia.
Qed.

(** X17: with window 1 on a column of whole numbers (as Confirmed and
    Deaths are), the derived values are exact: each block is 0 followed by
    the differences of consecutive counts of the identifier, and the values
    of a block add up to the last count minus the first. *)
Theorem new_column_daily (column : string) (data : frame)
    (data2 : population string) (dict1 : list_dict) (lst : list float64) :
  new_column column average data data2 dict1 1 = Ok lst ->
  (forall fips c, loc data fips column = Ok c -> exists zs, c = map of_int zs) ->
  exists zss,
    Forall2 (fun fips zs => loc data fips column = Ok (map of_int zs))
            (all_fips dict1) zss /\
    lst = List.concat (map (fun zs => map of_int (daily zs)) zss) /\
    Forall (fun zs => np_sum (daily zs) = (last zs 0 - hd 0 zs)%Z) zss.
Proof.
  intros H Hint. unfold new_column in H.
  apply (foldM_blocks _
           (fun fips =>
              s <- loc data fips column ;;
              Ok (map (fun x => fround (fdiv (fillna0 x) (of_int (Z.of_nat 1))))
                      (diff 1 s)))) in H;
    [|intros l a; destruct (loc data a column); reflexivity].
  destruct H as (blocks & HF & ->). simpl.
  clear - HF Hint.
  induction HF as [|f block l l' Hb HF (zss & H1 & H2 & H3)].
  - exists []; repeat split; constructor.
  - inv_bind Hb. inversion Hb; subst block.
    destruct (Hint _ _ E) as (zs & ->).
    exists (zs :: zss); split; [constructor; auto|]. split.
    + simpl. rewrite average_one_block, H2. reflexivity.
    + constructor; [|exact H3]. apply daily_sum.
      apply loc_ok in E. destruct E as (col & _ & Hs & Hne).
      intros ->. apply Hne. reflexivity.
Qed.

Lemma select_of_rows (h : long_row -> Z) (rs : list long_row) (fips : string) :
  select (map fst rs) (map (fun r => of_int (h r)) rs) fips
  = map of_int
        (map h (filter (fun r => String.eqb (fst (fst r)) fips) rs)).
Proof.
  unfold select, long_row, long_key in *.
  induction rs as [|r rs IH]; simpl; [reflexivity|].
  destruct (String.eqb (fst (fst r)) fips); simpl; rewrite IH; reflexivity.
Qed.

(** The Confirmed column of the long table holds whole numbers. *)
Lemma frame_of_rows_whole (rs : list long_row) (fips : string)
    (c : list float64) :
  loc (frame_of_rows rs) fips "Confirmed" = Ok c ->
  exists zs, c = map of_int zs.
Proof.
  intro H. apply loc_ok in H. destruct H as (col & Hcol & -> & _).
  simpl in Hcol. inversion Hcol; subst col.
  unfold frame_of_rows; cbn [index].
  rewrite (select_of_rows (fun r => fst (snd r))). eauto.
Qed.

Lemma new_column_daily_witness :
  exists zss,
    Forall2 (fun fips zs => loc ex_frame fips "Confirmed" = Ok (map of_int zs))
            (all_fips ex_list_dict) zss /\
    ex_new_cases = List.concat (map (fun zs => map of_int (daily zs)) zss) /\
    Forall (fun zs => np_sum (daily zs) = (last zs 0 - hd 0 zs)%Z) zss.
Proof.
  apply (new_column_daily "Confirmed" ex_frame ex_df3 ex_list_dict
           ex_new_cases).
  - reflexivity.
  - exact (frame_of_rows_whole ex_rows).
Defined.

(** *** Assigning and reading a column *)

Lemma frame_col_dict_set_same (cs : list (string * list float64))
    (name : string) (lst : list float64) :
  frame_col (dict_set String.eqb cs name lst) name = Ok lst.
Proof.
  induction cs as [|[n c] cs IH]; simpl.
  - rewrite String.eqb_refl; reflexivity.
  - destruct (String.eqb name n) eqn:E; simpl.
    + rewrite String.eqb_refl; reflexivity.
    + rewrite E; exact IH.
Qed.

Lemma frame_col_dict_set_other (cs : list (string * list float64))
    (name other : string) (lst : list float64) :
  other <> name ->
  frame_col (dict_set String.eqb cs name lst) other = frame_col cs other.
Proof.
  intro Hne. apply String.eqb_neq in Hne.
  induction cs as [|[n c] cs IH]; simpl.
  - rewrite Hne; reflexivity.
  - destruct (String.eqb_spec name n) as [->|Hn]; simpl.
    + rewrite Hne; reflexivity.
    + destruct (String.eqb other n); [reflexivity | exact IH].
Qed.

(** X18: a column that was assigned is the column that is read back under
    its name; the assignment leaves the index and every other column as they
    were, and the number of columns grows by one exactly when the name is
    new. *)
Theorem set_column_read_back (data : frame) (name : string)
    (lst : list float64) (fr : frame) :
  set_column data name lst = Ok fr ->
  index fr = index data /\
  frame_col (cols fr) name = Ok lst /\
  (forall other, other <> name ->
                 frame_col (cols fr) other = frame_col (cols data) other) /\
  len (cols fr)
  = (if existsb (String.eqb name) (map fst (cols data))
     then len (cols data) else S (len (cols data))).
Proof.
  intro H. apply set_column_ok in H. destruct H as [_ ->]. simpl.
  split; [reflexivity|]. split; [apply frame_col_dict_set_same|].
  split; [intros; apply frame_col_dict_set_other; assumption|].
  induction (cols data) as [|[n c] cs IH]; simpl; [reflexivity|].
  destruct (String.eqb name n); simpl; [reflexivity|].
  rewrite IH. destruct (existsb (String.eqb name) (map fst cs)); reflexivity.
Qed.

Lemma set_column_read_back_witness :
  exists fr,
    set_column ex_frame "New Cases" ex_new_cases = Ok fr /\
    index fr = index ex_frame /\
    frame_col (cols fr) "New Cases" = Ok ex_new_cases /\
    (forall other, other <> "New Cases" ->
                   frame_col (cols fr) other = frame_col (cols ex_frame) other) /\
    len (cols fr)
    = (if existsb (String.eqb "New Cases") (map fst (cols ex_frame))
       then len (cols ex_frame) else S (len (cols ex_frame))).
Proof.
  eexists; split; [reflexivity|].
  apply (set_column_read_back ex_frame "New Cases" ex_new_cases).
  reflexivity.
Defined.

(** *** The cast to integers *)

Lemma to_int_raises (x : float64) (e : error) :
  to_int x = Raise e <-> e = IntCastingNaNError /\ is_finite x = false.
Proof.
  destruct x; simpl; split.
  - discriminate.
  - intros [_ H]; discriminate.
  - intro H; inversion H; auto.
  - intros [-> _]; reflexivity.
  - intro H; inversion H; auto.
  - intros [-> _]; reflexivity.
Qed.

(** X19: the cast of the table to integers raises exactly when some cell
    of some column is NaN or infinite, and then with the error pandas has
    for non-finite values; a table of finite cells is always cast. *)
Theorem astype_int_raises_iff (data : frame) (e : error) :
  astype_int data = Raise e <->
  e = IntCastingNaNError /\
  exists c x, In c (cols data) /\ In x (snd c) /\ is_finite x = false.
Proof.
  unfold astype_int. split.
  - intro H.
    destruct (mapM (fun c => mapM to_int (snd c)) (cols data)) as [cs|e'] eqn:E;
      simpl in H; [discriminate|]. inversion H; subst e'.
    apply mapM_raise in E. destruct E as (c & Hc & Hm).
    apply mapM_raise in Hm. destruct Hm as (x & Hx & Ht).
    apply to_int_raises in Ht. destruct Ht as [-> Hf]. eauto 6.
  - intros [-> (c & x & Hc & Hx & Hf)].
    assert (Ht : to_int x = Raise IntCastingNaNError)
      by (apply to_int_raises; auto).
    destruct (mapM_fails to_int _ _ _ Hx Ht) as (e1 & He1).
    destruct (mapM_fails (fun c => mapM to_int (snd c)) _ _ _ Hc He1)
      as (e2 & He2).
    pose proof He2 as He3. apply mapM_raise in He3.
    destruct He3 as (c' & _ & Hm). apply mapM_raise in Hm.
    destruct Hm as (x' & _ & Ht'). apply to_int_raises in Ht'.
    destruct Ht' as [-> _]. rewrite He2; reflexivity.
Qed.

(** ** The driver *)

(** What a successful run went through. *)
Lemma Dataset_ok (so : list string -> list string)
    (confirmed deaths : wide raw_fips) (pop : population raw_fips)
    (out : int_frame) (ld : list_dict) :
  Dataset so confirmed deaths pop = Ok (out, ld) ->
  exists a c' d' p' sd rs n1 n2 n3 n4 n5 n6,
    last_label (columns confirmed) = Ok a /\
    last_label (columns deaths) = Ok a /\
    fix_fips confirmed = Ok c' /\
    fix_fips deaths = Ok d' /\
    fix_fips_pop pop = Ok p' /\
    get_dicts so c' p' = Ok (ld, sd) /\
    combine_rows c' d' ld sd = Ok rs /\
    new_column "Cases, 7DMA" PER100K_kind
      (mk_frame (map fst rs)
         [("Confirmed", map (fun r => of_int (fst (snd r))) rs);
          ("Deaths", map (fun r => of_int (snd (snd r))) rs);
          ("New Cases", n1); ("New Deaths", n2);
          ("Cases, 7DMA", n3); ("Deaths, 7DMA", n4)])
      p' ld 1 = Ok n5 /\
    astype_int
      (mk_frame (map fst rs)
         [("Confirmed", map (fun r => of_int (fst (snd r))) rs);
          ("Deaths", map (fun r => of_int (snd (snd r))) rs);
          ("New Cases", n1); ("New Deaths", n2);
          ("Cases, 7DMA", n3); ("Deaths, 7DMA", n4);
          ("New Cases Per 100k, 7DMA", n5); ("Deaths Per 100k", n6)])
    = Ok out.
Proof.
  unfold Dataset; intro H.
  apply bind_ok in H; destruct H as (a & Ha & H).
  apply bind_ok in H; destruct H as (b & Hb & H).
  apply bind_ok in H; destruct H as (u & Hu & H).
  destruct (String.eqb_spec a b) as [<-|Hne]; [|discriminate].
  apply bind_ok in H; destruct H as (c' & Hc & H).
  apply bind_ok in H; destruct H as (d' & Hd & H).
  apply bind_ok in H; destruct H as (p' & Hp & H).
  apply bind_ok in H; destruct H as ([ld' sd] & Hg & H).
  apply bind_ok in H; destruct H as (fr0 & Hfr0 & H).
  destruct (combine_data_rows _ _ _ _ _ _ Hfr0) as (rs & Hrs & ->).
  apply bind_ok in H; destruct H as (n1 & N1 & H).
  apply bind_ok in H; destruct H as (f1 & S1 & H).
  apply set_column_ok in S1; destruct S1 as [L1 ->].
  apply bind_ok in H; destruct H as (n2 & N2 & H).
  apply bind_ok in H; destruct H as (f2 & S2 & H).
  apply set_column_ok in S2; destruct S2 as [L2 ->].
  apply bind_ok in H; destruct H as (n3 & N3 & H).
  apply bind_ok in H; destruct H as (f3 & S3 & H).
  apply set_column_ok in S3; destruct S3 as [L3 ->].
  apply bind_ok in H; destruct H as (n4 & N4 & H).
  apply bind_ok in H; destruct H as (f4 & S4 & H).
  apply set_column_ok in S4; destruct S4 as [L4 ->].
  apply bind_ok in H; destruct H as (n5 & N5 & H).
  apply bind_ok in H; destruct H as (f5 & S5 & H).
  apply set_column_ok in S5; destruct S5 as [L5 ->].
  apply bind_ok in H; destruct H as (n6 & N6 & H).
  apply bind_ok in H; destruct H as (f6 & S6 & H).
  apply set_column_ok in S6; destruct S6 as [L6 ->].
  apply bind_ok in H; destruct H as (o & Hcast & H).
  inversion H; subst; clear H.
  cbn [index cols frame_of_rows dict_set String.eqb Ascii.eqb Bool.eqb] in *.
  exists a, c', d', p', sd, rs, n1, n2, n3, n4, n5, n6.
  repeat split; assumption.
Qed.

Lemma to_int_of_int (z : Z) : to_int (of_int z) = Ok z.
Proof.
  unfold to_int, of_int, Qtrunc; simpl. rewrite Z.quot_1_r. reflexivity.
Qed.

Lemma mapM_to_int_of_int (h : long_row -> Z) (rs : list long_row) :
  mapM to_int (map (fun r => of_int (h r)) rs) = Ok (map h rs).
Proof.
  induction rs as [|r rs IH]; [reflexivity|].
  cbn [map mapM]. rewrite to_int_of_int, IH. reflexivity.
Qed.

(** X20: the persisted table of a successful run is sorted ascending by
    identifier and then by calendar date: the derived columns are added and
    the table is cast without any row being moved. *)
Theorem Dataset_sorted (so : list string -> list string)
    (confirmed deaths : wide raw_fips) (pop : population raw_fips)
    (out : int_frame) (ld : list_dict) :
  Dataset so confirmed deaths pop = Ok (out, ld) ->
  StronglySorted (fun a b => key_leb a b = true) (out_index out).
Proof.
  intro H.
  destruct (Dataset_ok _ _ _ _ _ _ H)
    as (a & c' & d' & p' & sd & rs & n1 & n2 & n3 & n4 & n5 & n6
        & _ & _ & _ & _ & _ & _ & Hrs & _ & Hcast).
  unfold astype_int in Hcast. inv_bind Hcast. inversion Hcast; subst out.
  simpl. eapply combine_rows_sorted; exact Hrs.
Qed.

Lemma Dataset_sorted_witness :
  StronglySorted (fun a b => key_leb a b = true) (out_index ex_out).
Proof.
  apply (Dataset_sorted order_as_given ex_confirmed ex_deaths ex_population
           ex_out ex_list_dict).
  vm_compute; reflexivity.
Defined.

(** X21: the cumulative counts pass through the run unchanged: the index
    of the persisted table is the index of the long table that
    [combine_data] builds from the normalized inputs, and its first two
    numeric columns are the Confirmed and Deaths values of that table, row
    by row. *)
Theorem Dataset_keeps_counts (so : list string -> list string)
    (confirmed deaths : wide raw_fips) (pop : population raw_fips)
    (out : int_frame) (ld : list_dict) :
  Dataset so confirmed deaths pop = Ok (out, ld) ->
  exists c' d' p' sd rs rest,
    fix_fips confirmed = Ok c' /\
    fix_fips deaths = Ok d' /\
    fix_fips_pop pop = Ok p' /\
    get_dicts so c' p' = Ok (ld, sd) /\
    combine_rows c' d' ld sd = Ok rs /\
    out_index out = map fst rs /\
    out_values out
    = map (fun r => fst (snd r)) rs :: map (fun r => snd (snd r)) rs :: rest.
Proof.
  intro H.
  destruct (Dataset_ok _ _ _ _ _ _ H)
    as (a & c' & d' & p' & sd & rs & n1 & n2 & n3 & n4 & n5 & n6
        & _ & _ & Hc & Hd & Hp & Hg & Hrs & _ & Hcast).
  unfold astype_int in Hcast. inv_bind Hcast. inversion Hcast; subst out.
  simpl in E.
  rewrite (mapM_to_int_of_int (fun r => fst (snd r))) in E. simpl in E.
  rewrite (mapM_to_int_of_int (fun r => snd (snd r))) in E. simpl in E.
  apply bind_ok in E. destruct E as (tl1 & E1 & E).
  inversion E; subst x. clear E.
  apply bind_ok in E1. destruct E1 as (tl2 & _ & E1).
  inversion E1; subst tl1. clear E1.
  exists c', d', p', sd, rs, tl2. simpl. repeat split; auto.
Qed.

Lemma Dataset_keeps_counts_witness :
  exists c' d' p' sd rs rest,
    fix_fips ex_confirmed = Ok c' /\
    fix_fips ex_deaths = Ok d' /\
    fix_fips_pop ex_population = Ok p' /\
    get_dicts order_as_given c' p' = Ok (ex_list_dict, sd) /\
    combine_rows c' d' ex_list_dict sd = Ok rs /\
    out_index ex_out = map fst rs /\
    out_values ex_out
    = map (fun r => fst (snd r)) rs :: map (fun r => snd (snd r)) rs :: rest.
Proof.
  apply (Dataset_keeps_counts order_as_given ex_confirmed ex_deaths
           ex_population ex_out ex_list_dict).
  vm_compute; reflexivity.
Defined.

Lemma astype_int_finite (data : frame) (out : int_frame) :
  astype_int data = Ok out ->
  forall c x, In c (cols data) -> In x (snd c) -> is_finite x = true.
Proof.
  unfold astype_int; intros H c x Hc Hx. inv_bind H.
  destruct (mapM_all_ok _ _ _ E c Hc) as (ic & _ & Hic).
  destruct (mapM_all_ok _ _ _ Hic x Hx) as (z & _ & Hz).
  destruct x; [reflexivity | discriminate | discriminate].
Qed.

Lemma per100k_zero_not_finite (x : float64) (q : Q) :
  Qzero q = true -> is_finite (fround (fdiv x (Finite q))) = false.
Proof.
  intro Hq. destruct x as [a|s|]; simpl; rewrite ?Hq; try reflexivity.
  destruct (Qzero a); reflexivity.
Qed.

Lemma per100k_nan_not_finite (x : float64) :
  is_finite (fround (fdiv x NaN)) = false.
Proof. destruct x; reflexivity. Qed.

Lemma Qzero_Qeq (q : Q) : Qzero q = true <-> (q == 0)%Q.
Proof.
  unfold Qzero, Qeq; simpl. rewrite Z.eqb_eq. lia.
Qed.

Lemma loc_PER100K_row (data2 : population string) (r : pop_row string)
    (p : float64) :
  In r data2 -> loc_PER100K data2 (pop_FIPS r) = Ok p -> p = PER100K r.
Proof.
  unfold loc_PER100K; intros Hr H.
  assert (Hf : In r (filter (fun r0 => String.eqb (pop_FIPS r0) (pop_FIPS r))
                            data2))
    by (apply filter_In; split; [exact Hr | apply String.eqb_refl]).
  destruct (filter _ data2) as [|r1 [|r2 l]]; try discriminate.
  inversion H; subst p. destruct Hf as [->|[]]; reflexivity.
Qed.

(** X22: a run completes only on a population table whose figures can
    divide: no figure is NaN and no figure is zero.  (A zero or missing
    figure makes the per-100k values of that identifier infinite or NaN, and
    the cast to integers refuses them.) *)
Theorem Dataset_population_divides (so : list string -> list string)
    (confirmed deaths : wide raw_fips) (pop : population raw_fips)
    (out : int_frame) (ld : list_dict) :
  Dataset so confirmed deaths pop = Ok (out, ld) ->
  forall r, In r pop ->
    PER100K r <> NaN /\
    forall q, PER100K r = Finite q -> ~ (q == 0)%Q.
Proof.
  intros H r Hr.
  destruct (Dataset_ok _ _ _ _ _ _ H)
    as (a & c' & d' & p' & sd & rs & n1 & n2 & n3 & n4 & n5 & n6
        & _ & _ & _ & _ & Hp & Hg & _ & Hn5 & Hcast).
  (* the normalized row *)
  unfold fix_fips_pop in Hp.
  destruct (mapM_all_ok _ _ _ Hp r Hr) as (r' & Hr' & Hfix).
  apply bind_ok in Hfix. destruct Hfix as (f' & _ & Hfix).
  assert (Hper : PER100K r' = PER100K r) by (inversion Hfix; reflexivity).
  clear Hfix.
  (* its block in the per-100k list *)
  destruct (get_dicts_ok so c' p' ld sd Hg)
    as (_ & _ & _ & _ & _ & _ & _ & Hpop & _).
  assert (Hin : In (pop_FIPS r') (pop_fips ld))
    by (rewrite Hpop; apply in_map; exact Hr').
  destruct (new_column_per100k_ok _ _ _ _ _ _ Hn5)
    as (pops & total & c0 & blocks & _ & _ & _ & Hlst & HF).
  destruct (Forall2_In_l _ _ _ _ HF Hin) as (block & Hblock & c & p & Hc & Hloc & ->).
  apply (loc_PER100K_row p' r' p Hr') in Hloc. rewrite Hper in Hloc. subst p.
  apply loc_ok in Hc. destruct Hc as (col & _ & _ & Hne).
  destruct c as [|y c]; [contradiction|].
  assert (Hfin : is_finite (fround (fdiv y (PER100K r))) = true).
  { apply (astype_int_finite _ _ Hcast ("New Cases Per 100k, 7DMA", n5)).
    - simpl; tauto.
    - simpl. rewrite Hlst. apply in_or_app; right.
      apply in_concat. eexists; split; [exact Hblock|]. left; reflexivity. }
  split.
  - intro Enan. rewrite Enan, per100k_nan_not_finite in Hfin. discriminate.
  - intros q Eq Hq. apply Qzero_Qeq in Hq.
    rewrite Eq, (per100k_zero_not_finite y q Hq) in Hfin. discriminate.
Qed.

Lemma Dataset_population_divides_witness :
  In (mk_pop_row (RawInt 56) "Wyoming" (Finite 3)) ex_population /\
  PER100K (mk_pop_row (RawInt 56) "Wyoming" (Finite 3)) <> NaN /\
  forall q, PER100K (mk_pop_row (RawInt 56) "Wyoming" (Finite 3)) = Finite q ->
            ~ (q == 0)%Q.
Proof.
  split; [simpl; auto|].
  apply (Dataset_population_divides order_as_given ex_confirmed ex_deaths
           ex_population ex_out ex_list_dict).
  - vm_compute; reflexivity.
  - simpl; auto.
Defined.






(** ** The secondary export *)

Lemma table_rows_keys (t : int_frame) : map fst (table_rows t) = out_index t.
Proof.
  unfold table_rows. rewrite map_map. simpl.
  apply (labelled_snd (out_index t)).
Qed.

Lemma py_max_fold (l : list Timestamp) :
  forall x,
    let m := fold_left (fun m y => if date_ltb m y then y else m) l x in
    In m (x :: l) /\ forall y, In y (x :: l) -> date_leb y m = true.
Proof.
  induction l as [|z l IH]; intro x; simpl.
  - split; [auto|]. intros y [<-|[]].
    destruct (date_leb_total x x); assumption.
  - destruct (IH (if date_ltb x z then z else x)) as [Hin Hmax].
    split.
    + destruct (date_ltb x z); destruct Hin as [<-|Hin]; auto.
    + intros y Hy.
      assert (Hstep : date_leb x (if date_ltb x z then z else x) = true
                      /\ date_leb z (if date_ltb x z then z else x) = true).
      { unfold date_ltb. destruct (date_leb z x) eqn:E; simpl.
        - split; [|exact E]. destruct (date_leb_total x x); assumption.
        - split; [|destruct (date_leb_total z z); assumption].
          destruct (date_leb_total x z); congruence. }
      destruct Hstep as [Hx Hz].
      destruct Hy as [<-|[<-|Hy]].
      * eapply date_leb_trans; [exact Hx|]. apply Hmax; left; reflexivity.
      * eapply date_leb_trans; [exact Hz|]. apply Hmax; left; reflexivity.
      * apply Hmax; right; exact Hy.
Qed.

(** [max] returns a date of the column that no date of the column
    exceeds. *)
Lemma py_max_ok (l : list Timestamp) (m : Timestamp) :
  py_max l = Ok m -> In m l /\ forall y, In y l -> date_leb y m = true.
Proof.
  destruct l as [|x l]; simpl; [discriminate|].
  intro H; inversion H. apply py_max_fold.
Qed.

Lemma loc_label_ok (power : list (long_key * list Z)) (f : string)
    (b : list (long_key * list Z)) :
  loc_label power f = Ok b <->
  b <> [] /\ b = filter (fun r => String.eqb (fst (fst r)) f) power.
Proof.
  unfold loc_label.
  match goal with
  | |- context [filter ?g power] => destruct (filter g power) as [|r l]
  end.
  - split; [discriminate | intros [Hne ->]; contradiction].
  - split.
    + intro H; inversion H; split; [discriminate | reflexivity].
    + intros [_ ->]; reflexivity.
Qed.

Lemma loc_label_raises (power : list (long_key * list Z)) (f : string)
    (e : error) :
  loc_label power f = Raise e <->
  e = KeyError /\ filter (fun r => String.eqb (fst (fst r)) f) power = [].
Proof.
  unfold loc_label.
  match goal with
  | |- context [filter ?g power] => destruct (filter g power) as [|r l]
  end.
  - split; [intro H; inversion H; auto | intros [-> _]; reflexivity].
  - split; [discriminate | intros [_ H]; discriminate].
Qed.

Lemma loc_list_ok (power : list (long_key * list Z)) (lst : list string)
    (out : list (long_key * list Z)) :
  loc_list power lst = Ok out ->
  exists blocks,
    out = List.concat blocks /\
    Forall2 (fun f b =>
               b <> [] /\
               b = filter (fun r => String.eqb (fst (fst r)) f) power)
            lst blocks.
Proof.
  unfold loc_list; intro H. inv_bind H. inversion H; subst out.
  exists x; split; [reflexivity|].
  apply mapM_ok in E. eapply Forall2_impl; [|exact E].
  intros f b Hb. apply loc_label_ok; exact Hb.
Qed.

(** X24: the rows of the second file.  They are taken at the latest date
    of the table, a date that no date of the table exceeds; they come in
    blocks, one per county identifier in the order of [county_fips], and the
    block of a county is never empty and holds exactly the rows of the table
    with that identifier and that date. *)
Theorem choropleth_rows (us_covid : int_frame) (ld : list_dict)
    (power : list (long_key * list Z)) :
  choropleth us_covid ld = Ok power ->
  exists m blocks,
    In m (map snd (out_index us_covid)) /\
    (forall k, In k (out_index us_covid) -> date_leb (snd k) m = true) /\
    power = List.concat blocks /\
    Forall2 (fun f b =>
               b <> [] /\
               forall r, In r b <-> In r (table_rows us_covid) /\ fst r = (f, m))
            (county_fips ld) blocks.
Proof.
  unfold choropleth; intro H. inv_bind H. rename x into m.
  apply py_max_ok in E. destruct E as [Hin Hmax].
  apply loc_list_ok in H. destruct H as (blocks & -> & HF).
  exists m, blocks. split; [exact Hin|]. split; [|split; [reflexivity|]].
  - intros k Hk. apply Hmax. apply in_map; exact Hk.
  - eapply Forall2_impl; [|exact HF].
    intros f b [Hne ->]. split; [exact Hne|].
    intro r. rewrite !filter_In, String.eqb_eq, date_eqb_eq.
    destruct r as [[f' t] v]; simpl. split.
    + intros [[Hr ->] ->]; auto.
    + intros [Hr E]; inversion E; subst; auto.
Qed.

Lemma ex_choropleth : choropleth ex_out ex_list_dict = Ok ex_power.
Proof. vm_compute; reflexivity. Qed.

Lemma choropleth_rows_witness :
  exists m blocks,
    In m (map snd (out_index ex_out)) /\
    (forall k, In k (out_index ex_out) -> date_leb (snd k) m = true) /\
    ex_power = List.concat blocks /\
    Forall2 (fun f b =>
               b <> [] /\
               forall r, In r b <-> In r (table_rows ex_out) /\ fst r = (f, m))
            (county_fips ex_list_dict) blocks.
Proof.
  apply (choropleth_rows ex_out ex_list_dict ex_power).
  vm_compute; reflexivity.
Defined.

Lemma long_key_eq_dec (a b : long_key) : {a = b} + {a <> b}.
Proof.
  unfold long_key in *.
  repeat decide equality.
Defined.

Lemma filter_key_nonempty (t : int_frame) (f : string) (m : Timestamp) :
  In (f, m) (out_index t) ->
  filter (fun r => String.eqb (fst (fst r)) f)
         (filter (fun r => date_eqb (snd (fst r)) m) (table_rows t)) <> [].
Proof.
  intro Hin. rewrite <- table_rows_keys in Hin.
  apply in_map_iff in Hin. destruct Hin as (r & Hk & Hr).
  assert (Hf : In r (filter (fun r => String.eqb (fst (fst r)) f)
                       (filter (fun r => date_eqb (snd (fst r)) m)
                               (table_rows t)))).
  { destruct r as [[f' t'] v]. simpl in Hk. inversion Hk; subst f' t'.
    rewrite !filter_In; simpl.
    rewrite String.eqb_refl. repeat split; auto.
    apply date_eqb_eq; reflexivity. }
  intro E; rewrite E in Hf; exact Hf.
Qed.

Lemma filter_key_empty (t : int_frame) (f : string) (m : Timestamp) :
  ~ In (f, m) (out_index t) ->
  filter (fun r => String.eqb (fst (fst r)) f)
         (filter (fun r => date_eqb (snd (fst r)) m) (table_rows t)) = [].
Proof.
  intro Hnot.
  remember (filter (fun r : long_key * list Z => String.eqb (fst (fst r)) f)
              (filter (fun r : long_key * list Z => date_eqb (snd (fst r)) m)
                      (table_rows t))) as l eqn:El.
  destruct l as [|r l]; [symmetry; exact El|].
  exfalso. apply Hnot.
  assert (Hr : In r (r :: l)) by (left; reflexivity).
  rewrite El in Hr.
  rewrite !filter_In, String.eqb_eq, date_eqb_eq in Hr.
  destruct Hr as [[Hr Hd] Hf].
  rewrite <- table_rows_keys. apply in_map_iff. exists r; split; [|exact Hr].
  destruct r as [[f' t'] v]; simpl in *; congruence.
Qed.

(** X25: the export raises ValueError exactly on a table without rows
    ([max] of nothing), and KeyError exactly when some county identifier has
    no row at the latest date of the table; it raises nothing else. *)
Theorem choropleth_raises_iff (us_covid : int_frame) (ld : list_dict)
    (e : error) :
  choropleth us_covid ld = Raise e <->
  (e = ValueError /\ out_index us_covid = []) \/
  (e = KeyError /\
   exists m f,
     py_max (map snd (out_index us_covid)) = Ok m /\
     In f (county_fips ld) /\
     ~ In (f, m) (out_index us_covid)).
Proof.
  unfold choropleth.
  destruct (out_index us_covid) as [|k idx] eqn:Eidx.
  - simpl. split.
    + intro H; inversion H; left; auto.
    + intros [[-> _]|[_ (m & f & Hm & _)]]; [reflexivity | discriminate].
  - rewrite <- Eidx.
    destruct (py_max (map snd (out_index us_covid))) as [m|e'] eqn:Em;
      [|rewrite Eidx in Em; discriminate].
    simpl. unfold loc_list.
    match goal with
    | |- context [loc_label ?p] => remember p as power eqn:Epower
    end.
    assert (Hbody : forall f e', loc_label power f = Raise e' <->
                      e' = KeyError /\ ~ In (f, m) (out_index us_covid)).
    { intros f e'. rewrite loc_label_raises, Epower.
      destruct (in_dec long_key_eq_dec (f, m) (out_index us_covid)) as [Hin|Hnot].
      - pose proof (filter_key_nonempty us_covid f m Hin) as Hne.
        split; intros [He Hx]; contradiction.
      - pose proof (filter_key_empty us_covid f m Hnot) as Hnil.
        split; intros [He _]; auto. }
    split.
    + intro H.
      destruct (mapM (loc_label power) (county_fips ld)) as [bs|e'] eqn:E;
        simpl in H; [discriminate|]. inversion H; subst e'.
      apply mapM_raise in E. destruct E as (f & Hf & Hb).
      apply Hbody in Hb. destruct Hb as [-> Hnot].
      right; split; [reflexivity|]. exists m, f; auto.
    + intros [[_ Hnil]|[-> (m' & f & Hm & Hf & Hnot)]];
        [rewrite Eidx in Hnil; discriminate|].
      inversion Hm; subst m'.
      assert (Hb : loc_label power f = Raise KeyError) by (apply Hbody; auto).
      destruct (mapM_fails (loc_label power) _ _ _ Hf Hb) as (e' & He').
      pose proof He' as He''. apply mapM_raise in He''.
      destruct He'' as (f' & _ & Hb'). apply Hbody in Hb'.
      destruct Hb' as [-> _]. rewrite He'; reflexivity.
Qed.


